(** * AI Response Quality Analyzer: generation pipeline and scoring engine

    A shallow embedding of the backend's response-generation pipeline
    (the class [LLMService] of [services/llmService.ts], the routes
    [routes/generation.ts] and [routes/export.ts]) and of its
    quality-scoring engine (the class [QualityMetricsService]), together
    with the properties the design document states about them.

    Modelling conventions.
    - A JavaScript [number] is an extended rational: a finite value, one of
      the two infinities, or NaN.  Arithmetic on finite values is exact, so
      the rounding error of binary64 and the sign of zero are not modelled.
    - A JavaScript string is a [string] of code units below 256 (Latin-1);
      [toLowerCase], [trim] and the regular-expression class [\s] are the
      restrictions of the ECMAScript ones to that range.
    - [Math.random], [Date.now], the provider SDK and the persistence layer
      are read from, and logged into, an explicit [World]; an [async]
      function is a function from worlds to an outcome and a world.
    - [console.log] output is not modelled. *)

From Stdlib Require Import ZArith QArith Qround Qabs Qminmax Lqa Lia.
From Stdlib Require Import List String Ascii Bool Arith.
From Stdlib Require Import DecimalString.
Import ListNotations.

Local Open Scope string_scope.
Local Open Scope Q_scope.

(* ------------------------------------------------------------------ *)
(** ** JavaScript numbers *)
(* ------------------------------------------------------------------ *)

Inductive number : Type :=
| Fin (q : Q)
| PosInf
| NegInf
| NaN.

Module Num.

Definition is_zero (q : Q) : bool := Qeq_bool q 0.
Definition is_neg (q : Q) : bool := negb (Qle_bool 0 q).

Definition neg (a : number) : number :=
  match a with
  | Fin x => Fin (- x)
  | PosInf => NegInf
  | NegInf => PosInf
  | NaN => NaN
  end.

(** [a + b] *)
Definition add (a b : number) : number :=
  match a, b with
  | NaN, _ | _, NaN => NaN
  | Fin x, Fin y => Fin (x + y)
  | PosInf, NegInf | NegInf, PosInf => NaN
  | PosInf, _ | _, PosInf => PosInf
  | NegInf, _ | _, NegInf => NegInf
  end.

(** [a - b] *)
Definition sub (a b : number) : number := add a (neg b).

(** The infinity whose sign is the product of the signs of [a] and of a
    finite non-zero [q]. *)
Definition scale_inf (positive : bool) (q : Q) : number :=
  if is_zero q then NaN
  else if xorb positive (is_neg q) then PosInf else NegInf.

(** [a * b] *)
Definition mul (a b : number) : number :=
  match a, b with
  | NaN, _ | _, NaN => NaN
  | Fin x, Fin y => Fin (x * y)
  | PosInf, Fin y | Fin y, PosInf => scale_inf true y
  | NegInf, Fin y | Fin y, NegInf => scale_inf false y
  | PosInf, PosInf | NegInf, NegInf => PosInf
  | PosInf, NegInf | NegInf, PosInf => NegInf
  end.

(** [a / b]; a zero divisor is taken as [+0]. *)
Definition div (a b : number) : number :=
  match a, b with
  | NaN, _ | _, NaN => NaN
  | Fin x, Fin y =>
      if is_zero y then
        (if is_zero x then NaN else if is_neg x then NegInf else PosInf)
      else Fin (x / y)
  | Fin _, (PosInf | NegInf) => Fin 0
  | PosInf, Fin y => if is_neg y then NegInf else PosInf
  | NegInf, Fin y => if is_neg y then PosInf else NegInf
  | (PosInf | NegInf), (PosInf | NegInf) => NaN
  end.

(** [a < b] *)
Definition lt (a b : number) : bool :=
  match a, b with
  | NaN, _ | _, NaN => false
  | Fin x, Fin y => negb (Qle_bool y x)
  | NegInf, (Fin _ | PosInf) => true
  | Fin _, PosInf => true
  | _, _ => false
  end.

(** [a > b] *)
Definition gt (a b : number) : bool := lt b a.

(** [a === b] *)
Definition strict_eq (a b : number) : bool :=
  match a, b with
  | Fin x, Fin y => Qeq_bool x y
  | PosInf, PosInf | NegInf, NegInf => true
  | _, _ => false
  end.

(** ToBoolean: [0] and [NaN] are falsy. *)
Definition truthy (a : number) : bool :=
  match a with
  | Fin x => negb (is_zero x)
  | NaN => false
  | _ => true
  end.

(** [a || b] on numbers. *)
Definition or_else (a b : number) : number := if truthy a then a else b.

Definition of_Z (z : Z) : number := Fin (inject_Z z).
Definition of_nat (n : nat) : number := of_Z (Z.of_nat n).



(** The value lies in the closed interval [[lo, hi]]. *)
Definition within (lo hi : Q) (a : number) : Prop :=
  match a with
  | Fin x => lo <= x <= hi
  | _ => False
  end.

End Num.

Declare Scope js_scope.
Delimit Scope js_scope with js.
Bind Scope js_scope with number.
Infix "+" := Num.add : js_scope.
Infix "-" := Num.sub : js_scope.
Infix "*" := Num.mul : js_scope.
Infix "/" := Num.div : js_scope.

(** The [Math] object. *)
Module Math.

(** [Math.round]: the nearest integer, ties towards [+Infinity]. *)
Definition round (a : number) : number :=
  match a with
  | Fin x => Num.of_Z (Qfloor (x + (1 # 2)))
  | other => other
  end.

Definition floor (a : number) : number :=
  match a with
  | Fin x => Num.of_Z (Qfloor x)
  | other => other
  end.

Definition abs (a : number) : number :=
  match a with
  | Fin x => Fin (Qabs x)
  | NaN => NaN
  | _ => PosInf
  end.

Definition min (a b : number) : number :=
  match a, b with
  | NaN, _ | _, NaN => NaN
  | _, _ => if Num.lt b a then b else a
  end.

(** [Math.pow(b, e)] for a natural exponent. *)
Fixpoint pow (b : number) (e : nat) : number :=
  match e with
  | O => Fin 1
  | S e' => (b * pow b e')%js
  end.

End Math.

(** [Math.round(x * 100) / 100], the idiom used for every emitted score. *)
Definition round_100 (x : number) : number :=
  (Math.round (x * Fin 100) / Fin 100)%js.

(* ------------------------------------------------------------------ *)
(** ** JavaScript strings *)
(* ------------------------------------------------------------------ *)

Module Str.

Definition code (c : ascii) : nat := nat_of_ascii c.

(** The class [\s], which is also what [trim] strips. *)
Definition isWhiteSpace (c : ascii) : bool :=
  let n := code c in
  ((9 <=? n) && (n <=? 13) || (n =? 32) || (n =? 160))%nat.

Definition lower_char (c : ascii) : ascii :=
  let n := code c in
  if ((65 <=? n) && (n <=? 90)
      || (192 <=? n) && (n <=? 222) && negb (n =? 215))%nat
  then ascii_of_nat (n + 32) else c.

Fixpoint toLowerCase (s : string) : string :=
  match s with
  | EmptyString => EmptyString
  | String c r => String (lower_char c) (toLowerCase r)
  end.

Definition of_rev (acc : list ascii) : string :=
  string_of_list_ascii (rev acc).

(** [s.split(/[sep]+/)]: the pieces between the maximal runs of
    separator characters, empty first and last pieces included.
    [acc] is the current piece, reversed; [in_run] tells that the
    previous character was a separator. *)
Fixpoint split_go (sep : ascii -> bool) (in_run : bool)
         (acc : list ascii) (s : string) : list string :=
  match s with
  | EmptyString => [of_rev acc]
  | String c r =>
      if sep c then
        if in_run then split_go sep true acc r
        else of_rev acc :: split_go sep true [] r
      else split_go sep false (c :: acc) r
  end.

Definition split (sep : ascii -> bool) (s : string) : list string :=
  split_go sep false [] s.

Fixpoint trimStart (s : string) : string :=
  match s with
  | EmptyString => EmptyString
  | String c r => if isWhiteSpace c then trimStart r else s
  end.

Fixpoint trimEnd (s : string) : string :=
  match s with
  | EmptyString => EmptyString
  | String c r =>
      match trimEnd r with
      | EmptyString => if isWhiteSpace c then EmptyString
                       else String c EmptyString
      | r' => String c r'
      end
  end.

Definition trim (s : string) : string := trimEnd (trimStart s).

(** [s.includes(pat)] *)
Fixpoint includes (s pat : string) : bool :=
  prefix pat s ||
  match s with
  | EmptyString => false
  | String _ r => includes r pat
  end.

Definition of_nat (n : nat) : string :=
  NilZero.string_of_uint (Nat.to_uint n).

Definition is_empty (s : string) : bool :=
  match s with EmptyString => true | _ => false end.

End Str.

(** [new Set(words)]: the distinct elements, in order of first insertion. *)
Module JsSet.

Definition has (s : list string) (w : string) : bool :=
  existsb (String.eqb w) s.

Fixpoint add_all (seen : list string) (l : list string) : list string :=
  match l with
  | [] => []
  | w :: r => if has seen w then add_all seen r
              else w :: add_all (w :: seen) r
  end.

Definition of_list (l : list string) : list string := add_all [] l.

Definition size (s : list string) : nat := List.length s.

End JsSet.

(** [x.toFixed(digits)] for values below [1e21]. *)
Module Fmt.

Fixpoint zeros (n : nat) : string :=
  match n with
  | O => EmptyString
  | S n' => String "0"%char (zeros n')
  end.

Definition pad_left (width : nat) (s : string) : string :=
  zeros (width - String.length s) ++ s.

Definition toFixed (digits : nat) (a : number) : string :=
  match a with
  | Fin x =>
      let scale := (10 ^ Z.of_nat digits)%Z in
      let n := Qfloor (Qabs x * inject_Z scale + (1 # 2)) in
      let int_part := Str.of_nat (Z.to_nat (n / scale)) in
      let frac_part := pad_left digits (Str.of_nat (Z.to_nat (n mod scale))) in
      (if Num.is_neg x then "-" else "")
        ++ int_part
        ++ (if (digits =? 0)%nat then "" else "." ++ frac_part)
  | PosInf => "Infinity"
  | NegInf => "-Infinity"
  | NaN => "NaN"
  end.

End Fmt.

(* ------------------------------------------------------------------ *)
(** ** Data model ([types/index.ts]) *)
(* ------------------------------------------------------------------ *)

Record GenerationParameters : Type := {
  temperature : number;
  top_p : number;
  max_tokens : number;
  model : option string
}.

Record Bounds : Type := {
  min : number;
  max : number;
  step : number
}.

Record ParameterRange : Type := {
  range_temperature : Bounds;
  range_top_p : Bounds;
  range_max_tokens : Bounds
}.

Record QualityMetrics : Type := {
  coherence : number;
  completeness : number;
  readability : number;
  relevance : number;
  overallScore : number
}.

Record MetricDetails : Type := {
  score : number;
  explanation : string;
  calculation : string;
  factors : list (string * number)
}.

(* ------------------------------------------------------------------ *)
(** ** Quality scoring engine ([QualityMetricsService]) *)
(* ------------------------------------------------------------------ *)

Module QualityMetricsService.

Definition bool_number (b : bool) : number := if b then Fin 1 else Fin 0.

(** [s.toLowerCase().split(/\s+/).filter(word => word.length > n)] *)
Definition words_longer_than (n : nat) (s : string) : list string :=
  filter (fun word => (n <? String.length word)%nat)
         (Str.split Str.isWhiteSpace (Str.toLowerCase s)).

Definition calculateCoherence (content : string) : MetricDetails :=
  let words := words_longer_than 0 content in
  let uniqueWords := JsSet.of_list words in
  if (List.length words =? 0)%nat then
    {| score := Fin 0;
       explanation :=
         "Coherence measures vocabulary diversity. No words found in content.";
       calculation := "No words to analyze";
       factors := [("uniqueWords", Fin 0); ("totalWords", Fin 0);
                   ("uniqueRatio", Fin 0)] |}
  else
    let uniqueRatio :=
      (Num.of_nat (JsSet.size uniqueWords) / Num.of_nat (List.length words))%js in
    let score' := Math.min (Fin 1) (uniqueRatio * Fin 1.2)%js in
    {| score := round_100 score';
       explanation :=
         "Coherence measures vocabulary diversity. Score based on unique word ratio ("
           ++ Str.of_nat (JsSet.size uniqueWords) ++ "/"
           ++ Str.of_nat (List.length words) ++ " = "
           ++ Fmt.toFixed 3 uniqueRatio ++ ")";
       calculation := "unique_words / total_words * 1.2, capped at 1.0";
       factors := [("uniqueWords", Num.of_nat (JsSet.size uniqueWords));
                   ("totalWords", Num.of_nat (List.length words));
                   ("uniqueRatio", uniqueRatio)] |}.

Definition questionWords : list string :=
  ["what"; "how"; "why"; "when"; "where"; "who"; "which"; "explain";
   "describe"; "tell"].

Definition answerIndicators : list string :=
  ["yes"; "no"; "because"; "therefore"; "however"; "specifically";
   "for example"].

(** [[...promptSet].filter(word => contentSet.has(word))] *)
Definition overlap_of (promptSet contentSet : list string) : list string :=
  filter (fun word => JsSet.has contentSet word) promptSet.

Definition calculateCompleteness (content prompt : string) : MetricDetails :=
  let promptWords := words_longer_than 2 prompt in
  let contentWords := words_longer_than 2 content in
  let hasQuestion :=
    existsb (fun q => Str.includes (Str.toLowerCase prompt) q) questionWords in
  let hasDirectAnswer :=
    existsb (fun a => Str.includes (Str.toLowerCase content) a)
            answerIndicators in
  let promptSet := JsSet.of_list promptWords in
  let contentSet := JsSet.of_list contentWords in
  let overlap := List.length (overlap_of promptSet contentSet) in
  let overlapRatio :=
    if (0 <? List.length promptWords)%nat
    then (Num.of_nat overlap / Num.of_nat (List.length promptWords))%js
    else Fin 0 in
  let score0 := Math.min (Fin 1) (overlapRatio * Fin 1.5)%js in
  let score1 :=
    if hasQuestion && hasDirectAnswer
    then Math.min (Fin 1) (score0 + Fin 0.2)%js else score0 in
  let score2 :=
    if (List.length contentWords <? 10)%nat
    then (score1 * Fin 0.7)%js else score1 in
  {| score := round_100 score2;
     explanation :=
       "Completeness measures how well the response addresses the prompt. Based on keyword overlap and answer patterns.";
     calculation :=
       "keyword_overlap_ratio * 1.5 + direct_answer_bonus, capped at 1.0";
     factors := [("keywordOverlap", Num.of_nat overlap);
                 ("totalPromptWords", Num.of_nat (List.length promptWords));
                 ("overlapRatio", overlapRatio);
                 ("hasQuestion", bool_number hasQuestion);
                 ("hasDirectAnswer", bool_number hasDirectAnswer);
                 ("responseLength", Num.of_nat (List.length contentWords))] |}.

(** The class [[.!?]]. *)
Definition isSentenceEnd (c : ascii) : bool :=
  (Ascii.eqb c "." || Ascii.eqb c "!" || Ascii.eqb c "?")%char.

(** [l.reduce((a, b) => a + b, 0)] *)
Definition sumOf (l : list number) : number :=
  fold_left Num.add l (Fin 0).

Definition optimalLength : number := Fin 17.5.

Definition calculateReadability (content : string) : MetricDetails :=
  let sentences :=
    filter (fun s => (0 <? String.length (Str.trim s))%nat)
           (Str.split isSentenceEnd content) in
  if (List.length sentences =? 0)%nat then
    {| score := Fin 0;
       explanation := "No complete sentences found";
       calculation := "No sentences to analyze";
       factors := [("sentenceCount", Fin 0); ("averageLength", Fin 0)] |}
  else
    let sentenceLengths :=
      map (fun s => Num.of_nat
                      (List.length (Str.split Str.isWhiteSpace (Str.trim s))))
          sentences in
    let count := Num.of_nat (List.length sentenceLengths) in
    let averageLength := (sumOf sentenceLengths / count)%js in
    let lengthScore :=
      (Fin 1 - Math.abs (averageLength - optimalLength) / optimalLength)%js in
    let variance :=
      (fold_left
         (fun acc len => (acc + Math.pow (len - averageLength) 2)%js)
         sentenceLengths (Fin 0) / count)%js in
    let varietyScore := Math.min (Fin 1) (variance / Fin 50)%js in
    let score' := (lengthScore * Fin 0.7 + varietyScore * Fin 0.3)%js in
    {| score := round_100 score';
       explanation :=
         "Readability measures sentence structure quality. Based on optimal sentence length (15-20 words) and variety.";
       calculation := "(length_score * 0.7 + variety_score * 0.3)";
       factors := [("sentenceCount", Num.of_nat (List.length sentences));
                   ("averageLength", round_100 averageLength);
                   ("lengthScore", round_100 lengthScore);
                   ("varietyScore", round_100 varietyScore);
                   ("variance", round_100 variance)] |}.

Definition stopWords : list string :=
  JsSet.of_list
    ["the"; "and"; "or"; "but"; "in"; "on"; "at"; "to"; "for"; "of"; "with";
     "by"; "is"; "are"; "was"; "were"; "be"; "been"; "have"; "has"; "had";
     "do"; "does"; "did"; "will"; "would"; "could"; "should"; "may"; "might";
     "can"; "this"; "that"; "these"; "those"].

Definition calculateRelevance (content prompt : string) : MetricDetails :=
  let promptWords := words_longer_than 2 prompt in
  let contentWords := words_longer_than 2 content in
  let filteredPromptWords :=
    filter (fun word => negb (JsSet.has stopWords word)) promptWords in
  let filteredContentWords :=
    filter (fun word => negb (JsSet.has stopWords word)) contentWords in
  if (List.length filteredPromptWords =? 0)%nat then
    {| score := Fin 0.5;
       explanation :=
         "Prompt contains only stop words, using neutral relevance score";
       calculation := "Neutral score for stop-word-only prompt";
       factors := [("promptWords", Num.of_nat (List.length promptWords));
                   ("contentWords", Num.of_nat (List.length contentWords))] |}
  else
    let promptSet := JsSet.of_list filteredPromptWords in
    let contentSet := JsSet.of_list filteredContentWords in
    let overlap := overlap_of promptSet contentSet in
    let overlapRatio :=
      (Num.of_nat (List.length overlap)
       / Num.of_nat (List.length filteredPromptWords))%js in
    let topicConsistency := Math.min (Fin 1) (overlapRatio * Fin 1.3)%js in
    let score' :=
      if Num.lt overlapRatio (Fin 0.1)
      then (topicConsistency * Fin 0.5)%js else topicConsistency in
    {| score := round_100 score';
       explanation :=
         "Relevance measures how well the response stays on topic. Based on meaningful keyword overlap.";
       calculation := "meaningful_keyword_overlap * 1.3, with off-topic penalty";
       factors := [("promptWords", Num.of_nat (List.length filteredPromptWords));
                   ("contentWords",
                    Num.of_nat (List.length filteredContentWords));
                   ("overlap", Num.of_nat (List.length overlap));
                   ("overlapRatio", round_100 overlapRatio);
                   ("topicConsistency", round_100 topicConsistency)] |}.

Definition weight_coherence : number := Fin 0.25.
Definition weight_completeness : number := Fin 0.30.
Definition weight_readability : number := Fin 0.20.
Definition weight_relevance : number := Fin 0.25.

Definition calculateOverallScore (metrics : QualityMetrics) : number :=
  let weightedSum :=
    (coherence metrics * weight_coherence
     + completeness metrics * weight_completeness
     + readability metrics * weight_readability
     + relevance metrics * weight_relevance)%js in
  round_100 weightedSum.

Record AllMetrics : Type := {
  metrics : QualityMetrics;
  details : list (string * MetricDetails)
}.

Definition calculateAllMetrics (content prompt : string) : AllMetrics :=
  let coherence' := calculateCoherence content in
  let completeness' := calculateCompleteness content prompt in
  let readability' := calculateReadability content in
  let relevance' := calculateRelevance content prompt in
  let metrics0 :=
    {| coherence := score coherence';
       completeness := score completeness';
       readability := score readability';
       relevance := score relevance';
       overallScore := Fin 0 |} in
  let metrics1 :=
    {| coherence := coherence metrics0;
       completeness := completeness metrics0;
       readability := readability metrics0;
       relevance := relevance metrics0;
       overallScore := calculateOverallScore metrics0 |} in
  {| metrics := metrics1;
     details := [("coherence", coherence'); ("completeness", completeness');
                 ("readability", readability'); ("relevance", relevance')] |}.

End QualityMetricsService.

Import QualityMetricsService.

(* ------------------------------------------------------------------ *)
(** ** The world the pipeline runs in *)
(* ------------------------------------------------------------------ *)

(** A thrown JavaScript value.  A provider error carries the HTTP status
    of the failed call when the SDK reports one. *)
Inductive JsError : Type :=
| ProviderError (status : option Z) (message : string)
| TypeError (message : string)
| DbError (message : string).

Definition error_status (e : JsError) : option Z :=
  match e with
  | ProviderError status _ => status
  | _ => None
  end.

Definition error_message (e : JsError) : string :=
  match e with
  | ProviderError _ m | TypeError m | DbError m => m
  end.

(** What [model.generateContent(...)] followed by [response.text()] does. *)
Inductive ProviderOutcome : Type :=
| ProviderText (text : string)
| ProviderFails (e : JsError).

Record ProviderRequest : Type := {
  req_model : string;
  req_prompt : string;
  req_temperature : number;
  req_topP : number
}.

Inductive DbOp : Type :=
| ExperimentCreate (prompt : string) (totalRuns : number)
| ResponseCreate (experimentId : nat) (content : string)
| MetricCalculationCreate (responseId : nat) (metricType : string)
                          (score : number)
| ExperimentUpdate (experimentId : nat) (totalRuns : number).

Inductive Event : Type :=
| EvProviderCall (request : ProviderRequest)
| EvSleep (ms : number)
| EvDb (op : DbOp).

(** - [random_source] gives the successive draws of [Math.random()], in
      units of [2^-53];
    - [clock] gives the successive readings of [Date.now()];
    - [provider] answers the n-th call made to the remote provider;
    - [db_fails] tells whether the n-th persistence operation throws;
    - [trace] logs the outward effects, oldest first. *)
Record World : Type := {
  random_source : nat -> N;
  random_pos : nat;
  clock : nat -> Z;
  clock_pos : nat;
  provider : nat -> ProviderRequest -> ProviderOutcome;
  provider_calls : nat;
  db_fails : nat -> bool;
  db_ops : nat;
  trace : list Event
}.

Definition is_provider_call (e : Event) : bool :=
  match e with EvProviderCall _ => true | _ => false end.

Definition is_db_event (e : Event) : bool :=
  match e with EvDb _ => true | _ => false end.

(** The world after one more draw of [Math.random()]. *)
Definition next_random (w : World) : World :=
  {| random_source := random_source w; random_pos := S (random_pos w);
     clock := clock w; clock_pos := clock_pos w;
     provider := provider w; provider_calls := provider_calls w;
     db_fails := db_fails w; db_ops := db_ops w;
     trace := trace w |}.

(** The world after one more reading of [Date.now()]. *)
Definition next_clock (w : World) : World :=
  {| random_source := random_source w; random_pos := random_pos w;
     clock := clock w; clock_pos := S (clock_pos w);
     provider := provider w; provider_calls := provider_calls w;
     db_fails := db_fails w; db_ops := db_ops w;
     trace := trace w |}.

(** The world after the outward effect [e]. *)
Definition record_event (e : Event) (w : World) : World :=
  {| random_source := random_source w; random_pos := random_pos w;
     clock := clock w; clock_pos := clock_pos w;
     provider := provider w;
     provider_calls :=
       if is_provider_call e then S (provider_calls w) else provider_calls w;
     db_fails := db_fails w;
     db_ops := if is_db_event e then S (db_ops w) else db_ops w;
     trace := trace w ++ [e] |}.

(** The value of the next draw of [Math.random()]: a multiple of [2^-53]
    in [[0, 1)]. *)
Definition random_value (w : World) : Q :=
  Z.of_N (random_source w (random_pos w) mod 2 ^ 53) # 2 ^ 53.

(** The result of running an (async) function: it returns, it throws, or
    it never finishes. *)
Inductive Outcome (A : Type) : Type :=
| Returns (a : A)
| Throws (e : JsError)
| Diverges.

Arguments Returns {A} a.
Arguments Throws {A} e.
Arguments Diverges {A}.

Definition Js (A : Type) : Type := World -> Outcome A * World.

Module JsM.

Definition ret {A} (a : A) : Js A := fun w => (Returns a, w).

Definition bind {A B} (m : Js A) (k : A -> Js B) : Js B :=
  fun w =>
    match m w with
    | (Returns a, w') => k a w'
    | (Throws e, w') => (Throws e, w')
    | (Diverges, w') => (Diverges, w')
    end.

Definition throw {A} (e : JsError) : Js A := fun w => (Throws e, w).

Definition diverge {A} : Js A := fun w => (Diverges, w).

(** [try { body } catch (error) { handler(error) }] *)
Definition try_catch {A} (body : Js A) (handler : JsError -> Js A) : Js A :=
  fun w =>
    match body w with
    | (Throws e, w') => handler e w'
    | other => other
    end.

Definition log (e : Event) : Js unit :=
  fun w => (Returns tt, record_event e w).

(** [Math.random()] *)
Definition Math_random : Js number :=
  fun w => (Returns (Fin (random_value w)), next_random w).

(** [Date.now()] *)
Definition Date_now : Js number :=
  fun w => (Returns (Num.of_Z (clock w (clock_pos w))), next_clock w).

(** [await new Promise(resolve => setTimeout(resolve, ms))] *)
Definition sleep (ms : number) : Js unit := log (EvSleep ms).

(** One call to the remote provider: logged, then answered by the world. *)
Definition call_provider (request : ProviderRequest) : Js string :=
  fun w =>
    let w' := record_event (EvProviderCall request) w in
    match provider w (provider_calls w) request with
    | ProviderText text => (Returns text, w')
    | ProviderFails e => (Throws e, w')
    end.

(** One persistence operation; it returns the id of the record. *)
Definition db (op : DbOp) : Js nat :=
  fun w =>
    if db_fails w (db_ops w) then
      (Throws (DbError "database operation failed"), w)
    else (Returns (db_ops w), record_event (EvDb op) w).

End JsM.

Import JsM.

Declare Scope jsm_scope.
Delimit Scope jsm_scope with jsm.
Notation "x <- m ;; k" := (bind m (fun x => k))
  (at level 61, m at next level, right associativity) : jsm_scope.
Notation "m ;;; k" := (bind m (fun _ => k))
  (at level 61, right associativity) : jsm_scope.
Local Open Scope jsm_scope.

(** [arr[i]]: [undefined] unless [i] is an index of the array. *)
Definition array_get {A} (arr : list A) (i : number) : option A :=
  match i with
  | Fin q =>
      if Qeq_bool q (inject_Z (Qfloor q)) && (0 <=? Qfloor q)%Z
      then nth_error arr (Z.to_nat (Qfloor q)) else None
  | _ => None
  end.

(** The number of iterations of [for (let i = 0; i < count; i++)];
    [None] when the loop never ends. *)
Definition loop_bound (count : number) : option nat :=
  match count with
  | Fin q => Some (Z.to_nat (Qceiling q))
  | PosInf => None
  | NegInf | NaN => Some O
  end.

(* ------------------------------------------------------------------ *)
(** ** Provider adapter ([LLMService]) *)
(* ------------------------------------------------------------------ *)

Record GeneratedResult : Type := {
  content : string;
  tokensUsed : number;
  generationTime : number
}.

(** An element of the array [generateMultipleResponses] returns:
    [{ ...result, parameters: params }]. *)
Record BatchResult : Type := {
  result : GeneratedResult;
  parameters : GenerationParameters
}.

(** [genAI] is the SDK client, or [null]. *)
Record LLMService : Type := {
  genAI : option unit;
  isMockMode : bool
}.

Record Env : Type := {
  GEMINI_PROJECT_KEY : option string;
  GEMINI_PROJECT_NAME : option string;
  GEMINI_PROJECT_NUMBER : option string
}.

Module LLM.

(** [v && v !== placeholder] *)
Definition configured (v : option string) (placeholder : string) : bool :=
  match v with
  | Some s => negb (Str.is_empty s) && negb (String.eqb s placeholder)
  | None => false
  end.

Definition constructor (env : Env) : LLMService :=
  if configured (GEMINI_PROJECT_KEY env) "your_gemini_project_key_here"
     && configured (GEMINI_PROJECT_NAME env) "your_gemini_project_name_here"
     && configured (GEMINI_PROJECT_NUMBER env)
                   "your_gemini_project_number_here"
  then {| genAI := Some tt; isMockMode := false |}
  else {| genAI := None; isMockMode := true |}.

Definition nl : string := String (ascii_of_nat 10) EmptyString.

Definition enhancePrompt (originalPrompt : string) : string :=
  "Please provide a helpful, educational response to the following request. Focus on being informative and constructive. "
    ++ nl ++ nl ++ "Request: " ++ originalPrompt ++ nl ++ nl
    ++ "Please respond with detailed, well-structured content that addresses the request thoroughly.".

Definition generateCreativeWritingResponse (prompt : string)
           (parameters : GenerationParameters) : Js (option string) :=
  let creativityLevel :=
    if Num.gt (temperature parameters) (Fin 0.7) then "highly imaginative"
    else if Num.gt (temperature parameters) (Fin 0.4)
         then "moderately creative" else "structured" in
  let responses :=
    [
     "Here's a "
       ++ creativityLevel
       ++ " story that captures the essence of your prompt. The narrative unfolds with careful attention to character development and plot progression, creating an engaging experience that draws readers into the world you've envisioned.";
     "This creative piece demonstrates the power of storytelling through "
       ++ creativityLevel
       ++ " narrative techniques. The characters come to life through dialogue and action, while the plot develops naturally from the initial premise. Each scene builds upon the previous one, creating a cohesive and compelling story.";
     "The story begins with an intriguing premise that immediately captures the reader's attention. Through "
       ++ creativityLevel
       ++ " storytelling, the narrative explores themes of growth, discovery, and human connection. The writing style adapts to the creative parameters, resulting in a unique voice that serves the story well.";
     "In this creative exploration, the author demonstrates mastery of narrative techniques while maintaining focus on the core story elements. The "
       ++ creativityLevel
       ++ " approach ensures that readers remain engaged throughout, with each paragraph contributing to the overall impact of the piece.";
     "This story showcases the art of creative writing through careful attention to detail and character development. The "
       ++ creativityLevel
       ++ " style creates an immersive experience that allows readers to connect with the characters and become invested in their journey."
    ] in
  r <- Math_random ;;
  ret (array_get responses
         (Math.floor (r * Num.of_nat (List.length responses))%js)).

Definition generateExplanationResponse (prompt : string)
           (parameters : GenerationParameters) : Js (option string) :=
  let clarityLevel :=
    if Num.lt (temperature parameters) (Fin 0.5) then "precise and technical"
    else "conversational and accessible" in
  let responses :=
    [
     "Let me explain this concept in a "
       ++ clarityLevel
       ++ " manner. The topic involves several interconnected components that work together to create the overall system. Understanding each part helps build a comprehensive picture of how everything functions together.";
     "This explanation takes a "
       ++ clarityLevel
       ++ " approach to break down complex ideas into understandable components. Each section builds upon the previous one, creating a logical progression that helps readers grasp the fundamental concepts and their practical applications.";
     "To understand this topic fully, we need to examine it from multiple perspectives. This "
       ++ clarityLevel
       ++ " explanation provides the necessary context while maintaining clarity throughout. Key concepts are highlighted and supported with relevant examples that illustrate the main points effectively.";
     "The explanation begins with foundational knowledge and gradually introduces more advanced concepts. This "
       ++ clarityLevel
       ++ " approach ensures that readers can follow the reasoning and build their understanding progressively, making complex topics more accessible.";
     "This comprehensive explanation covers the essential aspects while acknowledging the complexity of the subject matter. The "
       ++ clarityLevel
       ++ " style ensures that readers can grasp both the theoretical framework and practical applications of the concepts being discussed."
    ] in
  r <- Math_random ;;
  ret (array_get responses
         (Math.floor (r * Num.of_nat (List.length responses))%js)).

Definition generateQAResponse (prompt : string)
           (parameters : GenerationParameters) : Js (option string) :=
  let directness :=
    if Num.lt (temperature parameters) (Fin 0.4) then "direct and concise"
    else "comprehensive and nuanced" in
  let responses :=
    [
     "Based on the information available, here's a "
       ++ directness
       ++ " answer to your question. The response considers multiple factors and provides a balanced perspective that addresses the core aspects of what you're asking about.";
     "Your question touches on an important topic that requires careful consideration. This "
       ++ directness
       ++ " response examines the evidence and provides insights that help clarify the situation while acknowledging the complexity involved.";
     "To answer your question effectively, I'll provide a "
       ++ directness
       ++ " response that addresses both the immediate aspects and the broader context. This approach ensures you receive a complete and accurate answer that considers all relevant factors.";
     "The answer to your question involves several key considerations. This "
       ++ directness
       ++ " response provides a thorough analysis that helps explain not just what the answer is, but why it's the case and what implications it might have.";
     "Here's a "
       ++ directness
       ++ " response that addresses your question while providing the necessary context to understand the answer fully. The explanation considers different perspectives and evidence to arrive at a well-informed conclusion."
    ] in
  r <- Math_random ;;
  ret (array_get responses
         (Math.floor (r * Num.of_nat (List.length responses))%js)).

Definition generateCodeResponse (prompt : string)
           (parameters : GenerationParameters) : Js (option string) :=
  let complexity :=
    if Num.gt (temperature parameters) (Fin 0.6)
    then "detailed and comprehensive" else "concise and focused" in
  let responses :=
    [
     "Here's a "
       ++ complexity
       ++ " solution to your programming challenge. The code demonstrates best practices and includes clear comments that explain the logic and approach. The implementation is structured for readability and maintainability.";
     "This programming solution addresses your requirements using "
       ++ complexity
       ++ " techniques. The code follows clean code principles and includes proper error handling, making it robust and suitable for production use.";
     "The solution demonstrates effective problem-solving through "
       ++ complexity
       ++ " programming techniques. Each function has a clear purpose, and the overall architecture makes the code easy to understand, test, and modify as needed.";
     "This code implementation provides a solid foundation for the requested functionality. The "
       ++ complexity
       ++ " approach ensures that the solution is both complete and understandable, making it suitable for learning and practical application.";
     "Here's a "
       ++ complexity
       ++ " programming solution that showcases good software engineering practices. The code balances functionality with code quality, considering edge cases and providing clear documentation for future maintenance."
    ] in
  r <- Math_random ;;
  ret (array_get responses
         (Math.floor (r * Num.of_nat (List.length responses))%js)).

Definition generateGeneralResponse (prompt : string)
           (parameters : GenerationParameters) : Js (option string) :=
  let style :=
    if Num.gt (temperature parameters) (Fin 0.7) then "creative and engaging"
    else if Num.lt (temperature parameters) (Fin 0.3)
         then "formal and structured" else "balanced and informative" in
  let responses :=
    [
     "This is an interesting topic that deserves thoughtful consideration. The "
       ++ style
       ++ " approach allows for a comprehensive exploration while maintaining focus on the key points that matter most to your specific question or request.";
     "Your prompt raises several important points that warrant careful analysis. The "
       ++ style
       ++ " style of response ensures that each aspect receives appropriate attention while maintaining coherence throughout the discussion.";
     "This topic encompasses multiple dimensions that are worth exploring in detail. The response takes a "
       ++ style
       ++ " approach, balancing depth with accessibility to provide a meaningful and engaging answer to your prompt.";
     "The subject matter you've raised involves various interconnected elements that work together to create a complex system. A "
       ++ style
       ++ " response allows for thorough coverage while ensuring that the main points are clearly communicated and well-supported.";
     "Your prompt addresses an important area that benefits from careful analysis and thoughtful consideration. The "
       ++ style
       ++ " approach ensures that the response is both informative and engaging, providing value while maintaining clarity and accessibility."
    ] in
  r <- Math_random ;;
  ret (array_get responses
         (Math.floor (r * Num.of_nat (List.length responses))%js)).

(** The five prompt categories of the mock generator. *)
Definition generateRealisticMockResponse (prompt : string)
           (parameters : GenerationParameters) : Js (option string) :=
  let promptLower := Str.toLowerCase prompt in
  if Str.includes promptLower "story" || Str.includes promptLower "creative"
     || Str.includes promptLower "write"
  then generateCreativeWritingResponse prompt parameters
  else if Str.includes promptLower "explain" || Str.includes promptLower "how"
          || Str.includes promptLower "what is"
  then generateExplanationResponse prompt parameters
  else if Str.includes promptLower "?" || Str.includes promptLower "question"
  then generateQAResponse prompt parameters
  else if Str.includes promptLower "code" || Str.includes promptLower "program"
          || Str.includes promptLower "function"
  then generateCodeResponse prompt parameters
  else generateGeneralResponse prompt parameters.

(** [content.length] on [undefined] throws. *)
Definition defined (content : option string) : Js string :=
  match content with
  | Some c => ret c
  | None =>
      throw (TypeError "Cannot read properties of undefined (reading 'length')")
  end.

(** The [requestId] argument only feeds the log and is left out. *)
Definition generateMockResponse (prompt : string)
           (parameters : GenerationParameters) (startTime : number)
  : Js GeneratedResult :=
  generated <- generateRealisticMockResponse prompt parameters ;;
  content <- defined generated ;;
  r <- Math_random ;;
  let tokensUsed :=
    (Math.floor (Num.of_nat (String.length content) / Fin 4)
     + Math.floor (r * Fin 50))%js in
  now <- Date_now ;;
  r' <- Math_random ;;
  let generationTime :=
    (now - startTime + Math.floor (r' * Fin 1000))%js in
  ret {| content := content; tokensUsed := tokensUsed;
         generationTime := generationTime |}.

Definition defaultModel : string := "gemini-2.5-flash".

(** [parameters.model || 'gemini-2.5-flash'] *)
Definition model_or_default (parameters : GenerationParameters) : string :=
  match model parameters with
  | Some m => if Str.is_empty m then defaultModel else m
  | None => defaultModel
  end.

Definition modelsToTry (parameters : GenerationParameters) : list string :=
  [model_or_default parameters; "gemini-1.5-flash"; "gemini-1.5-pro";
   "gemini-pro"].

(** [this.genAI!.getGenerativeModel(...)] *)
Definition getGenerativeModel (svc : LLMService) : Js unit :=
  match genAI svc with
  | Some client => ret client
  | None =>
      throw (TypeError
               "Cannot read properties of null (reading 'getGenerativeModel')")
  end.

Definition status_is (e : JsError) (code : Z) : bool :=
  match error_status e with
  | Some s => (s =? code)%Z
  | None => false
  end.

Definition isRetryable (error : JsError) : bool :=
  status_is error 503 || status_is error 429
  || status_is error 500 || status_is error 502.

(** How one turn of the model loop ends. *)
Inductive LoopStep : Type :=
| Return (r : GeneratedResult)
| Continue.

Definition mock_and_return (prompt : string)
           (parameters : GenerationParameters) (startTime : number)
  : Js LoopStep :=
  r <- generateMockResponse prompt parameters startTime ;;
  ret (Return r).

(** The body of the [for] loop of [generateResponse], for the model at
    index [attempt] of a list of [total] models. *)
Definition attemptModel (svc : LLMService) (prompt : string)
           (parameters : GenerationParameters) (startTime : number)
           (total attempt : nat) (modelName : string) : Js LoopStep :=
  try_catch
    (getGenerativeModel svc ;;;
     let enhancedPrompt := enhancePrompt prompt in
     content <- call_provider
                  {| req_model := modelName; req_prompt := enhancedPrompt;
                     req_temperature := temperature parameters;
                     req_topP := top_p parameters |} ;;
     if Str.is_empty content
        || (String.length (Str.trim content) =? 0)%nat
     then
       if (attempt =? total - 1)%nat
       then mock_and_return prompt parameters startTime
       else ret Continue
     else
       let tokensUsed :=
         (Math.floor (Num.of_nat (String.length content) / Fin 4)
          + Math.floor (Num.of_nat (String.length prompt) / Fin 4))%js in
       now <- Date_now ;;
       ret (Return {| content := content; tokensUsed := tokensUsed;
                      generationTime := (now - startTime)%js |}))
    (fun error =>
       if isRetryable error && (attempt <? total - 1)%nat then
         let delay :=
           Math.min (Fin 1000 * Math.pow (Fin 2) attempt)%js (Fin 5000) in
         sleep delay ;;;
         ret Continue
       else if (attempt =? total - 1)%nat then
         mock_and_return prompt parameters startTime
       else ret Continue).

Fixpoint tryModels (svc : LLMService) (prompt : string)
         (parameters : GenerationParameters) (startTime : number)
         (total attempt : nat) (models : list string)
  : Js GeneratedResult :=
  match models with
  | [] => generateMockResponse prompt parameters startTime
  | modelName :: rest =>
      step <- attemptModel svc prompt parameters startTime total attempt
                           modelName ;;
      match step with
      | Return r => ret r
      | Continue =>
          tryModels svc prompt parameters startTime total (S attempt) rest
      end
  end.

Definition generateResponse (svc : LLMService) (prompt : string)
           (parameters : GenerationParameters) : Js GeneratedResult :=
  startTime <- Date_now ;;
  Math_random ;;;
  if isMockMode svc then generateMockResponse prompt parameters startTime
  else
    let models := modelsToTry parameters in
    tryModels svc prompt parameters startTime (List.length models) 0 models.

(** The loop of [generateMultipleResponses]; [i] is the index of the
    first of the remaining [combinations], [total] the length of the whole
    array.  No element of the array is [undefined], so the test
    [!params] is left out. *)
Fixpoint batchLoop (svc : LLMService) (prompt : string) (total i : nat)
         (combinations : list GenerationParameters)
         (results : list BatchResult) : Js (list BatchResult) :=
  match combinations with
  | [] => ret results
  | params :: rest =>
      results' <-
        try_catch
          (r <- generateResponse svc prompt params ;;
           let pushed :=
             (results ++ [{| result := r; parameters := params |}])%list in
           (if (i <? total - 1)%nat then sleep (Fin 1000) else ret tt) ;;;
           ret pushed)
          (fun error =>
             (if (i <? total - 1)%nat then sleep (Fin 3000) else ret tt) ;;;
             ret results) ;;
      batchLoop svc prompt total (S i) rest results'
  end.

Definition generateMultipleResponses (svc : LLMService) (prompt : string)
           (parameterCombinations : list GenerationParameters)
  : Js (list BatchResult) :=
  Math_random ;;;
  batchLoop svc prompt (List.length parameterCombinations) 0
            parameterCombinations [].

End LLM.

(* ------------------------------------------------------------------ *)
(** ** Generation route ([routes/generation.ts]) *)
(* ------------------------------------------------------------------ *)

(** The body of a generation request; a field the client left out is
    [None]. *)
Record GenerationRequest : Type := {
  body_prompt : option string;
  body_parameterRange : option ParameterRange;
  body_numberOfRuns : option number;
  body_experimentName : option string;
  body_experimentDescription : option string
}.

(** [generatedAt], a time stamp of the persistence layer, is left out. *)
Record ResponseData : Type := {
  response_id : nat;
  response_content : string;
  response_parameters : GenerationParameters;
  response_metrics : QualityMetrics;
  response_metricDetails : list (string * MetricDetails);
  response_model : string;
  response_tokensUsed : number;
  response_generationTime : number
}.

Record GenerationResponse : Type := {
  experimentId : nat;
  responses : list ResponseData;
  totalRuns : number;
  averageMetrics : QualityMetrics
}.

Inductive ApiBody : Type :=
| Failure (error : string) (message : option string)
| Success (data : GenerationResponse) (message : string).

Record HttpResponse : Type := {
  status : Z;
  body : ApiBody
}.

Module Generation.

Definition randomInRange (lo hi : number) : Js number :=
  r <- Math_random ;;
  ret (r * (hi - lo) + lo)%js.

(** [n] further turns of the loop of [generateParameterCombinations]. *)
Fixpoint sampleLoop (range : ParameterRange) (n : nat)
         (combinations : list GenerationParameters)
  : Js (list GenerationParameters) :=
  match n with
  | O => ret combinations
  | S n' =>
      temperature' <- randomInRange (min (range_temperature range))
                                    (max (range_temperature range)) ;;
      topP <- randomInRange (min (range_top_p range))
                            (max (range_top_p range)) ;;
      drawn <- randomInRange (min (range_max_tokens range))
                             (max (range_max_tokens range)) ;;
      let maxTokens := Math.floor drawn in
      sampleLoop range n'
        (combinations
           ++ [{| temperature := round_100 temperature';
                  top_p := round_100 topP;
                  max_tokens := maxTokens;
                  model := Some "gemini-2.5-flash" |}])%list
  end.

Definition generateParameterCombinations (range : ParameterRange)
           (count : number) : Js (list GenerationParameters) :=
  match loop_bound count with
  | Some n => sampleLoop range n []
  | None => diverge
  end.

Record Totals : Type := {
  totalCoherence : number;
  totalCompleteness : number;
  totalReadability : number;
  totalRelevance : number
}.

Definition noTotals : Totals :=
  {| totalCoherence := Fin 0; totalCompleteness := Fin 0;
     totalReadability := Fin 0; totalRelevance := Fin 0 |}.

(** [totalCoherence += metrics.coherence; ...] *)
Definition addMetrics (totals : Totals) (m : QualityMetrics) : Totals :=
  {| totalCoherence := (totalCoherence totals + coherence m)%js;
     totalCompleteness := (totalCompleteness totals + completeness m)%js;
     totalReadability := (totalReadability totals + readability m)%js;
     totalRelevance := (totalRelevance totals + relevance m)%js |}.

(** The [averageMetrics] object built from the totals of the loop. *)
Definition averageOfTotals (totals : Totals) (responseCount : number)
  : QualityMetrics :=
  let averageMetrics0 :=
    {| coherence := round_100 (totalCoherence totals / responseCount);
       completeness := round_100 (totalCompleteness totals / responseCount);
       readability := round_100 (totalReadability totals / responseCount);
       relevance := round_100 (totalRelevance totals / responseCount);
       overallScore := Fin 0 |} in
  {| coherence := coherence averageMetrics0;
     completeness := completeness averageMetrics0;
     readability := readability averageMetrics0;
     relevance := relevance averageMetrics0;
     overallScore := calculateOverallScore averageMetrics0 |}.

(** The experiment-level aggregate of the metrics of the responses, as
    the route computes it: totals accumulated response by response, then
    averaged. *)
Definition averageMetricsOf (ms : list QualityMetrics) : QualityMetrics :=
  averageOfTotals (fold_left addMetrics ms noTotals)
                  (Num.of_nat (List.length ms)).

(** [for (const [metricType, detail] of Object.entries(details))] *)
Fixpoint storeDetails (responseId : nat)
         (entries : list (string * MetricDetails)) : Js unit :=
  match entries with
  | [] => ret tt
  | (metricType, detail) :: rest =>
      db (MetricCalculationCreate responseId metricType
            (Num.or_else (score detail) (Fin 0))) ;;;
      storeDetails responseId rest
  end.

(** The loop over [generationResults]; none of them is [undefined], so
    the test [!result] is left out. *)
Fixpoint processResults (experiment : nat) (prompt : string)
         (generationResults : list BatchResult)
         (acc : list ResponseData) (totals : Totals)
  : Js (list ResponseData * Totals) :=
  match generationResults with
  | [] => ret (acc, totals)
  | r :: rest =>
      let scored := calculateAllMetrics (content (result r)) prompt in
      id <- db (ResponseCreate experiment (content (result r))) ;;
      storeDetails id (details scored) ;;;
      let response :=
        {| response_id := id;
           response_content := content (result r);
           response_parameters := parameters r;
           response_metrics := metrics scored;
           response_metricDetails := details scored;
           response_model := LLM.model_or_default (parameters r);
           response_tokensUsed := tokensUsed (result r);
           response_generationTime := generationTime (result r) |} in
      processResults experiment prompt rest (acc ++ [response])%list
                     (addMetrics totals (metrics scored))
  end.

Definition reject (code : Z) (error : string) (message : option string)
  : Js HttpResponse :=
  ret {| status := code; body := Failure error message |}.

(** [!prompt || !parameterRange || !numberOfRuns]; on success the three
    values. *)
Definition requiredFields (req : GenerationRequest)
  : option (string * ParameterRange * number) :=
  match body_prompt req, body_parameterRange req, body_numberOfRuns req with
  | Some prompt, Some parameterRange, Some numberOfRuns =>
      if Str.is_empty prompt || negb (Num.truthy numberOfRuns) then None
      else Some (prompt, parameterRange, numberOfRuns)
  | _, _, _ => None
  end.

(** [router.post('/', ...)] *)
Definition post (llmService : LLMService) (req : GenerationRequest)
  : Js HttpResponse :=
  Math_random ;;;
  try_catch
    (match requiredFields req with
     | None =>
         reject 400
           "Missing required fields: prompt, parameterRange, numberOfRuns"
           None
     | Some (prompt, parameterRange, numberOfRuns) =>
         if Num.gt numberOfRuns (Fin 20) then
           reject 400 "Maximum 20 runs allowed per request" None
         else
           parameterCombinations <-
             generateParameterCombinations parameterRange numberOfRuns ;;
           experiment <- db (ExperimentCreate prompt numberOfRuns) ;;
           generationResults <-
             LLM.generateMultipleResponses llmService prompt
                                           parameterCombinations ;;
           processed <-
             processResults experiment prompt generationResults []
                            noTotals ;;
           let (responses', totals) := processed in
           let responseCount := Num.of_nat (List.length responses') in
           let averageMetrics' := averageOfTotals totals responseCount in
           db (ExperimentUpdate experiment responseCount) ;;;
           ret {| status := 200;
                  body :=
                    Success
                      {| experimentId := experiment;
                         responses := responses';
                         totalRuns := responseCount;
                         averageMetrics := averageMetrics' |}
                      ("Generated " ++ Str.of_nat (List.length responses')
                         ++ " responses successfully") |}
     end)
    (fun error =>
       reject 500 "Failed to generate responses"
              (Some (error_message error))).

End Generation.

(* ------------------------------------------------------------------ *)
(** ** Export route ([routes/export.ts]) *)
(* ------------------------------------------------------------------ *)

(** A stored response row; its metric columns are nullable. *)
Record StoredResult : Type := {
  stored_coherence : option number;
  stored_completeness : option number;
  stored_readability : option number;
  stored_relevance : option number;
  stored_overallScore : option number
}.

(** What [calculateAverageMetrics] returns: the empty object [{}], or an
    object with the five averages. *)
Inductive AverageMetrics : Type :=
| EmptyObject
| Averages (m : QualityMetrics).

Module ExportRoute.

(** [value || 0] *)
Definition or_zero (value : option number) : number :=
  match value with
  | Some v => Num.or_else v (Fin 0)
  | None => Fin 0
  end.

Definition calculateAverageMetrics (results : list StoredResult)
  : AverageMetrics :=
  if (List.length results =? 0)%nat then EmptyObject
  else
    let totals :=
      fold_left
        (fun acc r =>
           {| coherence := (coherence acc + or_zero (stored_coherence r))%js;
              completeness :=
                (completeness acc + or_zero (stored_completeness r))%js;
              readability :=
                (readability acc + or_zero (stored_readability r))%js;
              relevance := (relevance acc + or_zero (stored_relevance r))%js;
              overallScore :=
                (overallScore acc + or_zero (stored_overallScore r))%js |})
        results
        {| coherence := Fin 0; completeness := Fin 0; readability := Fin 0;
           relevance := Fin 0; overallScore := Fin 0 |} in
    let n := Num.of_nat (List.length results) in
    Averages
      {| coherence := round_100 (coherence totals / n);
         completeness := round_100 (completeness totals / n);
         readability := round_100 (readability totals / n);
         relevance := round_100 (relevance totals / n);
         overallScore := round_100 (overallScore totals / n) |}.

End ExportRoute.

(* ------------------------------------------------------------------ *)
(** ** Vocabulary of the properties *)
(* ------------------------------------------------------------------ *)

(** [c] is a text the mock generator can produce for the prompt and the
    parameters. *)
Definition is_mock_text (prompt : string) (parameters : GenerationParameters)
           (c : string) : Prop :=
  exists w, fst (LLM.generateRealisticMockResponse prompt parameters w)
            = Returns (Some c).

(** A provider answer that carries no text: empty, or white space only. *)
Definition blank (o : ProviderOutcome) : Prop :=
  match o with
  | ProviderText t => String.length (Str.trim t) = O
  | ProviderFails _ => False
  end.

(** The models asked in the run, oldest first. *)
Definition models_called (w : World) : list string :=
  flat_map (fun e => match e with
                     | EvProviderCall request => [req_model request]
                     | _ => []
                     end) (trace w).

(** The design document's formulas, over the rationals. *)
Module Spec.

(** The value of a finite number. *)
Definition value (a : number) : Q :=
  match a with
  | Fin q => q
  | _ => 0
  end.

(** Rounding to two decimals: the nearest multiple of [0.01], a tie
    going up. *)
Definition round2 (x : Q) : Q := inject_Z (Qfloor (x * 100 + (1 # 2))) / 100.

(** [round2(0.25c + 0.30k + 0.20r + 0.25l)] *)
Definition overall (c k r l : Q) : Q :=
  round2 (0.25 * c + 0.30 * k + 0.20 * r + 0.25 * l).

Definition total (xs : list Q) : Q := fold_right Qplus 0 xs.

Definition mean (xs : list Q) : Q :=
  total xs / inject_Z (Z.of_nat (List.length xs)).

(** The average of one sub-score over the records, rounded. *)
Definition average (f : QualityMetrics -> number) (ms : list QualityMetrics)
  : Q :=
  round2 (mean (map (fun m => value (f m)) ms)).


(** The other reading: the average of the records' own overall scores. *)
Definition averageOfOveralls (ms : list QualityMetrics) : Q :=
  average overallScore ms.


(** The world after [k] further draws of the random source, and the
    value of the draw that comes after them. *)
Definition skip (k : nat) (w : World) : World := Nat.iter k next_random w.








(** The categories of the mock generator, and their keywords in the
    order of priority. *)
Inductive Category : Type :=
| CreativeWriting
| Explanatory
| Question
| Code
| General.

Definition keywords : list (Category * list string) :=
  [(CreativeWriting, ["story"; "creative"; "write"]);
   (Explanatory, ["explain"; "how"; "what is"]);
   (Question, ["?"; "question"]);
   (Code, ["code"; "program"; "function"])].

(** The case-folded prompt contains one of the words. *)
Definition mentions (prompt : string) (words : list string) : bool :=
  existsb (fun k => Str.includes (Str.toLowerCase prompt) k) words.

(** The first category of the table one of whose keywords the prompt
    mentions; [General] when there is none. *)
Fixpoint first_match (prompt : string)
         (table : list (Category * list string)) : Category :=
  match table with
  | [] => General
  | (c, words) :: rest =>
      if mentions prompt words then c else first_match prompt rest
  end.

Definition classify (prompt : string) : Category :=
  first_match prompt keywords.

(** The generator that owns the templates of a category. *)
Definition generator (c : Category)
  : string -> GenerationParameters -> Js (option string) :=
  match c with
  | CreativeWriting => LLM.generateCreativeWritingResponse
  | Explanatory => LLM.generateExplanationResponse
  | Question => LLM.generateQAResponse
  | Code => LLM.generateCodeResponse
  | General => LLM.generateGeneralResponse
  end.

(** The scores and score details a response carries. *)
Definition scored (r : ResponseData) : AllMetrics :=
  {| metrics := response_metrics r; details := response_metricDetails r |}.

(** ... and those the scoring engine gives to a generated text. *)
Definition scoreOf (prompt : string) (r : BatchResult) : AllMetrics :=
  calculateAllMetrics (content (result r)) prompt.

(** The numbers of words of the sentences of a text, as
    [calculateReadability] counts them. *)
Definition sentenceLengths (content : string) : list nat :=
  map (fun s => List.length (Str.split Str.isWhiteSpace (Str.trim s)))
      (filter (fun s => (0 <? String.length (Str.trim s))%nat)
              (Str.split isSentenceEnd content)).

Definition of_count (n : nat) : Q := inject_Z (Z.of_nat n).

Definition variance (xs : list Q) : Q :=
  mean (map (fun x => (x - mean xs) * (x - mean xs)) xs).

Definition lengthScore (xs : list Q) : Q :=
  1 - Qabs (mean xs - 17.5) / 17.5.

Definition varietyScore (xs : list Q) : Q :=
  Qmin 1 (variance xs / 50).

(** [lengthScore * 0.7 + varietyScore * 0.3], rounded, over the word
    counts of the sentences. *)
Definition readabilityOf (lengths : list nat) : Q :=
  let xs := map of_count lengths in
  round2 (lengthScore xs * 0.7 + varietyScore xs * 0.3).

End Spec.

(* ------------------------------------------------------------------ *)
(** ** Sample inputs *)
(* ------------------------------------------------------------------ *)

Module Sample.

(** A world whose random draws and clock readings are fixed sequences,
    with a working persistence layer and the given provider. *)
Definition world (answers : nat -> ProviderRequest -> ProviderOutcome)
  : World :=
  {| random_source := fun n => (N.of_nat n * 1234567890123457 + 99)%N;
     random_pos := 0;
     clock := fun n => (1000 + Z.of_nat n * 250)%Z;
     clock_pos := 0;
     provider := answers;
     provider_calls := 0;
     db_fails := fun _ => false;
     db_ops := 0;
     trace := [] |}.


(** Every model answers with an empty text. *)
Definition silent : nat -> ProviderRequest -> ProviderOutcome :=
  fun _ _ => ProviderText "".

Definition badRequest : JsError := ProviderError (Some 400%Z) "Bad Request".

(** The requested model rejects the request with status 400; the
    fallback models answer. *)
Definition rejectedByFirst : nat -> ProviderRequest -> ProviderOutcome :=
  fun _ request =>
    if String.eqb (req_model request) "gemini-2.5-flash"
    then ProviderFails badRequest
    else ProviderText "Paris.".

Definition live : LLMService := {| genAI := Some tt; isMockMode := false |}.

Definition params : GenerationParameters :=
  {| temperature := Fin 0.5; top_p := Fin 0.9; max_tokens := Fin 100;
     model := None |}.

Definition range : ParameterRange :=
  {| range_temperature := {| min := Fin 0.1; max := Fin 0.9; step := Fin 0.1 |};
     range_top_p := {| min := Fin 0.5; max := Fin 1; step := Fin 0.1 |};
     range_max_tokens := {| min := Fin 100; max := Fin 500; step := Fin 50 |} |}.

Definition request (runs : number) : GenerationRequest :=
  {| body_prompt := Some "Explain rain";
     body_parameterRange := Some range;
     body_numberOfRuns := Some runs;
     body_experimentName := None;
     body_experimentDescription := None |}.

(** One sentence of forty words. *)
Definition longSentence : string :=
  "one two three four five six seven eight nine ten one two three four five six seven eight nine ten one two three four five six seven eight nine ten one two three four five six seven eight nine ten".

End Sample.

Module SampleMetrics.

(** Two score records, each with the overall score that
    [calculateOverallScore] gives it. *)
Definition first : QualityMetrics :=
  {| coherence := Fin 0.02; completeness := Fin 0; readability := Fin 0;
     relevance := Fin 0; overallScore := Fin 0.01 |}.

Definition second : QualityMetrics :=
  {| coherence := Fin 0; completeness := Fin 0; readability := Fin 0;
     relevance := Fin 0; overallScore := Fin 0 |}.

Definition half : QualityMetrics :=
  {| coherence := Fin 0.5; completeness := Fin 0.5; readability := Fin 0.5;
     relevance := Fin 0.5; overallScore := Fin 0.5 |}.

End SampleMetrics.

Module SampleAggregate.

(** The metrics object whose five fields are all [NaN]. *)
Definition allNaN : QualityMetrics :=
  {| coherence := NaN; completeness := NaN; readability := NaN;
     relevance := NaN; overallScore := NaN |}.

End SampleAggregate.

Module SampleBatch.

(** One generated response, as [generateMultipleResponses] returns it. *)
Definition results : list BatchResult :=
  [{| result :=
        {| content := "Rain is water. It falls because clouds get heavy!";
           tokensUsed := Fin 15;
           generationTime := Fin 250 |};
      parameters := Sample.params |}].


End SampleBatch.

(* ------------------------------------------------------------------ *)
(** ** Further vocabulary *)
(* ------------------------------------------------------------------ *)

Module Obs.

(** The words of a text that the relevance scorer compares: case-folded,
    longer than two characters, no stop words. *)
Definition meaningfulWords (s : string) : list string :=
  filter (fun word => negb (JsSet.has stopWords word))
         (words_longer_than 2 s).

(** The four sub-scores of a record as rationals. *)
Definition finite_scores (m : QualityMetrics) (c k r l : Q) : Prop :=
  coherence m = Fin c /\ completeness m = Fin k
  /\ readability m = Fin r /\ relevance m = Fin l.

(** The request sent to the provider for one model of the list. *)
Definition requestFor (prompt : string) (parameters : GenerationParameters)
           (modelName : string) : ProviderRequest :=
  {| req_model := modelName;
     req_prompt := LLM.enhancePrompt prompt;
     req_temperature := temperature parameters;
     req_topP := top_p parameters |}.

(** The provider requests, the waits and the persistence operations
    among some events, oldest first. *)
Definition requests (evs : list Event) : list ProviderRequest :=
  flat_map (fun e => match e with
                     | EvProviderCall request => [request]
                     | _ => []
                     end) evs.

Definition sleeps (evs : list Event) : list number :=
  flat_map (fun e => match e with
                     | EvSleep ms => [ms]
                     | _ => []
                     end) evs.


(** The wait before the model after the one at index [attempt]. *)
Definition backoff (attempt : nat) : number :=
  Math.min (Fin 1000 * Math.pow (Fin 2) attempt)%js (Fin 5000).

(** The world after one run of the mock generator: three random draws
    and one reading of the clock. *)
Definition afterMock (w : World) : World :=
  next_random (next_clock (next_random (next_random w))).

(** The world at the first turn of the model loop of [generateResponse]. *)
Definition atFirstAttempt (w : World) : World :=
  next_random (next_clock w).

(** The time [generateResponse] takes as its start. *)
Definition startTimeOf (w : World) : number :=
  Num.of_Z (clock w (clock_pos w)).

(** The events of a model loop every call of which fails with a
    transient status: each model is asked, with a wait between two
    models. *)
Fixpoint schedule (prompt : string) (parameters : GenerationParameters)
         (attempt : nat) (models : list string) : list Event :=
  match models with
  | [] => []
  | modelName :: rest =>
      EvProviderCall (requestFor prompt parameters modelName)
        :: match rest with
           | [] => []
           | _ => EvSleep (backoff attempt)
                    :: schedule prompt parameters (S attempt) rest
           end
  end.

(** An environment without credentials. *)
Definition noCredentials : Env :=
  {| GEMINI_PROJECT_KEY := None; GEMINI_PROJECT_NAME := None;
     GEMINI_PROJECT_NUMBER := None |}.

(** Every call to the provider fails with status 503. *)
Definition overloaded : nat -> ProviderRequest -> ProviderOutcome :=
  fun _ _ => ProviderFails (ProviderError (Some 503%Z) "Service Unavailable").

(** Every call to the provider is answered with a sentence. *)
Definition answering : nat -> ProviderRequest -> ProviderOutcome :=
  fun _ _ => ProviderText "Rain is water. It falls because clouds get heavy!".



(** A computation that leaves the persistence layer alone. *)
Definition keeps_db {A} (m : Js A) : Prop :=
  forall w, db_fails (snd (m w)) = db_fails w
            /\ db_ops (snd (m w)) = db_ops w.

(** A world whose persistence layer never fails. *)
Definition db_works (w : World) : Prop := forall n, db_fails w n = false.

(** The response the route builds for one generated result. *)
Definition responseOf (prompt : string) (response : ResponseData)
           (r : BatchResult) : Prop :=
  response_content response = content (result r)
  /\ response_parameters response = parameters r
  /\ response_metrics response
     = metrics (calculateAllMetrics (content (result r)) prompt)
  /\ response_metricDetails response
     = details (calculateAllMetrics (content (result r)) prompt)
  /\ response_tokensUsed response = tokensUsed (result r)
  /\ response_generationTime response = generationTime (result r).

Definition dbError : JsError := DbError "database operation failed".

End Obs.

(** The summary of the export route ([routes/export.ts]).  [reduce]
    without an initial value starts from the first element; [null] is
    [None]. *)
Module ExportSummary.

Definition findBestResponse (results : list StoredResult)
  : option StoredResult :=
  match results with
  | [] => None
  | first :: rest =>
      Some (fold_left
              (fun best current =>
                 if Num.gt (ExportRoute.or_zero (stored_overallScore current))
                           (ExportRoute.or_zero (stored_overallScore best))
                 then current else best)
              rest first)
  end.

Definition findWorstResponse (results : list StoredResult)
  : option StoredResult :=
  match results with
  | [] => None
  | first :: rest =>
      Some (fold_left
              (fun worst current =>
                 if Num.lt (ExportRoute.or_zero (stored_overallScore current))
                           (ExportRoute.or_zero (stored_overallScore worst))
                 then current else worst)
              rest first)
  end.

End ExportSummary.

Module Stored.

(** The overall score a stored response counts for: [overallScore || 0]. *)
Definition score (r : StoredResult) : number :=
  ExportRoute.or_zero (stored_overallScore r).

(** What a nullable column counts for in an average: its value, and zero
    when it is missing or [NaN]. *)
Definition counted (v : option number) : Q :=
  match v with
  | Some (Fin q) => q
  | _ => 0
  end.



(** The rounded mean of one column. *)
Definition average (column : StoredResult -> option number)
           (results : list StoredResult) : number :=
  Fin (Spec.round2 (Spec.mean (map (fun r => counted (column r)) results))).


End Stored.

Module SampleStored.


End SampleStored.

(* ------------------------------------------------------------------ *)
(** ** Keep-alive service ([CronService] of [services/cronService.ts]) *)
(* ------------------------------------------------------------------ *)

(** The timers of the runtime: the scheduled tasks that are alive, by
    handle, the handle the next [cron.schedule] returns, and the delays of
    the [setTimeout] callbacks set so far, which the service never
    clears. *)
Record Timers : Type := {
  live_tasks : list nat;
  next_handle : nat;
  timeouts : list number
}.

Record CronService : Type := {
  isRunning : bool;
  serverUrl : string;
  cronExpression : string;
  cronTask : option nat
}.

(** The public methods of the service. *)
Inductive CronCall : Type :=
| CallStart
| CallStop.

Module Cron.

Definition noTimers : Timers :=
  {| live_tasks := []; next_handle := 0; timeouts := [] |}.

(** [constructor(serverUrl: string = 'http://localhost:3001')] *)
Definition constructor (url : option string) : CronService :=
  {| isRunning := false;
     serverUrl := match url with
                  | Some u => u
                  | None => "http://localhost:3001"
                  end;
     cronExpression := "*/5 * * * *";
     cronTask := None |}.

(** [cron.schedule(...)]: a new live task. *)
Definition schedule (t : Timers) : nat * Timers :=
  (next_handle t,
   {| live_tasks := live_tasks t ++ [next_handle t];
      next_handle := S (next_handle t);
      timeouts := timeouts t |}).

(** [task.stop()] *)
Definition stop_task (handle : nat) (t : Timers) : Timers :=
  {| live_tasks := filter (fun h => negb (h =? handle)%nat) (live_tasks t);
     next_handle := next_handle t;
     timeouts := timeouts t |}.

(** [setTimeout(callback, ms)] *)
Definition setTimeout (ms : number) (t : Timers) : Timers :=
  {| live_tasks := live_tasks t; next_handle := next_handle t;
     timeouts := timeouts t ++ [ms] |}.

Definition start (this : CronService) (t : Timers) : CronService * Timers :=
  if isRunning this then (this, t)
  else
    let (task, t1) := schedule t in
    let t2 := setTimeout (Fin 5000) t1 in
    ({| isRunning := true; serverUrl := serverUrl this;
        cronExpression := cronExpression this; cronTask := Some task |},
     t2).

Definition stop (this : CronService) (t : Timers) : CronService * Timers :=
  if negb (isRunning this) then (this, t)
  else
    let (task, t1) :=
      match cronTask this with
      | Some handle => (None, stop_task handle t)
      | None => (cronTask this, t)
      end in
    ({| isRunning := false; serverUrl := serverUrl this;
        cronExpression := cronExpression this; cronTask := task |},
     t1).


Definition call (c : CronCall) (state : CronService * Timers)
  : CronService * Timers :=
  match c with
  | CallStart => start (fst state) (snd state)
  | CallStop => stop (fst state) (snd state)
  end.

(** The service and the timers after a sequence of calls on a new
    service. *)
Definition run (url : option string) (calls : list CronCall)
  : CronService * Timers :=
  fold_left (fun state c => call c state) calls (constructor url, noTimers).

End Cron.

(* ------------------------------------------------------------------ *)
(** * Properties *)
(* ------------------------------------------------------------------ *)

(** ** Arithmetic of finite numbers *)

(** Linear arithmetic over [Q], after divisions by constants are turned
    into multiplications. *)
Ltac lraQ := unfold Qdiv in *; cbn [Qinv Qnum Qden] in *; lra.

Lemma round_100_fin (q : Q) :
  round_100 (Fin q) = Fin (inject_Z (Qfloor (q * 100 + (1 # 2))) / 100).
Proof. reflexivity. Qed.

Lemma Qfloor_half_bounds (x : Q) (zl zh : Z) :
  inject_Z zl <= x -> x <= inject_Z zh ->
  (zl <= Qfloor (x + (1 # 2)) <= zh)%Z.
Proof.
  intros Hl Hh. split.
  - rewrite <- (Qfloor_Z zl) at 1. apply Qfloor_resp_le. lra.
  - assert (H : (Qfloor (x + (1 # 2)) < zh + 1)%Z); [| lia].
    rewrite Zlt_Qlt.
    apply Qle_lt_trans with (x + (1 # 2)); [apply Qfloor_le |].
    rewrite inject_Z_plus. change (inject_Z 1) with 1. lra.
Qed.

(** Rounding to two decimals stays between bounds that have two
    decimals themselves. *)
Lemma within_round_100 (q lo hi : Q) (zl zh : Z) :
  lo == inject_Z zl / 100 -> hi == inject_Z zh / 100 ->
  lo <= q <= hi -> Num.within lo hi (round_100 (Fin q)).
Proof.
  intros Elo Ehi [Hl Hh]. rewrite round_100_fin. cbn [Num.within].
  destruct (Qfloor_half_bounds (q * 100) zl zh) as [Bl Bh].
  - rewrite Elo in Hl. revert Hl. generalize (inject_Z zl). intros; lraQ.
  - rewrite Ehi in Hh. revert Hh. generalize (inject_Z zh). intros; lraQ.
  - rewrite Zle_Qle in Bl, Bh. rewrite Elo, Ehi. revert Bl Bh.
    generalize (inject_Z (Qfloor (q * 100 + (1 # 2)))), (inject_Z zl),
      (inject_Z zh).
    intros; split; lraQ.
Qed.

Lemma unit_round_100 (q : Q) :
  0 <= q <= 1 -> Num.within 0 1 (round_100 (Fin q)).
Proof. apply (within_round_100 q 0 1 0 100); reflexivity. Qed.

Lemma is_zero_false (q : Q) : ~ q == 0 -> Num.is_zero q = false.
Proof.
  intros H. unfold Num.is_zero. apply not_true_is_false.
  intros E. apply H. now apply Qeq_bool_eq.
Qed.

Lemma is_zero_true (q : Q) : q == 0 -> Num.is_zero q = true.
Proof. intros H. unfold Num.is_zero. now apply Qeq_eq_bool. Qed.

Lemma lt_fin (x y : Q) : Num.lt (Fin x) (Fin y) = true <-> x < y.
Proof.
  simpl. rewrite negb_true_iff. split; intros H.
  - apply Qnot_le_lt. intros L. apply Qle_bool_iff in L. congruence.
  - apply not_true_is_false. intros L. apply Qle_bool_iff in L.
    apply (Qlt_not_le _ _ H L).
Qed.

Lemma lt_fin_false (x y : Q) : Num.lt (Fin x) (Fin y) = false <-> y <= x.
Proof.
  simpl. rewrite negb_false_iff. apply Qle_bool_iff.
Qed.

Lemma inject_nat_nonneg (n : nat) : 0 <= inject_Z (Z.of_nat n).
Proof.
  change 0 with (inject_Z 0). rewrite <- Zle_Qle. lia.
Qed.

Lemma inject_nat_pos (n : nat) : (0 < n)%nat -> 0 < inject_Z (Z.of_nat n).
Proof.
  intros H. change 0 with (inject_Z 0). rewrite <- Zlt_Qlt. lia.
Qed.

Lemma inject_nat_le (a b : nat) :
  (a <= b)%nat -> inject_Z (Z.of_nat a) <= inject_Z (Z.of_nat b).
Proof. intros H. rewrite <- Zle_Qle. lia. Qed.

(** A count divided by a positive count is a finite quotient. *)
Lemma div_of_nat (a b : nat) :
  (0 < b)%nat ->
  (Num.of_nat a / Num.of_nat b)%js
  = Fin (inject_Z (Z.of_nat a) / inject_Z (Z.of_nat b)).
Proof.
  intros H. unfold Num.of_nat, Num.of_Z, Num.div.
  rewrite is_zero_false; [reflexivity |].
  pose proof (inject_nat_pos b H). lra.
Qed.

Lemma ratio_unit (a b : nat) :
  (0 < b)%nat -> (a <= b)%nat ->
  0 <= inject_Z (Z.of_nat a) / inject_Z (Z.of_nat b) <= 1.
Proof.
  intros Hb Hab.
  pose proof (inject_nat_pos b Hb) as Pb.
  pose proof (inject_nat_nonneg a) as Pa.
  pose proof (inject_nat_le a b Hab) as Pab.
  split.
  - apply Qle_shift_div_l; [assumption | lra].
  - apply Qle_shift_div_r; [assumption | lra].
Qed.

(** [Math.min(1, x)] of a non-negative finite [x] is finite and lies in
    the unit interval. *)
Lemma min_one_unit (x : Q) :
  0 <= x ->
  exists m, Math.min (Fin 1) (Fin x) = Fin m /\ 0 <= m <= 1 /\ m <= x.
Proof.
  intros Hx. unfold Math.min.
  destruct (Num.lt (Fin x) (Fin 1)) eqn:E.
  - apply lt_fin in E. exists x. repeat split; lra.
  - apply lt_fin_false in E. exists 1. repeat split; lra.
Qed.

(** Rounding, as the code and as the design document write it. *)
Lemma round_100_spec (x y : Q) :
  x == y -> round_100 (Fin x) = Fin (Spec.round2 y).
Proof.
  intros E. rewrite round_100_fin. unfold Spec.round2.
  do 3 f_equal. apply Qfloor_comp. now rewrite E.
Qed.


(** ** The scorers *)

Lemma add_all_length (seen l : list string) :
  (List.length (JsSet.add_all seen l) <= List.length l)%nat.
Proof.
  revert seen. induction l as [| w r IH]; intros seen; simpl.
  - lia.
  - destruct (JsSet.has seen w); simpl.
    + specialize (IH seen). lia.
    + specialize (IH (w :: seen)). lia.
Qed.

Lemma set_size_le (l : list string) :
  (JsSet.size (JsSet.of_list l) <= List.length l)%nat.
Proof. apply add_all_length. Qed.

Lemma filter_length_le {A} (f : A -> bool) (l : list A) :
  (List.length (filter f l) <= List.length l)%nat.
Proof.
  induction l as [| a l IH]; simpl; [lia |].
  destruct (f a); simpl; lia.
Qed.

(** The words of the prompt found in the content are at most as many as
    the words of the prompt. *)
Lemma overlap_le (promptWords contentWords : list string) :
  (List.length (overlap_of (JsSet.of_list promptWords)
                           (JsSet.of_list contentWords))
   <= List.length promptWords)%nat.
Proof.
  unfold overlap_of.
  etransitivity; [apply filter_length_le | apply set_size_le].
Qed.

(** [min(1, (a / b) * k)] for counts [a <= b], [0 < b], and a factor
    [k >= 0]. *)
Lemma capped_ratio (a b : nat) (k : Q) :
  (0 < b)%nat -> (a <= b)%nat -> 0 <= k ->
  exists m,
    Math.min (Fin 1) (Num.of_nat a / Num.of_nat b * Fin k)%js = Fin m
    /\ 0 <= m <= 1.
Proof.
  intros Hb Hab Hk. rewrite div_of_nat by assumption.
  cbn [Num.mul].
  destruct (ratio_unit a b Hb Hab) as [R0 R1].
  destruct (min_one_unit (inject_Z (Z.of_nat a) / inject_Z (Z.of_nat b) * k))
    as (m & E & B & _).
  - apply Qmult_le_0_compat; assumption.
  - exists m. split; assumption.
Qed.

Lemma calculateCoherence_unit (content : string) :
  Num.within 0 1 (score (calculateCoherence content)).
Proof.
  unfold calculateCoherence.
  set (words := words_longer_than 0 content).
  destruct (List.length words =? 0)%nat eqn:E; cbn [score].
  - simpl. lra.
  - apply Nat.eqb_neq in E.
    destruct (capped_ratio (JsSet.size (JsSet.of_list words))
                           (List.length words) 1.2) as (m & Em & Bm).
    + lia.
    + apply set_size_le.
    + lra.
    + rewrite Em. now apply unit_round_100.
Qed.

Lemma calculateCompleteness_unit (content prompt : string) :
  Num.within 0 1 (score (calculateCompleteness content prompt)).
Proof.
  unfold calculateCompleteness. cbn [score].
  set (promptWords := words_longer_than 2 prompt).
  set (contentWords := words_longer_than 2 content).
  set (overlap := List.length (overlap_of _ _)).
  (* the capped overlap ratio *)
  assert (S0 : exists m,
             Math.min (Fin 1)
               ((if (0 <? List.length promptWords)%nat
                 then (Num.of_nat overlap / Num.of_nat (List.length promptWords))%js
                 else Fin 0) * Fin 1.5)%js = Fin m /\ 0 <= m <= 1).
  { destruct (0 <? List.length promptWords)%nat eqn:E.
    - apply Nat.ltb_lt in E. apply capped_ratio; [assumption | | lra].
      apply overlap_le.
    - cbn [Num.mul].
      destruct (min_one_unit (0 * 1.5)) as (m & Em & Bm & _); [lra |].
      exists m. split; assumption. }
  destruct S0 as (m0 & E0 & B0). rewrite E0.
  (* the bonus for a direct answer *)
  assert (S1 : forall b : bool, exists m,
             (if b then Math.min (Fin 1) (Fin m0 + Fin 0.2)%js else Fin m0)
             = Fin m /\ 0 <= m <= 1).
  { intros [|].
    - cbn [Num.add].
      destruct (min_one_unit (m0 + 0.2)) as (m & Em & Bm & _); [lra |].
      exists m. split; assumption.
    - exists m0. split; [reflexivity | assumption]. }
  match goal with
  | |- context [if ?b && ?c then _ else _] =>
      destruct (S1 (b && c)) as (m1 & E1 & B1); rewrite E1
  end.
  (* the penalty for a short response *)
  destruct (List.length contentWords <? 10)%nat.
  - cbn [Num.mul]. apply unit_round_100.
    split; [apply Qmult_le_0_compat; lra | nra].
  - now apply unit_round_100.
Qed.

Lemma calculateRelevance_unit (content prompt : string) :
  Num.within 0 1 (score (calculateRelevance content prompt)).
Proof.
  unfold calculateRelevance.
  set (filteredPromptWords := filter _ (words_longer_than 2 prompt)).
  set (filteredContentWords := filter _ (words_longer_than 2 content)).
  destruct (List.length filteredPromptWords =? 0)%nat eqn:E; cbn [score].
  - simpl. lra.
  - apply Nat.eqb_neq in E.
    set (overlap := List.length (overlap_of _ _)).
    assert (Hov : (overlap <= List.length filteredPromptWords)%nat)
      by apply overlap_le.
    destruct (capped_ratio overlap (List.length filteredPromptWords) 1.3)
      as (m & Em & Bm); [lia | assumption | lra |].
    rewrite Em.
    destruct (Num.lt _ (Fin 0.1)).
    + cbn [Num.mul]. apply unit_round_100.
      split; [apply Qmult_le_0_compat; lra | nra].
    + now apply unit_round_100.
Qed.

(** The sample values of the design document. *)
Example coherence_of_empty_text :
  score (calculateCoherence "") = Fin 0.
Proof. reflexivity. Qed.

Example coherence_of_one_word_four_times :
  Num.strict_eq (score (calculateCoherence "a a a a")) (Fin 0.30) = true.
Proof. vm_compute. reflexivity. Qed.

Lemma relevance_of_stop_word_prompt (content prompt : string) :
  filter (fun word => negb (JsSet.has stopWords word))
         (words_longer_than 2 prompt) = [] ->
  score (calculateRelevance content prompt) = Fin 0.5.
Proof.
  intros H. unfold calculateRelevance. rewrite H. reflexivity.
Qed.

Example relevance_of_the_and_this :
  score (calculateRelevance "Clouds bring rain" "the and this") = Fin 0.5.
Proof. now apply relevance_of_stop_word_prompt. Qed.

(** ** Readability, against its formula *)

Lemma fold_add_fin (qs : list Q) (a : Q) :
  exists t,
    fold_left Num.add (map Fin qs) (Fin a) = Fin t
    /\ t == a + Spec.total qs.
Proof.
  revert a. induction qs as [| q qs IH]; intros a.
  - exists a. split; [reflexivity |]. unfold Spec.total. cbn [map fold_right]. ring.
  - cbn [map fold_left Num.add]. destruct (IH (a + q)) as (t & Et & Ht).
    exists t. split; [exact Et |]. rewrite Ht. unfold Spec.total.
    cbn [fold_right]. ring.
Qed.

Lemma fold_squares_fin (qs : list Q) (m m' a : Q) :
  m == m' ->
  exists t,
    fold_left (fun acc len => (acc + Math.pow (len - Fin m) 2)%js)
              (map Fin qs) (Fin a) = Fin t
    /\ t == a + Spec.total (map (fun x => (x - m') * (x - m')) qs).
Proof.
  intros Em. revert a. induction qs as [| q qs IH]; intros a.
  - exists a. split; [reflexivity |]. unfold Spec.total. cbn [map fold_right]. ring.
  - cbn [map fold_left]. cbn [Math.pow Num.sub Num.neg Num.add Num.mul].
    destruct (IH (a + (q + - m) * ((q + - m) * 1))) as (t & Et & Ht).
    exists t. split; [exact Et |]. rewrite Ht. unfold Spec.total.
    cbn [fold_right]. rewrite Em. ring.
Qed.

Lemma min_one_spec (x y : Q) :
  x == y -> exists m, Math.min (Fin 1) (Fin x) = Fin m /\ m == Qmin 1 y.
Proof.
  intros E. unfold Math.min.
  destruct (Num.lt (Fin x) (Fin 1)) eqn:L.
  - apply lt_fin in L. exists x. split; [reflexivity |].
    rewrite Q.min_r; [exact E | rewrite <- E; lra].
  - apply lt_fin_false in L. exists 1. split; [reflexivity |].
    rewrite Q.min_l; [reflexivity | rewrite <- E; exact L].
Qed.

Lemma div_fin_count (x : Q) (n : nat) :
  (0 < n)%nat ->
  (Fin x / Num.of_nat n)%js = Fin (x / Spec.of_count n).
Proof.
  intros H. unfold Num.of_nat, Num.of_Z, Num.div.
  rewrite is_zero_false; [reflexivity |].
  pose proof (inject_nat_pos n H). lra.
Qed.

Lemma map_of_nat (lengths : list nat) :
  map Num.of_nat lengths = map Fin (map Spec.of_count lengths).
Proof. rewrite map_map. reflexivity. Qed.

(** On a text with at least one sentence, the readability score is the
    rounded formula of the design document. *)
Lemma calculateReadability_formula (content : string) :
  Spec.sentenceLengths content <> [] ->
  score (calculateReadability content)
  = Fin (Spec.readabilityOf (Spec.sentenceLengths content)).
Proof.
  unfold Spec.sentenceLengths, calculateReadability.
  set (sentences := filter _ (Str.split isSentenceEnd content)).
  intros Hne.
  assert (Hlen : (0 < List.length sentences)%nat).
  { destruct sentences; [contradiction | simpl; lia]. }
  destruct (List.length sentences =? 0)%nat eqn:E;
    [apply Nat.eqb_eq in E; lia |].
  cbn [score].
  set (f := fun s => List.length (Str.split Str.isWhiteSpace (Str.trim s))).
  change (map (fun s => Num.of_nat
                          (List.length
                             (Str.split Str.isWhiteSpace (Str.trim s))))
              sentences)
    with (map (fun s => Num.of_nat (f s)) sentences).
  rewrite <- (map_map f Num.of_nat). fold f in Hne.
  set (lengths := map f sentences) in *.
  assert (Hcount : (0 < List.length lengths)%nat)
    by (unfold lengths; now rewrite length_map).
  rewrite map_of_nat. set (xs := map Spec.of_count lengths).
  assert (Lxs : List.length xs = List.length lengths)
    by (unfold xs; now rewrite length_map).
  rewrite (length_map Fin xs), Lxs.
  (* the average *)
  unfold sumOf.
  destruct (fold_add_fin xs 0) as (t & Et & Ht). rewrite Et.
  rewrite (div_fin_count t _ Hcount).
  set (avg := t / Spec.of_count (List.length lengths)).
  assert (Eavg : avg == Spec.mean xs).
  { unfold avg, Spec.mean, Spec.of_count. rewrite Lxs, Ht.
    apply Qmult_comp; [ring | reflexivity]. }
  (* the variance *)
  destruct (fold_squares_fin xs avg (Spec.mean xs) 0 Eavg) as (v & Ev & Hv).
  rewrite Ev. rewrite (div_fin_count v _ Hcount).
  assert (Evar : v / Spec.of_count (List.length lengths) == Spec.variance xs).
  { unfold Spec.variance, Spec.mean at 1, Spec.of_count.
    rewrite length_map, Lxs, Hv.
    apply Qmult_comp; [ring | reflexivity]. }
  (* the two scores *)
  unfold optimalLength.
  cbn [Num.sub Num.neg Num.add Math.abs].
  replace (Fin (Qabs (avg + - 17.5)) / Fin 17.5)%js
    with (Fin (Qabs (avg + - 17.5) / 17.5)) by reflexivity.
  replace (Fin (v / Spec.of_count (List.length lengths)) / Fin 50)%js
    with (Fin (v / Spec.of_count (List.length lengths) / 50))
    by reflexivity.
  destruct (min_one_spec (v / Spec.of_count (List.length lengths) / 50)
                         (Spec.variance xs / 50)) as (m & Em & Hm).
  { now rewrite Evar. }
  rewrite Em. cbn [Num.sub Num.neg Num.add Num.mul].
  unfold Spec.readabilityOf. fold xs. apply round_100_spec.
  unfold Spec.lengthScore, Spec.varietyScore.
  rewrite Hm.
  assert (Eabs : Qabs (avg + - 17.5) == Qabs (Spec.mean xs - 17.5)).
  { apply Qabs_wd. rewrite Eavg. reflexivity. }
  rewrite Eabs. ring.
Qed.

Lemma round2_le (x : Q) (z : Z) :
  x <= inject_Z z / 100 -> Spec.round2 x <= inject_Z z / 100.
Proof.
  intros H. unfold Spec.round2.
  assert (B : (Qfloor (x * 100 + (1 # 2)) < z + 1)%Z).
  { rewrite Zlt_Qlt.
    apply Qle_lt_trans with (x * 100 + (1 # 2)); [apply Qfloor_le |].
    rewrite inject_Z_plus. change (inject_Z 1) with 1.
    revert H. generalize (inject_Z z). intros; lraQ. }
  assert (B' : (Qfloor (x * 100 + (1 # 2)) <= z)%Z) by lia.
  rewrite Zle_Qle in B'. revert B'.
  generalize (inject_Z (Qfloor (x * 100 + (1 # 2)))), (inject_Z z).
  intros; lraQ.
Qed.

Lemma round2_ge (x : Q) (z : Z) :
  inject_Z z / 100 <= x -> inject_Z z / 100 <= Spec.round2 x.
Proof.
  intros H. unfold Spec.round2.
  assert (B : (z <= Qfloor (x * 100 + (1 # 2)))%Z).
  { rewrite <- (Qfloor_Z z) at 1. apply Qfloor_resp_le.
    revert H. generalize (inject_Z z). intros; lraQ. }
  rewrite Zle_Qle in B. revert B.
  generalize (inject_Z (Qfloor (x * 100 + (1 # 2)))), (inject_Z z).
  intros; lraQ.
Qed.

(** Below [-0.005], rounding gives a negative value. *)
Lemma round2_negative (x : Q) : x < - (1 # 200) -> Spec.round2 x < 0.
Proof.
  intros H. unfold Spec.round2.
  assert (B : (Qfloor (x * 100 + (1 # 2)) < 0)%Z).
  { rewrite Zlt_Qlt.
    apply Qle_lt_trans with (x * 100 + (1 # 2)); [apply Qfloor_le |].
    change (inject_Z 0) with 0. lra. }
  rewrite Zlt_Qlt in B. change (inject_Z 0) with 0 in B. revert B.
  generalize (inject_Z (Qfloor (x * 100 + (1 # 2)))). intros; lraQ.
Qed.

Lemma total_nonneg (xs : list Q) :
  Forall (fun x => 0 <= x) xs -> 0 <= Spec.total xs.
Proof.
  unfold Spec.total. induction 1 as [| x xs Hx _ IH]; cbn [fold_right]; lra.
Qed.

Lemma total_of_counts (lengths : list nat) :
  Spec.total (map Spec.of_count lengths) == Spec.of_count (list_sum lengths).
Proof.
  unfold Spec.total, Spec.of_count.
  induction lengths as [| n lengths IH]; cbn [map fold_right list_sum].
  - reflexivity.
  - rewrite IH, Nat2Z.inj_add, inject_Z_plus. reflexivity.
Qed.

Lemma mean_nonneg (xs : list Q) :
  xs <> [] -> Forall (fun x => 0 <= x) xs -> 0 <= Spec.mean xs.
Proof.
  intros Hne Hxs. unfold Spec.mean.
  apply Qle_shift_div_l.
  - apply inject_nat_pos. destruct xs; [congruence | simpl; lia].
  - pose proof (total_nonneg xs Hxs). lra.
Qed.

Lemma varietyScore_unit (xs : list Q) :
  xs <> [] -> 0 <= Spec.varietyScore xs <= 1.
Proof.
  intros Hne. unfold Spec.varietyScore. split; [| apply Q.le_min_l].
  apply Q.min_glb; [lra |].
  assert (V : 0 <= Spec.variance xs).
  { unfold Spec.variance. apply mean_nonneg.
    - destruct xs; [congruence | discriminate].
    - apply Forall_forall. intros y Hy.
      apply in_map_iff in Hy as (x & <- & _).
      set (d := x - Spec.mean xs). nra. }
  lraQ.
Qed.

Lemma lengthScore_le_1 (xs : list Q) : Spec.lengthScore xs <= 1.
Proof.
  unfold Spec.lengthScore.
  pose proof (Qabs_nonneg (Spec.mean xs - 17.5)). lraQ.
Qed.

Lemma lengthScore_long (xs : list Q) :
  17.5 <= Spec.mean xs ->
  Spec.lengthScore xs == 2 - Spec.mean xs / 17.5.
Proof.
  intros H. unfold Spec.lengthScore.
  rewrite Qabs_pos by lra. field.
Qed.

Lemma lengthScore_short (xs : list Q) :
  Spec.mean xs <= 17.5 ->
  Spec.lengthScore xs == Spec.mean xs / 17.5.
Proof.
  intros H. unfold Spec.lengthScore.
  rewrite Qabs_neg by lra. field.
Qed.

Lemma mean_of_counts (lengths : list nat) :
  lengths <> [] ->
  Spec.mean (map Spec.of_count lengths) * Spec.of_count (List.length lengths)
  == Spec.of_count (list_sum lengths).
Proof.
  intros Hne. unfold Spec.mean. rewrite length_map, total_of_counts.
  unfold Spec.of_count. field.
  assert (0 < inject_Z (Z.of_nat (List.length lengths))); [| lra].
  apply inject_nat_pos. destruct lengths; [congruence | simpl; lia].
Qed.

(** The readability formula never exceeds one ... *)
Lemma readabilityOf_le_1 (lengths : list nat) :
  lengths <> [] -> Spec.readabilityOf lengths <= 1.
Proof.
  intros Hne. unfold Spec.readabilityOf.
  set (xs := map Spec.of_count lengths).
  assert (Hxs : xs <> []) by (destruct lengths; [congruence | discriminate]).
  apply Qle_trans with (inject_Z 100 / 100); [| discriminate].
  apply round2_le. setoid_replace (inject_Z 100 / 100) with 1 by reflexivity.
  pose proof (lengthScore_le_1 xs). pose proof (varietyScore_unit xs Hxs).
  lra.
Qed.

(** ... stays non-negative while the average sentence has at most 35
    words ... *)
Lemma readabilityOf_nonneg (lengths : list nat) :
  lengths <> [] ->
  (list_sum lengths <= 35 * List.length lengths)%nat ->
  0 <= Spec.readabilityOf lengths.
Proof.
  intros Hne Hsum. unfold Spec.readabilityOf.
  set (xs := map Spec.of_count lengths).
  assert (Hxs : xs <> []) by (destruct lengths; [congruence | discriminate]).
  apply Qle_trans with (inject_Z 0 / 100); [discriminate |].
  apply round2_ge. setoid_replace (inject_Z 0 / 100) with 0 by reflexivity.
  pose proof (varietyScore_unit xs Hxs) as [V0 _].
  assert (M0 : 0 <= Spec.mean xs).
  { apply mean_nonneg; [exact Hxs |]. apply Forall_forall. intros y Hy.
    apply in_map_iff in Hy as (n & <- & _). apply inject_nat_nonneg. }
  assert (M35 : Spec.mean xs <= 35).
  { pose proof (mean_of_counts lengths Hne) as E. fold xs in E.
    assert (P : 0 < Spec.of_count (List.length lengths)).
    { apply inject_nat_pos. destruct lengths; [congruence | simpl; lia]. }
    assert (S : Spec.of_count (list_sum lengths)
                <= 35 * Spec.of_count (List.length lengths)).
    { unfold Spec.of_count. change 35 with (inject_Z 35).
      rewrite <- inject_Z_mult, <- Zle_Qle. lia. }
    nra. }
  assert (L0 : 0 <= Spec.lengthScore xs).
  { destruct (Qlt_le_dec (Spec.mean xs) 17.5) as [Lt | Ge].
    - rewrite lengthScore_short by lra. lraQ.
    - rewrite lengthScore_long by lra. lraQ. }
  lra.
Qed.

(** ... and is negative once it has 43 words or more. *)
Lemma readabilityOf_negative (lengths : list nat) :
  lengths <> [] ->
  (43 * List.length lengths <= list_sum lengths)%nat ->
  Spec.readabilityOf lengths < 0.
Proof.
  intros Hne Hsum. unfold Spec.readabilityOf.
  set (xs := map Spec.of_count lengths).
  assert (Hxs : xs <> []) by (destruct lengths; [congruence | discriminate]).
  apply round2_negative.
  pose proof (varietyScore_unit xs Hxs) as [_ V1].
  assert (M43 : 43 <= Spec.mean xs).
  { pose proof (mean_of_counts lengths Hne) as E. fold xs in E.
    assert (P : 0 < Spec.of_count (List.length lengths)).
    { apply inject_nat_pos. destruct lengths; [congruence | simpl; lia]. }
    assert (S : 43 * Spec.of_count (List.length lengths)
                <= Spec.of_count (list_sum lengths)).
    { unfold Spec.of_count. change 43 with (inject_Z 43).
      rewrite <- inject_Z_mult, <- Zle_Qle. lia. }
    nra. }
  rewrite lengthScore_long by lra. lraQ.
Qed.

Lemma calculateReadability_unit_short_sentences (content : string) :
  (list_sum (Spec.sentenceLengths content)
   <= 35 * List.length (Spec.sentenceLengths content))%nat ->
  Num.within 0 1 (score (calculateReadability content)).
Proof.
  intros H. destruct (Spec.sentenceLengths content) as [| n l] eqn:E.
  - unfold Spec.sentenceLengths in E. apply map_eq_nil in E.
    unfold calculateReadability. rewrite E. cbn. lra.
  - rewrite calculateReadability_formula by (rewrite E; discriminate).
    rewrite E. cbn [Num.within]. split.
    + apply readabilityOf_nonneg; [discriminate | exact H].
    + apply readabilityOf_le_1. discriminate.
Qed.

Lemma calculateReadability_negative_long_sentences (content : string) :
  Spec.sentenceLengths content <> [] ->
  (43 * List.length (Spec.sentenceLengths content)
   <= list_sum (Spec.sentenceLengths content))%nat ->
  Num.lt (score (calculateReadability content)) (Fin 0) = true.
Proof.
  intros Hne H. rewrite calculateReadability_formula by assumption.
  apply lt_fin. now apply readabilityOf_negative.
Qed.

(** C1.  The coherence, completeness and relevance scores lie in the
    unit interval for every content and prompt.  The readability score
    does not: for one sentence of forty words, [calculateReadability]
    returns [-0.2]; nothing keeps the length score above zero when the
    average sentence is longer than 35 words. *)
Theorem scores_in_unit_interval_but_readability :
  (forall content, Num.within 0 1 (score (calculateCoherence content)))
  /\ (forall content prompt,
         Num.within 0 1 (score (calculateCompleteness content prompt)))
  /\ (forall content prompt,
         Num.within 0 1 (score (calculateRelevance content prompt)))
  /\ Num.strict_eq (score (calculateReadability Sample.longSentence))
                   (Fin (-0.2)) = true
  /\ ~ Num.within 0 1 (score (calculateReadability Sample.longSentence)).
Proof.
  split; [exact calculateCoherence_unit |].
  split; [exact calculateCompleteness_unit |].
  split; [exact calculateRelevance_unit |].
  split; [vm_compute; reflexivity |].
  vm_compute. intros [H _]. apply H. reflexivity.
Qed.

(** ** The provider adapter *)

Lemma random_value_unit (w : World) : 0 <= random_value w < 1.
Proof.
  unfold random_value.
  set (k := (random_source w (random_pos w) mod 2 ^ 53)%N).
  assert (Hk : (k < 2 ^ 53)%N) by (apply N.mod_upper_bound; discriminate).
  split.
  - unfold Qle. simpl. lia.
  - unfold Qlt. simpl. rewrite Z.mul_1_r.
    change (Z.pos (2 ^ 53)) with (Z.of_N (2 ^ 53)). lia.
Qed.

(** [arr[Math.floor(r * arr.length)]] is an element of a non-empty array
    when [r] is in [[0, 1)]. *)
Lemma array_get_scaled {A} (arr : list A) (r : Q) :
  0 <= r < 1 -> arr <> [] ->
  exists x,
    array_get arr (Math.floor (Fin r * Num.of_nat (List.length arr))%js)
    = Some x /\ In x arr.
Proof.
  intros [R0 R1] Hne.
  assert (Hlen : (0 < List.length arr)%nat)
    by (destruct arr; [congruence | simpl; lia]).
  set (n := inject_Z (Z.of_nat (List.length arr))).
  assert (Pn : 0 < n) by (apply inject_nat_pos; assumption).
  cbn [Num.of_nat Num.of_Z Num.mul Math.floor].
  fold n. set (z := Qfloor (r * n)).
  assert (Hz0 : (0 <= z)%Z).
  { change 0%Z with (Qfloor 0). apply Qfloor_resp_le.
    apply Qmult_le_0_compat; lra. }
  assert (Hz1 : (z < Z.of_nat (List.length arr))%Z).
  { rewrite Zlt_Qlt. apply Qle_lt_trans with (r * n); [apply Qfloor_le |].
    fold n. nra. }
  unfold array_get, Num.of_Z. rewrite Qfloor_Z.
  rewrite (Qeq_eq_bool _ _ (Qeq_refl _)).
  replace (0 <=? z)%Z with true by (symmetry; apply Z.leb_le; assumption).
  cbn [andb].
  destruct (nth_error arr (Z.to_nat z)) as [x |] eqn:E.
  - exists x. split; [reflexivity |]. eapply nth_error_In; eassumption.
  - apply nth_error_None in E. lia.
Qed.

(** Picking a template at random. *)
Lemma pick_returns (responses : list string) (w : World) :
  responses <> [] ->
  exists s,
    (r <- Math_random ;;
     ret (array_get responses
            (Math.floor (r * Num.of_nat (List.length responses))%js))) w
    = (Returns (Some s), next_random w)
    /\ In s responses.
Proof.
  intros Hne.
  destruct (array_get_scaled responses (random_value w)
              (random_value_unit w) Hne) as (s & E & Hin).
  exists s. split; [| assumption].
  unfold bind, Math_random, ret. now rewrite E.
Qed.

Ltac nonempty_template :=
  match goal with
  | H : In _ _ |- _ =>
      simpl in H;
      repeat (destruct H as [H | H]; [subst; discriminate |]);
      contradiction
  end.

Ltac solve_generator :=
  intros;
  match goal with
  | |- exists s, ?gen _ _ ?w = _ /\ _ =>
      unfold gen;
      match goal with
      | |- context [array_get ?l _] =>
          destruct (pick_returns l w) as (s & E & Hin); [discriminate |];
          exists s; split; [exact E |]; intros ->; nonempty_template
      end
  end.

Lemma generateCreativeWritingResponse_returns prompt parameters w :
  exists s, LLM.generateCreativeWritingResponse prompt parameters w
            = (Returns (Some s), next_random w) /\ s <> "".
Proof. solve_generator. Qed.

Lemma generateExplanationResponse_returns prompt parameters w :
  exists s, LLM.generateExplanationResponse prompt parameters w
            = (Returns (Some s), next_random w) /\ s <> "".
Proof. solve_generator. Qed.

Lemma generateQAResponse_returns prompt parameters w :
  exists s, LLM.generateQAResponse prompt parameters w
            = (Returns (Some s), next_random w) /\ s <> "".
Proof. solve_generator. Qed.

Lemma generateCodeResponse_returns prompt parameters w :
  exists s, LLM.generateCodeResponse prompt parameters w
            = (Returns (Some s), next_random w) /\ s <> "".
Proof. solve_generator. Qed.

Lemma generateGeneralResponse_returns prompt parameters w :
  exists s, LLM.generateGeneralResponse prompt parameters w
            = (Returns (Some s), next_random w) /\ s <> "".
Proof. solve_generator. Qed.

Lemma generateRealisticMockResponse_returns prompt parameters w :
  exists s, LLM.generateRealisticMockResponse prompt parameters w
            = (Returns (Some s), next_random w) /\ s <> "".
Proof.
  unfold LLM.generateRealisticMockResponse.
  repeat match goal with
         | |- context [if ?b then _ else _] => destruct b
         end;
    auto using generateCreativeWritingResponse_returns,
      generateExplanationResponse_returns, generateQAResponse_returns,
      generateCodeResponse_returns, generateGeneralResponse_returns.
Qed.

Lemma generateMockResponse_returns prompt parameters startTime w :
  exists r w',
    LLM.generateMockResponse prompt parameters startTime w = (Returns r, w')
    /\ provider w' = provider w
    /\ content r <> ""
    /\ is_mock_text prompt parameters (content r).
Proof.
  destruct (generateRealisticMockResponse_returns prompt parameters w)
    as (s & E & Hs).
  unfold LLM.generateMockResponse, bind. rewrite E.
  cbn [LLM.defined ret Math_random Date_now].
  eexists; eexists. split; [reflexivity |]. cbn [content].
  repeat split; [assumption |].
  exists w. now rewrite E.
Qed.

Lemma is_empty_false (s : string) : Str.is_empty s = false -> s <> "".
Proof. destruct s; [discriminate | intros _; discriminate]. Qed.

(** One turn of the model loop never throws; it leaves the loop with a
    non-empty text, and on the last model it always leaves the loop. *)
Lemma attemptModel_returns svc prompt parameters startTime total attempt
      modelName w :
  exists step w',
    LLM.attemptModel svc prompt parameters startTime total attempt modelName w
    = (Returns step, w')
    /\ provider w' = provider w
    /\ match step with
       | LLM.Return r =>
           content r <> ""
           /\ ((forall n request, blank (provider w n request)) ->
               is_mock_text prompt parameters (content r))
       | LLM.Continue => attempt <> (total - 1)%nat
       end.
Proof.
  assert (Mock : forall w0,
             provider w0 = provider w ->
             exists step w',
               LLM.mock_and_return prompt parameters startTime w0
               = (Returns step, w')
               /\ provider w' = provider w
               /\ match step with
                  | LLM.Return r =>
                      content r <> ""
                      /\ ((forall n request, blank (provider w n request)) ->
                          is_mock_text prompt parameters (content r))
                  | LLM.Continue => attempt <> (total - 1)%nat
                  end).
  { intros w0 Hw0.
    destruct (generateMockResponse_returns prompt parameters startTime w0)
      as (r & w' & E & Hp & Hc & Hm).
    exists (LLM.Return r), w'. unfold LLM.mock_and_return, bind.
    rewrite E. cbn [ret]. repeat split; [congruence | assumption | auto]. }
  assert (Handler : forall error w0,
             provider w0 = provider w ->
             exists step w',
               (if LLM.isRetryable error && (attempt <? total - 1)%nat
                then
                  sleep (Math.min (Fin 1000 * Math.pow (Fin 2) attempt)%js
                                  (Fin 5000)) ;;;
                  ret LLM.Continue
                else if (attempt =? total - 1)%nat
                     then LLM.mock_and_return prompt parameters startTime
                     else ret LLM.Continue) w0
               = (Returns step, w')
               /\ provider w' = provider w
               /\ match step with
                  | LLM.Return r =>
                      content r <> ""
                      /\ ((forall n request, blank (provider w n request)) ->
                          is_mock_text prompt parameters (content r))
                  | LLM.Continue => attempt <> (total - 1)%nat
                  end).
  { intros error w0 Hw0.
    destruct (LLM.isRetryable error && (attempt <? total - 1)%nat) eqn:Retry.
    - apply andb_prop in Retry as [_ Lt]. apply Nat.ltb_lt in Lt.
      exists LLM.Continue. eexists. split; [reflexivity |].
      split; [exact Hw0 | lia].
    - destruct (attempt =? total - 1)%nat eqn:Last.
      + now apply Mock.
      + apply Nat.eqb_neq in Last.
        exists LLM.Continue, w0. repeat split; assumption. }
  unfold LLM.attemptModel, try_catch.
  unfold bind at 1. unfold LLM.getGenerativeModel.
  destruct (genAI svc) as [client |].
  2: { cbn [throw]. now apply Handler. }
  cbn [ret]. unfold bind at 1. unfold call_provider.
  destruct (provider w (provider_calls w) _) as [text | e] eqn:Answer.
  2: { now apply Handler. }
  set (w1 := record_event _ w).
  destruct (Str.is_empty text || (String.length (Str.trim text) =? 0)%nat)
    eqn:Blank.
  - destruct (attempt =? total - 1)%nat eqn:Last.
    + destruct (Mock w1 eq_refl) as (step & w' & E & Hp & Hs).
      rewrite E. exists step, w'. repeat split; assumption.
    + apply Nat.eqb_neq in Last. cbn [ret].
      exists LLM.Continue, w1. repeat split; assumption.
  - apply orb_false_elim in Blank as [NotEmpty NotBlank].
    unfold bind, Date_now, ret.
    eexists; eexists. split; [reflexivity |]. cbn [content].
    split; [reflexivity |]. split.
    + now apply is_empty_false.
    + intros AllBlank. specialize (AllBlank (provider_calls w)).
      match type of Answer with
      | provider w _ ?request = _ => specialize (AllBlank request)
      end.
      rewrite Answer in AllBlank. cbn [blank] in AllBlank.
      rewrite AllBlank in NotBlank. discriminate.
Qed.

Lemma tryModels_returns svc prompt parameters startTime total models :
  forall attempt w,
  exists r w',
    LLM.tryModels svc prompt parameters startTime total attempt models w
    = (Returns r, w')
    /\ provider w' = provider w
    /\ content r <> ""
    /\ ((forall n request, blank (provider w n request)) ->
        is_mock_text prompt parameters (content r)).
Proof.
  induction models as [| modelName rest IH]; intros attempt w.
  - cbn [LLM.tryModels].
    destruct (generateMockResponse_returns prompt parameters startTime w)
      as (r & w' & E & Hp & Hc & Hm).
    exists r, w'. repeat split; auto.
  - cbn [LLM.tryModels]. unfold bind.
    destruct (attemptModel_returns svc prompt parameters startTime total
                attempt modelName w) as (step & w1 & E & Hp & Hs).
    rewrite E. destruct step as [r |].
    + exists r, w1. cbn [ret]. destruct Hs. repeat split; assumption.
    + destruct (IH (S attempt) w1) as (r & w' & E' & Hp' & Hc & Hm).
      exists r, w'. repeat split; [assumption | congruence | assumption |].
      intros AllBlank. apply Hm. intros n request. rewrite Hp.
      apply AllBlank.
Qed.

(** C2.  [generateResponse] resolves for every service, prompt, parameter
    tuple and world: it never throws and always ends, and the text it
    returns is not empty.  When the provider answers every call with an
    empty (or blank) text, the text returned is one the mock generator
    produces for the prompt. *)
Theorem generateResponse_always_resolves
        (svc : LLMService) (prompt : string)
        (parameters : GenerationParameters) (w : World) :
  exists r w',
    LLM.generateResponse svc prompt parameters w = (Returns r, w')
    /\ content r <> ""
    /\ ((forall n request, blank (provider w n request)) ->
        is_mock_text prompt parameters (content r)).
Proof.
  unfold LLM.generateResponse, bind, Date_now, Math_random.
  set (startTime := Num.of_Z _). set (w1 := next_random (next_clock w)).
  destruct (isMockMode svc).
  - destruct (generateMockResponse_returns prompt parameters startTime w1)
      as (r & w' & E & _ & Hc & Hm).
    exists r, w'. repeat split; auto.
  - destruct (tryModels_returns svc prompt parameters startTime
                (List.length (LLM.modelsToTry parameters))
                (LLM.modelsToTry parameters) 0%nat w1)
      as (r & w' & E & _ & Hc & Hm).
    exists r, w'. repeat split; auto.
Qed.

Lemma generateResponse_silent_provider :
  exists r w',
    LLM.generateResponse Sample.live "Tell me about rivers" Sample.params
                         (Sample.world Sample.silent)
    = (Returns r, w')
    /\ content r <> ""
    /\ is_mock_text "Tell me about rivers" Sample.params (content r).
Proof.
  destruct (generateResponse_always_resolves
              Sample.live "Tell me about rivers" Sample.params
              (Sample.world Sample.silent)) as (r & w' & E & Hc & Hm).
  exists r, w'. split; [exact E |]. split; [exact Hc |].
  apply Hm. intros n request. reflexivity.
Defined.

(** What the catch branch does with a failed call that is not the last
    of the list: after a transient status it waits and goes on; after
    any other error it goes on as well, at once. *)
Lemma attemptModel_transient_backs_off prompt parameters startTime total
      attempt modelName w e :
  let request :=
    {| req_model := modelName; req_prompt := LLM.enhancePrompt prompt;
       req_temperature := temperature parameters;
       req_topP := top_p parameters |} in
  provider w (provider_calls w) request = ProviderFails e ->
  LLM.isRetryable e = true ->
  (attempt < total - 1)%nat ->
  LLM.attemptModel Sample.live prompt parameters startTime total attempt
                   modelName w
  = (Returns LLM.Continue,
     record_event
       (EvSleep (Math.min (Fin 1000 * Math.pow (Fin 2) attempt)%js
                          (Fin 5000)))
       (record_event (EvProviderCall request) w)).
Proof.
  intros request Answer Retry Lt.
  unfold LLM.attemptModel, try_catch, bind, LLM.getGenerativeModel,
    call_provider. cbn [genAI Sample.live ret]. fold request.
  rewrite Answer, Retry.
  apply Nat.ltb_lt in Lt. rewrite Lt. reflexivity.
Qed.

Lemma attemptModel_permanent_goes_on prompt parameters startTime total
      attempt modelName w e :
  let request :=
    {| req_model := modelName; req_prompt := LLM.enhancePrompt prompt;
       req_temperature := temperature parameters;
       req_topP := top_p parameters |} in
  provider w (provider_calls w) request = ProviderFails e ->
  LLM.isRetryable e = false ->
  (attempt < total - 1)%nat ->
  LLM.attemptModel Sample.live prompt parameters startTime total attempt
                   modelName w
  = (Returns LLM.Continue, record_event (EvProviderCall request) w).
Proof.
  intros request Answer Retry Lt.
  unfold LLM.attemptModel, try_catch, bind, LLM.getGenerativeModel,
    call_provider. cbn [genAI Sample.live ret]. fold request.
  rewrite Answer, Retry. cbn [andb].
  replace (attempt =? total - 1)%nat with false; [reflexivity |].
  symmetry. apply Nat.eqb_neq. lia.
Qed.

Lemma status_400_not_retryable : LLM.isRetryable Sample.badRequest = false.
Proof. reflexivity. Qed.

Lemma general_prompt_mock_texts (c : string) :
  is_mock_text "capital of France" Sample.params c ->
  exists w, LLM.generateGeneralResponse "capital of France" Sample.params w
            = (Returns (Some c), next_random w).
Proof.
  intros [w H]. exists w.
  change (LLM.generateRealisticMockResponse "capital of France"
            Sample.params w)
    with (LLM.generateGeneralResponse "capital of France" Sample.params w)
    in H.
  destruct (generateGeneralResponse_returns "capital of France"
              Sample.params w) as (s & E & _).
  rewrite E in H |- *. cbn [fst] in H. congruence.
Qed.

(** C3.  A non-transient failure on a model that is not the last of the
    list does not end in the mock generator: with a provider that rejects
    the requested model with status 400 and answers on the fallback
    models, [generateResponse] asks the next model and returns its text,
    which is no mock text. *)
Theorem non_transient_error_tries_next_model :
  let run :=
    LLM.generateResponse Sample.live "capital of France" Sample.params
                         (Sample.world Sample.rejectedByFirst) in
  LLM.isRetryable Sample.badRequest = false
  /\ (exists r, fst run = Returns r /\ content r = "Paris.")
  /\ models_called (snd run) = ["gemini-2.5-flash"; "gemini-1.5-flash"]
  /\ ~ is_mock_text "capital of France" Sample.params "Paris.".
Proof.
  cbv zeta. split; [reflexivity |]. split.
  { eexists. split; [vm_compute; reflexivity | reflexivity]. }
  split; [vm_compute; reflexivity |].
  intros H. apply general_prompt_mock_texts in H as [w H].
  unfold LLM.generateGeneralResponse in H.
  match type of H with
  | context [array_get ?l _] =>
      destruct (pick_returns l w) as (s & E & Hin); [discriminate |]
  end.
  rewrite E in H. injection H as ->.
  simpl in Hin.
  repeat (destruct Hin as [Hin | Hin]; [discriminate |]).
  contradiction.
Qed.

(** ** The aggregator *)

Lemma calculateOverallScore_fin (m : QualityMetrics) (c k r l : Q) :
  coherence m = Fin c -> completeness m = Fin k ->
  readability m = Fin r -> relevance m = Fin l ->
  calculateOverallScore m = Fin (Spec.overall c k r l).
Proof.
  intros Ec Ek Er El. unfold calculateOverallScore.
  rewrite Ec, Ek, Er, El.
  unfold weight_coherence, weight_completeness, weight_readability,
    weight_relevance.
  cbn [Num.mul Num.add]. unfold Spec.overall.
  apply round_100_spec. ring.
Qed.



(** ** The experiment aggregate *)








(** ** The generation route *)

Lemma post_rejects_missing_fields llmService req w :
  Generation.requiredFields req = None ->
  Generation.post llmService req w
  = (Returns
       {| status := 400;
          body :=
            Failure
              "Missing required fields: prompt, parameterRange, numberOfRuns"
              None |},
     next_random w).
Proof.
  intros H. unfold Generation.post, bind, try_catch, Math_random.
  now rewrite H.
Qed.

Lemma post_rejects_more_than_20 llmService req w prompt range runs :
  Generation.requiredFields req = Some (prompt, range, runs) ->
  Num.gt runs (Fin 20) = true ->
  Generation.post llmService req w
  = (Returns
       {| status := 400;
          body := Failure "Maximum 20 runs allowed per request" None |},
     next_random w).
Proof.
  intros H G. unfold Generation.post, bind, try_catch, Math_random.
  now rewrite H, G.
Qed.

(** A run count of zero counts as a missing field. *)
Lemma requiredFields_zero_runs req :
  body_numberOfRuns req = Some (Fin 0) ->
  Generation.requiredFields req = None.
Proof.
  intros H. unfold Generation.requiredFields. rewrite H.
  destruct (body_prompt req), (body_parameterRange req); try reflexivity.
  cbn. now rewrite orb_true_r.
Qed.

(** A rejected request has no outward effect: no provider call, no
    persistence operation, and one random draw only, for the log id. *)
Lemma next_random_quiet (w : World) :
  trace (next_random w) = trace w
  /\ provider_calls (next_random w) = provider_calls w
  /\ db_ops (next_random w) = db_ops w
  /\ random_pos (next_random w) = S (random_pos w).
Proof. repeat split. Qed.

(** C6.  The aggregate the generation route computes over no response at
    all is a metrics object whose five fields are [NaN]: no guard
    precedes the division by the response count.  The export route does
    guard the empty list, and returns the empty object for it.  The
    route reaches the empty aggregate on a request for [-1] runs, which it
    answers with status 200. *)
Theorem empty_aggregate_is_NaN :
  Generation.averageMetricsOf [] = SampleAggregate.allNaN
  /\ ExportRoute.calculateAverageMetrics [] = EmptyObject
  /\ exists data message,
      fst (Generation.post Sample.live (Sample.request (Fin (-1)))
                           (Sample.world Sample.silent))
      = Returns {| status := 200; body := Success data message |}
      /\ responses data = []
      /\ averageMetrics data = SampleAggregate.allNaN.
Proof.
  split; [reflexivity |]. split; [reflexivity |].
  eexists; eexists. split; [vm_compute; reflexivity |].
  split; reflexivity.
Qed.

(** C7.  A request for [-1] runs passes the validation: the route
    creates an experiment record and answers with status 200.  Only a
    missing or zero run count and a run count above 20 are rejected. *)
Theorem negative_run_count_accepted :
  let run :=
    Generation.post Sample.live (Sample.request (Fin (-1)))
                    (Sample.world Sample.silent) in
  (exists answer, fst run = Returns answer /\ status answer = 200%Z)
  /\ trace (snd run)
     = [EvDb (ExperimentCreate "Explain rain" (Fin (-1)));
        EvDb (ExperimentUpdate 0 (Fin 0))].
Proof.
  cbv zeta. split.
  - eexists. split; [vm_compute; reflexivity | reflexivity].
  - vm_compute. reflexivity.
Qed.

(** With [21] runs, or with none, the same request is rejected at once. *)
Lemma run_count_21_rejected (w : World) :
  exists answer,
    Generation.post Sample.live (Sample.request (Fin 21)) w
    = (Returns answer, next_random w)
    /\ status answer = 400%Z.
Proof.
  eexists. split.
  - eapply post_rejects_more_than_20; reflexivity.
  - reflexivity.
Qed.

Lemma run_count_0_rejected (w : World) :
  exists answer,
    Generation.post Sample.live (Sample.request (Fin 0)) w
    = (Returns answer, next_random w)
    /\ status answer = 400%Z.
Proof.
  eexists. split.
  - apply post_rejects_missing_fields. now apply requiredFields_zero_runs.
  - reflexivity.
Qed.

(** Every negative run count passes the validation.  With a working
    persistence layer the route then creates the experiment, generates
    nothing, and answers with status 200 and [NaN] averages. *)
Lemma post_negative_run_count llmService prompt range q name description w :
  prompt <> "" ->
  q < 0 ->
  (forall n, db_fails w n = false) ->
  exists data message w',
    Generation.post llmService
      {| body_prompt := Some prompt;
         body_parameterRange := Some range;
         body_numberOfRuns := Some (Fin q);
         body_experimentName := name;
         body_experimentDescription := description |} w
    = (Returns {| status := 200; body := Success data message |}, w')
    /\ trace w'
       = (trace w ++ [EvDb (ExperimentCreate prompt (Fin q));
                      EvDb (ExperimentUpdate (db_ops w) (Fin 0))])%list
    /\ responses data = []
    /\ averageMetrics data = SampleAggregate.allNaN.
Proof.
  intros Hprompt Hq Hdb.
  assert (Required :
            Generation.requiredFields
              {| body_prompt := Some prompt;
                 body_parameterRange := Some range;
                 body_numberOfRuns := Some (Fin q);
                 body_experimentName := name;
                 body_experimentDescription := description |}
            = Some (prompt, range, Fin q)).
  { unfold Generation.requiredFields. cbn [body_prompt body_parameterRange
      body_numberOfRuns Num.truthy].
    destruct prompt; [congruence |]. cbn [Str.is_empty orb].
    rewrite is_zero_false by lra. reflexivity. }
  assert (NotAbove : Num.gt (Fin q) (Fin 20) = false)
    by (apply lt_fin_false; lra).
  assert (NoTurn : loop_bound (Fin q) = Some 0%nat).
  { cbn [loop_bound]. f_equal.
    assert (C : (Qceiling q <= 0)%Z); [| lia].
    change 0%Z with (Qceiling 0). apply Qceiling_resp_le. lra. }
  unfold Generation.post, bind at 1, Math_random, try_catch.
  rewrite Required, NotAbove.
  unfold Generation.generateParameterCombinations. rewrite NoTurn.
  cbn [Generation.sampleLoop].
  unfold bind at 1. cbn [ret]. unfold bind at 1. unfold db at 1.
  change (db_fails (next_random w)) with (db_fails w). rewrite Hdb.
  unfold LLM.generateMultipleResponses, bind at 1, bind at 1, Math_random.
  cbn [List.length LLM.batchLoop ret]. unfold bind at 1.
  cbn [Generation.processResults ret]. unfold bind at 1. unfold db at 1.
  cbn [db_fails record_event next_random]. rewrite Hdb.
  eexists; eexists; eexists. split; [reflexivity |].
  cbn [trace record_event next_random responses averageMetrics db_ops].
  repeat split. rewrite <- app_assoc. reflexivity.
Qed.

(** ** The parameter sampler *)

(** [loop_bound] counts the turns of [for (i = 0; i < count; i++)]. *)
Lemma loop_bound_turns (q : Q) (i : nat) :
  Num.lt (Num.of_nat i) (Fin q) = true
  <-> (i < Z.to_nat (Qceiling q))%nat.
Proof.
  unfold Num.of_nat, Num.of_Z. rewrite lt_fin. split; intros H.
  - assert (L : (Z.of_nat i < Qceiling q)%Z); [| lia].
    rewrite Zlt_Qlt. eapply Qlt_le_trans; [exact H | apply Qle_ceiling].
  - assert (L : (Z.of_nat i <= Qceiling q - 1)%Z) by lia.
    rewrite Zle_Qle in L. eapply Qle_lt_trans; [exact L |].
    apply Qceiling_lt.
Qed.

Lemma skip_next (k : nat) (w : World) :
  Spec.skip k (next_random w) = Spec.skip (S k) w.
Proof.
  unfold Spec.skip. symmetry. apply Nat.iter_succ_r.
Qed.

Lemma skip_skip (a b : nat) (w : World) :
  Spec.skip a (Spec.skip b w) = Spec.skip (a + b) w.
Proof.
  unfold Spec.skip. symmetry. apply Nat.iter_add.
Qed.











(** ** The mock generator's categories *)

Lemma prefix_toLowerCase (pat s : string) :
  prefix pat s = true ->
  prefix (Str.toLowerCase pat) (Str.toLowerCase s) = true.
Proof.
  revert s. induction pat as [| a pat IH]; intros s H;
    [destruct s; reflexivity |].
  destruct s as [| b s]; [discriminate |].
  cbn [prefix Str.toLowerCase] in *.
  destruct (ascii_dec a b) as [-> |]; [| discriminate].
  destruct (ascii_dec (Str.lower_char b) (Str.lower_char b));
    [now apply IH | congruence].
Qed.

(** A lower-case word found in a string is found in the case-folded
    string. *)
Lemma includes_toLowerCase (s pat : string) :
  Str.toLowerCase pat = pat ->
  Str.includes s pat = true ->
  Str.includes (Str.toLowerCase s) pat = true.
Proof.
  intros Hpat. induction s as [| c s IH]; cbn [Str.includes Str.toLowerCase].
  - rewrite !orb_false_r. intros H.
    apply prefix_toLowerCase in H. now rewrite Hpat in H.
  - intros H. apply orb_prop in H as [H | H].
    + apply prefix_toLowerCase in H. rewrite Hpat in H.
      cbn [Str.toLowerCase] in H. now rewrite H.
    + rewrite (IH H). apply orb_true_r.
Qed.

Lemma generateRealisticMockResponse_classify prompt parameters :
  LLM.generateRealisticMockResponse prompt parameters
  = Spec.generator (Spec.classify prompt) prompt parameters.
Proof.
  unfold LLM.generateRealisticMockResponse, Spec.classify, Spec.keywords.
  cbn [Spec.first_match Spec.mentions existsb].
  rewrite !orb_false_r, !orb_assoc.
  repeat match goal with
         | |- context [if ?b then _ else _] => destruct b
         end; reflexivity.
Qed.

Lemma story_is_creative (prompt : string) :
  Str.includes prompt "story" = true ->
  Spec.classify prompt = Spec.CreativeWriting.
Proof.
  intros H. apply includes_toLowerCase in H; [| reflexivity].
  unfold Spec.classify. cbn [Spec.keywords Spec.first_match Spec.mentions existsb].
  now rewrite H.
Qed.

(** C9.  The mock generator picks the generator of the first category,
    in the order creative writing, explanatory, question, code, general,
    one of whose keywords occurs in the case-folded prompt.  So a prompt
    that contains both "story" and "explain" gets a creative-writing
    text. *)
Theorem mock_generator_first_match_priority :
  (forall prompt parameters,
      LLM.generateRealisticMockResponse prompt parameters
      = Spec.generator (Spec.classify prompt) prompt parameters)
  /\ (forall prompt parameters,
         Str.includes prompt "story" = true ->
         Str.includes prompt "explain" = true ->
         Spec.classify prompt = Spec.CreativeWriting
         /\ LLM.generateRealisticMockResponse prompt parameters
            = LLM.generateCreativeWritingResponse prompt parameters).
Proof.
  split; [exact generateRealisticMockResponse_classify |].
  intros prompt parameters Hstory _.
  pose proof (story_is_creative prompt Hstory) as C. split; [exact C |].
  now rewrite generateRealisticMockResponse_classify, C.
Qed.

Lemma mock_generator_first_match_priority_sample :
  Spec.classify "Please explain the story of Rome" = Spec.CreativeWriting
  /\ LLM.generateRealisticMockResponse "Please explain the story of Rome"
                                       Sample.params
     = LLM.generateCreativeWritingResponse "Please explain the story of Rome"
                                           Sample.params.
Proof.
  apply (proj2 mock_generator_first_match_priority); reflexivity.
Defined.

(** ** Scoring inside the route *)

(** The responses the loop adds carry the scores of the scoring engine,
    whatever the world; the totals are the sums of these scores. *)
Lemma processResults_scored (prompt : string) (results : list BatchResult) :
  forall experiment acc totals w out w',
    Generation.processResults experiment prompt results acc totals w
    = (Returns out, w') ->
    exists added,
      fst out = (acc ++ added)%list
      /\ map Spec.scored added = map (Spec.scoreOf prompt) results
      /\ snd out
         = fold_left Generation.addMetrics
                     (map (fun r => metrics (Spec.scoreOf prompt r)) results)
                     totals.
Proof.
  induction results as [| r rest IH]; intros experiment acc totals w out w' H.
  - cbn in H. injection H as <- _. exists []. cbn.
    now rewrite app_nil_r.
  - cbn [Generation.processResults] in H. unfold bind at 1 in H.
    destruct (db _ w) as [[id | e |] w1]; try discriminate.
    unfold bind at 1 in H.
    destruct (Generation.storeDetails _ _ w1) as [[[] | e |] w2];
      try discriminate.
    apply IH in H as (added & Hacc & Hscored & Htotals).
    eexists (_ :: added). split; [| split].
    + rewrite Hacc, <- app_assoc. reflexivity.
    + cbn [map]. rewrite Hscored. reflexivity.
    + exact Htotals.
Qed.



(** The [averageMetrics] of a successful answer is the aggregate of the
    metrics of its responses. *)
Lemma post_averageMetrics llmService req w data message w' :
  Generation.post llmService req w
  = (Returns {| status := 200; body := Success data message |}, w') ->
  averageMetrics data
  = Generation.averageMetricsOf (map response_metrics (responses data)).
Proof.
  unfold Generation.post, bind at 1, Math_random, try_catch.
  destruct (Generation.requiredFields req) as [[[prompt range] runs] |];
    [| cbn; discriminate].
  destruct (Num.gt runs (Fin 20)); [cbn; discriminate |].
  unfold bind at 1.
  destruct (Generation.generateParameterCombinations _ _ _)
    as [[combinations | e |] w1]; try (cbn; discriminate).
  unfold bind at 1.
  destruct (db _ w1) as [[experiment | e |] w2]; try (cbn; discriminate).
  unfold bind at 1.
  destruct (LLM.generateMultipleResponses _ _ _ w2)
    as [[generationResults | e |] w3]; try (cbn; discriminate).
  unfold bind at 1.
  destruct (Generation.processResults _ _ _ _ _ w3)
    as [[[responses' totals] | e |] w4] eqn:P; try (cbn; discriminate).
  unfold bind at 1.
  destruct (db _ w4) as [[updated | e |] w5]; try (cbn; discriminate).
  cbn [ret]. intros H. injection H as <- _ _.
  cbn [averageMetrics responses].
  apply processResults_scored in P as (added & Hadded & Hscored & Htotals).
  cbn [fst snd app] in Hadded, Htotals. subst responses' totals.
  unfold Generation.averageMetricsOf. rewrite length_map. do 2 f_equal.
  apply (f_equal (map metrics)) in Hscored. rewrite !map_map in Hscored.
  symmetry. exact Hscored.
Qed.

(** The export route takes the other reading: it averages the stored
    overall scores. *)
Lemma export_averages_overall_scores :
  let stored (m : QualityMetrics) :=
    {| stored_coherence := Some (coherence m);
       stored_completeness := Some (completeness m);
       stored_readability := Some (readability m);
       stored_relevance := Some (relevance m);
       stored_overallScore := Some (overallScore m) |} in
  let ms := [SampleMetrics.first; SampleMetrics.second] in
  exists m,
    ExportRoute.calculateAverageMetrics (map stored ms) = Averages m
    /\ Spec.value (overallScore m) == Spec.averageOfOveralls ms.
Proof.
  cbv zeta. eexists. split; [vm_compute; reflexivity |].
  vm_compute. reflexivity.
Qed.

(* ------------------------------------------------------------------ *)
(** * Further properties of the code *)
(* ------------------------------------------------------------------ *)

(** ** The scorers, beyond the unit interval *)

Lemma no_sentence_score (content : string) :
  Spec.sentenceLengths content = [] ->
  score (calculateReadability content) = Fin 0.
Proof.
  intros E. unfold Spec.sentenceLengths in E. apply map_eq_nil in E.
  unfold calculateReadability. now rewrite E.
Qed.

(** X1.  The readability score is a finite number and never exceeds 1,
    whatever the content. *)
Theorem readability_at_most_one (content : string) :
  exists q, score (calculateReadability content) = Fin q /\ q <= 1.
Proof.
  destruct (Spec.sentenceLengths content) as [| n l] eqn:E.
  - exists 0. split; [now apply no_sentence_score | lra].
  - eexists. split.
    + apply calculateReadability_formula. rewrite E. discriminate.
    + apply readabilityOf_le_1. rewrite E. discriminate.
Qed.

Lemma list_sum_le_bound (bound : nat) (l : list nat) :
  Forall (fun n => (n <= bound)%nat) l ->
  (list_sum l <= bound * List.length l)%nat.
Proof.
  induction 1 as [| n l Hn _ IH]; unfold list_sum in *;
    cbn [fold_right List.length];
    rewrite ?Nat.mul_0_r, ?Nat.mul_succ_r; lia.
Qed.

Lemma list_sum_ge_bound (bound : nat) (l : list nat) :
  Forall (fun n => (bound <= n)%nat) l ->
  (bound * List.length l <= list_sum l)%nat.
Proof.
  induction 1 as [| n l Hn _ IH]; unfold list_sum in *;
    cbn [fold_right List.length];
    rewrite ?Nat.mul_0_r, ?Nat.mul_succ_r; lia.
Qed.

(** X2.  When no sentence of the content has more than 35 words, the
    readability score lies in the unit interval. *)
Theorem readability_unit_for_short_sentences (content : string) :
  Forall (fun n => (n <= 35)%nat) (Spec.sentenceLengths content) ->
  Num.within 0 1 (score (calculateReadability content)).
Proof.
  intros H. apply calculateReadability_unit_short_sentences.
  now apply list_sum_le_bound.
Qed.

Lemma readability_unit_for_short_sentences_sample :
  Num.within 0 1
    (score (calculateReadability
              "Hello there. How are you doing today? Fine!")).
Proof.
  apply readability_unit_for_short_sentences.
  vm_compute. repeat constructor.
Defined.

(** X3.  When the content has a sentence and every sentence has 43 words
    or more, the readability score is negative. *)
Theorem readability_negative_for_long_sentences (content : string) :
  Spec.sentenceLengths content <> [] ->
  Forall (fun n => (43 <= n)%nat) (Spec.sentenceLengths content) ->
  Num.lt (score (calculateReadability content)) (Fin 0) = true.
Proof.
  intros Hne H. apply calculateReadability_negative_long_sentences.
  - exact Hne.
  - now apply list_sum_ge_bound.
Qed.

Lemma readability_negative_for_long_sentences_sample :
  Num.lt (score (calculateReadability
                   (Sample.longSentence ++ " and so on and"))) (Fin 0)
  = true.
Proof.
  apply readability_negative_for_long_sentences.
  - vm_compute. discriminate.
  - vm_compute. repeat constructor.
Defined.

Lemma has_In (s : list string) (w : string) :
  JsSet.has s w = true <-> In w s.
Proof.
  unfold JsSet.has. rewrite existsb_exists. split.
  - intros (x & Hx & E). apply String.eqb_eq in E. now subst.
  - intros H. exists w. split; [exact H | apply String.eqb_refl].
Qed.

Lemma add_all_In (l seen : list string) (w : string) :
  In w (JsSet.add_all seen l) <-> In w l /\ ~ In w seen.
Proof.
  revert seen. induction l as [| x l IH]; intros seen; cbn [JsSet.add_all].
  - cbn. tauto.
  - destruct (JsSet.has seen x) eqn:E.
    + apply has_In in E. rewrite IH. cbn [In]. split.
      * tauto.
      * intros [[-> | H] N]; [contradiction | tauto].
    + assert (N : ~ In x seen).
      { intros H. apply has_In in H. congruence. }
      cbn [In]. rewrite IH. cbn [In].
      destruct (string_dec x w) as [-> | D]; [tauto |].
      split; [tauto |]. intros [[H | H] N']; [contradiction |].
      right. split; [exact H |]. intros [H' | H']; [contradiction | tauto].
Qed.

Lemma of_list_In (l : list string) (w : string) :
  In w (JsSet.of_list l) <-> In w l.
Proof. unfold JsSet.of_list. rewrite add_all_In. cbn. tauto. Qed.

(** A list without repetition is its own set. *)
Lemma add_all_NoDup (l seen : list string) :
  NoDup l -> (forall w, In w l -> ~ In w seen) ->
  JsSet.add_all seen l = l.
Proof.
  intros H. revert seen. induction H as [| x l Hx _ IH]; intros seen D.
  - reflexivity.
  - cbn [JsSet.add_all]. destruct (JsSet.has seen x) eqn:E.
    + apply has_In in E. exfalso. apply (D x); [now left | exact E].
    + f_equal. apply IH. intros w Hw [<- | Hs]; [contradiction |].
      apply (D w); [now right | exact Hs].
Qed.

Lemma of_list_NoDup (l : list string) : NoDup l -> JsSet.of_list l = l.
Proof. intros H. apply add_all_NoDup; [exact H | intros w _ []]. Qed.

Lemma min_one_capped (x : Q) : 1 <= x -> Math.min (Fin 1) (Fin x) = Fin 1.
Proof.
  intros H. unfold Math.min.
  destruct (Num.lt (Fin x) (Fin 1)) eqn:E; [| reflexivity].
  apply lt_fin in E. lra.
Qed.

(** X4.  A content with at least one word, at least five in six of whose
    words are distinct, has coherence 1; so has a content whose words are
    all distinct. *)
Theorem coherence_of_diverse_text (content : string) :
  let words := words_longer_than 0 content in
  words <> [] ->
  (5 * List.length words <= 6 * JsSet.size (JsSet.of_list words))%nat
  \/ NoDup words ->
  Num.strict_eq (score (calculateCoherence content)) (Fin 1) = true.
Proof.
  intros words Hne H.
  assert (Hlen : (0 < List.length words)%nat)
    by (destruct words; [congruence | simpl; lia]).
  assert (H56 : (5 * List.length words
                 <= 6 * JsSet.size (JsSet.of_list words))%nat).
  { destruct H as [H | H]; [exact H |].
    rewrite (of_list_NoDup words H). unfold JsSet.size. lia. }
  unfold calculateCoherence. fold words.
  destruct (List.length words =? 0)%nat eqn:E;
    [apply Nat.eqb_eq in E; lia |].
  cbn [score]. rewrite div_of_nat by assumption. cbn [Num.mul].
  rewrite min_one_capped; [reflexivity |].
  set (u := JsSet.size (JsSet.of_list words)) in *.
  pose proof (inject_nat_pos _ Hlen) as Pn.
  assert (Q56 : 5 * inject_Z (Z.of_nat (List.length words))
                <= 6 * inject_Z (Z.of_nat u)).
  { change 5 with (inject_Z 5). change 6 with (inject_Z 6).
    rewrite <- !inject_Z_mult, <- Zle_Qle. lia. }
  assert (R : (5 # 6) <= inject_Z (Z.of_nat u)
                         / inject_Z (Z.of_nat (List.length words)))
    by (apply Qle_shift_div_l; [exact Pn | lra]).
  revert R. generalize (inject_Z (Z.of_nat u)
                        / inject_Z (Z.of_nat (List.length words))).
  intros x R. lra.
Qed.

Lemma coherence_of_diverse_text_sample :
  Num.strict_eq
    (score (calculateCoherence "The quick brown fox jumps over a lazy dog"))
    (Fin 1) = true.
Proof.
  apply coherence_of_diverse_text.
  - vm_compute. discriminate.
  - left. apply Nat.leb_le. vm_compute. reflexivity.
Defined.

(** X5.  A response with fewer than ten words longer than two characters
    never gets a completeness above 0.7. *)
Theorem completeness_of_short_response (content prompt : string) :
  (List.length (words_longer_than 2 content) < 10)%nat ->
  Num.within 0 0.7 (score (calculateCompleteness content prompt)).
Proof.
  intros Hshort. unfold calculateCompleteness. cbn [score].
  set (promptWords := words_longer_than 2 prompt).
  set (contentWords := words_longer_than 2 content) in *.
  set (overlap := List.length (overlap_of _ _)).
  assert (S0 : exists m,
             Math.min (Fin 1)
               ((if (0 <? List.length promptWords)%nat
                 then (Num.of_nat overlap
                       / Num.of_nat (List.length promptWords))%js
                 else Fin 0) * Fin 1.5)%js = Fin m /\ 0 <= m <= 1).
  { destruct (0 <? List.length promptWords)%nat eqn:E.
    - apply Nat.ltb_lt in E. apply capped_ratio; [assumption | | lra].
      apply overlap_le.
    - cbn [Num.mul].
      destruct (min_one_unit (0 * 1.5)) as (m & Em & Bm & _); [lra |].
      exists m. split; assumption. }
  destruct S0 as (m0 & E0 & B0). rewrite E0.
  assert (S1 : forall b : bool, exists m,
             (if b then Math.min (Fin 1) (Fin m0 + Fin 0.2)%js else Fin m0)
             = Fin m /\ 0 <= m <= 1).
  { intros [|].
    - cbn [Num.add].
      destruct (min_one_unit (m0 + 0.2)) as (m & Em & Bm & _); [lra |].
      exists m. split; assumption.
    - exists m0. split; [reflexivity | assumption]. }
  match goal with
  | |- context [if ?b && ?c then _ else _] =>
      destruct (S1 (b && c)) as (m1 & E1 & B1); rewrite E1
  end.
  apply Nat.ltb_lt in Hshort. rewrite Hshort. cbn [Num.mul].
  apply (within_round_100 _ 0 0.7 0 70); [reflexivity | reflexivity |].
  split; [apply Qmult_le_0_compat; lra | nra].
Qed.

Lemma completeness_of_short_response_sample :
  Num.within 0 0.7
    (score (calculateCompleteness "yes because machine learning is great"
                                  "explain machine learning")).
Proof.
  apply completeness_of_short_response.
  apply Nat.ltb_lt. vm_compute. reflexivity.
Defined.

Lemma has_of_list (l : list string) (w : string) :
  JsSet.has (JsSet.of_list l) w = true <-> In w l.
Proof. rewrite has_In. apply of_list_In. Qed.


Lemma overlap_all (promptWords contentWords : list string) :
  (forall w, In w promptWords -> In w contentWords) ->
  overlap_of (JsSet.of_list promptWords) (JsSet.of_list contentWords)
  = JsSet.of_list promptWords.
Proof.
  intros H. unfold overlap_of.
  assert (G : forall l, (forall x, In x l -> In x contentWords) ->
              filter (fun word =>
                        JsSet.has (JsSet.of_list contentWords) word) l = l).
  { induction l as [| y l IHl]; intros Hl; [reflexivity |].
    cbn [filter].
    replace (JsSet.has (JsSet.of_list contentWords) y) with true.
    - f_equal. apply IHl. intros x Hx. apply Hl. now right.
    - symmetry. apply has_of_list, Hl. now left. }
  apply G. intros x Hx. apply H. now apply of_list_In.
Qed.



(** X7.  When the meaningful words of the prompt are pairwise distinct
    and all occur among the meaningful words of the content, the
    relevance is 1. *)
Theorem relevance_of_covering_content (content prompt : string) :
  Obs.meaningfulWords prompt <> [] ->
  NoDup (Obs.meaningfulWords prompt) ->
  (forall w, In w (Obs.meaningfulWords prompt) ->
             In w (Obs.meaningfulWords content)) ->
  Num.strict_eq (score (calculateRelevance content prompt)) (Fin 1) = true.
Proof.
  unfold Obs.meaningfulWords. intros Hne Hnd Hall.
  unfold calculateRelevance.
  set (fp := filter _ (words_longer_than 2 prompt)) in *.
  set (fc := filter _ (words_longer_than 2 content)) in *.
  destruct (List.length fp =? 0)%nat eqn:E.
  { apply Nat.eqb_eq in E. destruct fp; [congruence | discriminate]. }
  apply Nat.eqb_neq in E. cbn [score].
  rewrite overlap_all by assumption. rewrite (of_list_NoDup fp Hnd).
  rewrite div_of_nat by lia.
  set (n := inject_Z (Z.of_nat (List.length fp))).
  assert (Pn : 0 < n) by (apply inject_nat_pos; lia).
  assert (R1 : n / n == 1) by (field; lra).
  cbn [Num.mul]. rewrite min_one_capped by (rewrite R1; discriminate).
  replace (Num.lt (Fin (n / n)) (Fin 0.1)) with false
    by (symmetry; apply lt_fin_false; rewrite R1; discriminate).
  reflexivity.
Qed.

Lemma relevance_of_covering_content_sample :
  Num.strict_eq
    (score (calculateRelevance "Volcanoes erupt when magma rises"
                               "volcanoes erupt"))
    (Fin 1) = true.
Proof.
  apply relevance_of_covering_content.
  - vm_compute. discriminate.
  - vm_compute. repeat constructor; cbn; intuition discriminate.
  - vm_compute. intros w [<- | [<- | []]]; auto.
Defined.

(** ** Letter case *)

Lemma lower_char_idempotent (c : ascii) :
  Str.lower_char (Str.lower_char c) = Str.lower_char c.
Proof.
  destruct c as [[|] [|] [|] [|] [|] [|] [|] [|]]; reflexivity.
Qed.

Lemma lower_char_white_space (c : ascii) :
  Str.isWhiteSpace (Str.lower_char c) = Str.isWhiteSpace c.
Proof.
  destruct c as [[|] [|] [|] [|] [|] [|] [|] [|]]; reflexivity.
Qed.

Lemma lower_char_sentence_end (c : ascii) :
  isSentenceEnd (Str.lower_char c) = isSentenceEnd c.
Proof.
  destruct c as [[|] [|] [|] [|] [|] [|] [|] [|]]; reflexivity.
Qed.

Lemma toLowerCase_idempotent (s : string) :
  Str.toLowerCase (Str.toLowerCase s) = Str.toLowerCase s.
Proof.
  induction s as [| c s IH]; cbn [Str.toLowerCase]; [reflexivity |].
  now rewrite lower_char_idempotent, IH.
Qed.

Lemma toLowerCase_length (s : string) :
  String.length (Str.toLowerCase s) = String.length s.
Proof.
  induction s as [| c s IH]; cbn [Str.toLowerCase String.length]; congruence.
Qed.

Lemma toLowerCase_of_list (l : list ascii) :
  Str.toLowerCase (string_of_list_ascii l)
  = string_of_list_ascii (map Str.lower_char l).
Proof.
  induction l as [| c l IH];
    cbn [string_of_list_ascii map Str.toLowerCase]; congruence.
Qed.

Lemma of_rev_lower (acc : list ascii) :
  Str.of_rev (map Str.lower_char acc) = Str.toLowerCase (Str.of_rev acc).
Proof.
  unfold Str.of_rev. now rewrite toLowerCase_of_list, map_rev.
Qed.

(** Splitting commutes with case folding when the separators are not
    letters. *)
Lemma split_go_lower (sep : ascii -> bool) :
  (forall c, sep (Str.lower_char c) = sep c) ->
  forall s in_run acc,
    Str.split_go sep in_run (map Str.lower_char acc) (Str.toLowerCase s)
    = map Str.toLowerCase (Str.split_go sep in_run acc s).
Proof.
  intros Hsep. induction s as [| c s IH]; intros in_run acc;
    cbn [Str.split_go Str.toLowerCase map].
  - now rewrite of_rev_lower.
  - rewrite Hsep. destruct (sep c).
    + destruct in_run.
      * apply IH.
      * cbn [map]. rewrite of_rev_lower. f_equal. apply (IH true []).
    + apply (IH false (c :: acc)).
Qed.

Lemma split_lower (sep : ascii -> bool) (s : string) :
  (forall c, sep (Str.lower_char c) = sep c) ->
  Str.split sep (Str.toLowerCase s)
  = map Str.toLowerCase (Str.split sep s).
Proof. intros H. apply (split_go_lower sep H s false []). Qed.

Lemma trimStart_lower (s : string) :
  Str.trimStart (Str.toLowerCase s) = Str.toLowerCase (Str.trimStart s).
Proof.
  induction s as [| c s IH]; cbn [Str.trimStart Str.toLowerCase];
    [reflexivity |].
  rewrite lower_char_white_space. now destruct (Str.isWhiteSpace c).
Qed.

Lemma trimEnd_lower (s : string) :
  Str.trimEnd (Str.toLowerCase s) = Str.toLowerCase (Str.trimEnd s).
Proof.
  induction s as [| c s IH]; cbn [Str.trimEnd Str.toLowerCase];
    [reflexivity |].
  rewrite IH, lower_char_white_space.
  destruct (Str.trimEnd s); cbn [Str.toLowerCase];
    [now destruct (Str.isWhiteSpace c) | reflexivity].
Qed.

Lemma trim_lower (s : string) :
  Str.trim (Str.toLowerCase s) = Str.toLowerCase (Str.trim s).
Proof. unfold Str.trim. now rewrite trimStart_lower, trimEnd_lower. Qed.

Lemma filter_map_commute {A B} (f : A -> B) (p : B -> bool) (q : A -> bool)
      (l : list A) :
  (forall a, p (f a) = q a) ->
  filter p (map f l) = map f (filter q l).
Proof.
  intros H. induction l as [| a l IH]; cbn [map filter]; [reflexivity |].
  rewrite H. destruct (q a); cbn [map]; congruence.
Qed.

Lemma calculateReadability_lower (content : string) :
  calculateReadability (Str.toLowerCase content)
  = calculateReadability content.
Proof.
  unfold calculateReadability.
  rewrite (split_lower _ content lower_char_sentence_end).
  rewrite (filter_map_commute Str.toLowerCase _
             (fun s => (0 <? String.length (Str.trim s))%nat))
    by (intros s; now rewrite trim_lower, toLowerCase_length).
  set (sentences := filter _ (Str.split isSentenceEnd content)).
  rewrite !length_map, map_map.
  assert (E : map (fun s =>
                     Num.of_nat
                       (List.length
                          (Str.split Str.isWhiteSpace
                             (Str.trim (Str.toLowerCase s))))) sentences
              = map (fun s =>
                       Num.of_nat
                         (List.length
                            (Str.split Str.isWhiteSpace (Str.trim s))))
                    sentences).
  { apply map_ext. intros s.
    now rewrite trim_lower, (split_lower _ _ lower_char_white_space),
      length_map. }
  rewrite E. reflexivity.
Qed.

Lemma calculateAllMetrics_lower (content prompt : string) :
  calculateAllMetrics (Str.toLowerCase content) (Str.toLowerCase prompt)
  = calculateAllMetrics content prompt.
Proof.
  unfold calculateAllMetrics. rewrite calculateReadability_lower.
  unfold calculateCoherence, calculateCompleteness, calculateRelevance,
    words_longer_than.
  now rewrite !toLowerCase_idempotent.
Qed.

(** X8.  The scoring engine ignores letter case: two contents that are
    equal after case folding, scored against two prompts that are equal
    after case folding, get the same metrics and the same details. *)
Theorem scoring_ignores_letter_case (content1 content2 prompt1 prompt2 : string) :
  Str.toLowerCase content1 = Str.toLowerCase content2 ->
  Str.toLowerCase prompt1 = Str.toLowerCase prompt2 ->
  calculateAllMetrics content1 prompt1 = calculateAllMetrics content2 prompt2.
Proof.
  intros Ec Ep.
  rewrite <- (calculateAllMetrics_lower content1 prompt1).
  rewrite <- (calculateAllMetrics_lower content2 prompt2).
  now rewrite Ec, Ep.
Qed.

Lemma scoring_ignores_letter_case_sample :
  calculateAllMetrics "Rain is WATER. It falls!" "Explain Rain"
  = calculateAllMetrics "rain is water. IT FALLS!" "explain RAIN".
Proof.
  apply scoring_ignores_letter_case; reflexivity.
Defined.

(** ** The overall score *)

Lemma round2_monotone (x y : Q) : x <= y -> Spec.round2 x <= Spec.round2 y.
Proof.
  intros H. unfold Spec.round2.
  assert (F : (Qfloor (x * 100 + (1 # 2)) <= Qfloor (y * 100 + (1 # 2)))%Z)
    by (apply Qfloor_resp_le; lra).
  rewrite Zle_Qle in F. revert F.
  generalize (inject_Z (Qfloor (x * 100 + (1 # 2)))),
    (inject_Z (Qfloor (y * 100 + (1 # 2)))).
  intros; lraQ.
Qed.

Lemma within_fin (lo hi : Q) (a : number) :
  Num.within lo hi a -> exists q, a = Fin q /\ lo <= q <= hi.
Proof.
  destruct a as [q | | |]; cbn; try contradiction.
  intros H. now exists q.
Qed.

(** X9.  The overall score is monotone: when none of the four finite
    sub-scores goes down, the overall score does not go down. *)
Theorem overall_score_monotone
        (m m' : QualityMetrics) (c k r l c' k' r' l' : Q) :
  Obs.finite_scores m c k r l ->
  Obs.finite_scores m' c' k' r' l' ->
  c <= c' -> k <= k' -> r <= r' -> l <= l' ->
  Num.lt (calculateOverallScore m') (calculateOverallScore m) = false.
Proof.
  intros (Ec & Ek & Er & El) (Ec' & Ek' & Er' & El') Hc Hk Hr Hl.
  rewrite (calculateOverallScore_fin m c k r l Ec Ek Er El).
  rewrite (calculateOverallScore_fin m' c' k' r' l' Ec' Ek' Er' El').
  apply lt_fin_false. unfold Spec.overall. apply round2_monotone. lra.
Qed.

Lemma overall_score_monotone_sample :
  Num.lt (calculateOverallScore SampleMetrics.half)
         (calculateOverallScore SampleMetrics.first) = false.
Proof.
  apply (overall_score_monotone SampleMetrics.first SampleMetrics.half
           0.02 0 0 0 0.5 0.5 0.5 0.5);
    first [repeat split; reflexivity | discriminate].
Defined.

Lemma calculateAllMetrics_overall (content prompt : string) :
  overallScore (metrics (calculateAllMetrics content prompt))
  = calculateOverallScore
      {| coherence := score (calculateCoherence content);
         completeness := score (calculateCompleteness content prompt);
         readability := score (calculateReadability content);
         relevance := score (calculateRelevance content prompt);
         overallScore := Fin 0 |}.
Proof. reflexivity. Qed.

(** X10.  The overall score of a scored content is a finite number and
    never exceeds 1; it lies in the unit interval when no sentence of the
    content has more than 35 words. *)
Theorem overall_of_scored_content (content prompt : string) :
  exists o,
    overallScore (metrics (calculateAllMetrics content prompt)) = Fin o
    /\ o <= 1
    /\ (Forall (fun n => (n <= 35)%nat) (Spec.sentenceLengths content) ->
        0 <= o).
Proof.
  rewrite calculateAllMetrics_overall.
  destruct (within_fin _ _ _ (calculateCoherence_unit content))
    as (c & Ec & Bc).
  destruct (within_fin _ _ _ (calculateCompleteness_unit content prompt))
    as (k & Ek & Bk).
  destruct (within_fin _ _ _ (calculateRelevance_unit content prompt))
    as (l & El & Bl).
  assert (R : exists r,
             score (calculateReadability content) = Fin r /\ r <= 1
             /\ (Forall (fun n => (n <= 35)%nat)
                        (Spec.sentenceLengths content) -> 0 <= r)).
  { destruct (Spec.sentenceLengths content) as [| n ns] eqn:E.
    - exists 0. split; [now apply no_sentence_score |]. split; lra.
    - eexists. split; [| split].
      + apply calculateReadability_formula. rewrite E. discriminate.
      + apply readabilityOf_le_1. rewrite E. discriminate.
      + intros H. rewrite E. apply readabilityOf_nonneg; [discriminate |].
        now apply list_sum_le_bound. }
  destruct R as (r & Er & Br1 & Br0).
  exists (Spec.overall c k r l). split; [| split].
  - now apply calculateOverallScore_fin.
  - unfold Spec.overall.
    apply Qle_trans with (Spec.round2 1);
      [apply round2_monotone; lra | discriminate].
  - intros H. specialize (Br0 H). unfold Spec.overall.
    apply Qle_trans with (Spec.round2 0);
      [discriminate | apply round2_monotone; lra].
Qed.

Lemma overall_of_scored_content_sample :
  exists o,
    overallScore
      (metrics (calculateAllMetrics
                  "Rain is water. It falls because clouds get heavy!"
                  "Explain rain")) = Fin o
    /\ 0 <= o <= 1.
Proof.
  destruct (overall_of_scored_content
              "Rain is water. It falls because clouds get heavy!"
              "Explain rain") as (o & E & H1 & H0).
  exists o. split; [exact E |]. split; [| exact H1].
  apply H0. vm_compute. repeat constructor.
Defined.

(** ** The provider adapter, event by event *)

Lemma generateMockResponse_world prompt parameters startTime w :
  exists r,
    LLM.generateMockResponse prompt parameters startTime w
    = (Returns r, Obs.afterMock w)
    /\ content r <> ""
    /\ is_mock_text prompt parameters (content r)
    /\ tokensUsed r
       = (Math.floor (Num.of_nat (String.length (content r)) / Fin 4)
          + Math.floor (Fin (random_value (next_random w)) * Fin 50))%js.
Proof.
  destruct (generateRealisticMockResponse_returns prompt parameters w)
    as (s & E & Hs).
  unfold LLM.generateMockResponse, bind. rewrite E.
  cbn [LLM.defined ret Math_random Date_now].
  eexists. split; [reflexivity |]. cbn [content tokensUsed].
  split; [assumption |]. split; [| reflexivity].
  exists w. now rewrite E.
Qed.

Lemma mock_and_return_world prompt parameters startTime w :
  exists r,
    LLM.mock_and_return prompt parameters startTime w
    = (Returns (LLM.Return r), Obs.afterMock w)
    /\ content r <> ""
    /\ is_mock_text prompt parameters (content r).
Proof.
  destruct (generateMockResponse_world prompt parameters startTime w)
    as (r & E & Hc & Hm & _).
  exists r. unfold LLM.mock_and_return, bind. rewrite E.
  repeat split; assumption.
Qed.









Lemma Qfloor_quarter (n : nat) :
  Qfloor (inject_Z (Z.of_nat n) / 4) = (Z.of_nat n / 4)%Z.
Proof.
  unfold Qdiv, Qmult, Qinv, inject_Z, Qfloor. cbn [Qnum Qden].
  now rewrite Z.mul_1_r.
Qed.

(** X12.  In mock mode [generateResponse] has no outward effect: it calls
    no provider and waits for nothing; it draws four random numbers and
    reads the clock twice.  The text it returns is a mock text for the
    prompt, and the token estimate lies between a quarter of the length
    of the text and 49 more. *)
Theorem generateResponse_in_mock_mode
        (svc : LLMService) (prompt : string)
        (parameters : GenerationParameters) (w : World) :
  isMockMode svc = true ->
  exists r w' t,
    LLM.generateResponse svc prompt parameters w = (Returns r, w')
    /\ trace w' = trace w
    /\ provider_calls w' = provider_calls w
    /\ random_pos w' = (4 + random_pos w)%nat
    /\ clock_pos w' = (2 + clock_pos w)%nat
    /\ is_mock_text prompt parameters (content r)
    /\ tokensUsed r = Fin t
    /\ inject_Z (Z.of_nat (String.length (content r)) / 4) <= t
       <= inject_Z (Z.of_nat (String.length (content r)) / 4 + 49).
Proof.
  intros Mock. unfold LLM.generateResponse, bind, Date_now, Math_random.
  rewrite Mock.
  set (startTime := Num.of_Z _). set (w1 := next_random (next_clock w)).
  destruct (generateMockResponse_world prompt parameters startTime w1)
    as (r & E & _ & Hm & Ht).
  exists r, (Obs.afterMock w1).
  set (len := String.length (content r)) in *.
  set (u := random_value (next_random w1)) in *.
  exists (inject_Z (Qfloor (inject_Z (Z.of_nat len) / 4))
          + inject_Z (Qfloor (u * 50))).
  split; [exact E |]. repeat split; [exact Hm | exact Ht | |].
  - rewrite Qfloor_quarter.
    assert (F : (0 <= Qfloor (u * 50))%Z).
    { change 0%Z with (Qfloor 0). apply Qfloor_resp_le.
      pose proof (random_value_unit (next_random w1)). fold u in H. lra. }
    rewrite Zle_Qle in F. change (inject_Z 0) with 0 in F. lra.
  - rewrite Qfloor_quarter, inject_Z_plus.
    assert (F : (Qfloor (u * 50) < 50)%Z).
    { rewrite Zlt_Qlt. apply Qle_lt_trans with (u * 50); [apply Qfloor_le |].
      pose proof (random_value_unit (next_random w1)). fold u in H.
      change (inject_Z 50) with 50. lra. }
    assert (F' : (Qfloor (u * 50) <= 49)%Z) by lia.
    rewrite Zle_Qle in F'. lra.
Qed.

Lemma generateResponse_in_mock_mode_sample :
  let svc := LLM.constructor Obs.noCredentials in
  let w := Sample.world Obs.answering in
  exists r w',
    LLM.generateResponse svc "Explain rain" Sample.params w = (Returns r, w')
    /\ trace w' = trace w
    /\ provider_calls w' = provider_calls w
    /\ is_mock_text "Explain rain" Sample.params (content r).
Proof.
  intros svc w.
  destruct (generateResponse_in_mock_mode svc "Explain rain" Sample.params w)
    as (r & w' & t & E & T & P & _ & _ & M & _).
  - reflexivity.
  - exists r, w'. repeat split; assumption.
Defined.

Lemma trim_of_empty_is_empty (text : string) :
  String.length (Str.trim text) <> O -> Str.is_empty text = false.
Proof. destruct text; [intros H; now contradiction H | reflexivity]. Qed.

(** X13.  When the provider answers the first call with a text that is
    not blank, [generateResponse] returns that very text, with the token
    estimate a quarter of its length plus a quarter of the length of the
    prompt and the time between two readings of the clock; it makes this
    one call and nothing else. *)
Theorem generateResponse_first_answer
        (svc : LLMService) (client : unit) (prompt text : string)
        (parameters : GenerationParameters) (w : World) :
  isMockMode svc = false ->
  genAI svc = Some client ->
  provider w (provider_calls w)
           (Obs.requestFor prompt parameters (LLM.model_or_default parameters))
  = ProviderText text ->
  String.length (Str.trim text) <> O ->
  exists w',
    LLM.generateResponse svc prompt parameters w
    = (Returns
         {| content := text;
            tokensUsed :=
              (Math.floor (Num.of_nat (String.length text) / Fin 4)
               + Math.floor (Num.of_nat (String.length prompt) / Fin 4))%js;
            generationTime :=
              (Num.of_Z (clock w (S (clock_pos w))) - Obs.startTimeOf w)%js |},
       w')
    /\ trace w'
       = (trace w
            ++ [EvProviderCall
                  (Obs.requestFor prompt parameters
                                  (LLM.model_or_default parameters))])%list.
Proof.
  intros Live G Answer NotBlank.
  unfold LLM.generateResponse, bind at 1, bind at 1, Date_now, Math_random.
  rewrite Live. cbn [LLM.modelsToTry List.length LLM.tryModels].
  unfold bind at 1. unfold LLM.attemptModel, try_catch.
  unfold bind at 1. unfold LLM.getGenerativeModel. rewrite G. cbn [ret].
  unfold bind at 1. unfold call_provider.
  change (provider (next_random (next_clock w))) with (provider w).
  change (provider_calls (next_random (next_clock w)))
    with (provider_calls w).
  unfold Obs.requestFor in Answer. rewrite Answer.
  rewrite (trim_of_empty_is_empty text NotBlank). cbn [orb].
  replace (String.length (Str.trim text) =? 0)%nat with false
    by (symmetry; now apply Nat.eqb_neq).
  unfold bind, Date_now, ret.
  eexists. split; reflexivity.
Qed.

Lemma generateResponse_first_answer_sample :
  let w := Sample.world Obs.answering in
  exists r w',
    LLM.generateResponse Sample.live "Explain rain" Sample.params w
    = (Returns r, w')
    /\ content r = "Rain is water. It falls because clouds get heavy!"
    /\ List.length (trace w') = 1%nat.
Proof.
  intros w.
  destruct (generateResponse_first_answer
              Sample.live tt "Explain rain"
              "Rain is water. It falls because clouds get heavy!"
              Sample.params w) as (w' & E & T);
    try reflexivity.
  - vm_compute. discriminate.
  - eexists; exists w'. split; [exact E |]. split; [reflexivity |].
    rewrite T. reflexivity.
Defined.

(** One turn of the loop whose call fails with a transient status. *)
Lemma attemptModel_transient svc client prompt parameters startTime total
      attempt modelName w e :
  genAI svc = Some client ->
  provider w (provider_calls w)
           (Obs.requestFor prompt parameters modelName) = ProviderFails e ->
  LLM.isRetryable e = true ->
  (attempt <= total - 1)%nat ->
  LLM.attemptModel svc prompt parameters startTime total attempt modelName w
  = (if (attempt <? total - 1)%nat
     then sleep (Obs.backoff attempt) ;;; ret LLM.Continue
     else LLM.mock_and_return prompt parameters startTime)
      (record_event
         (EvProviderCall (Obs.requestFor prompt parameters modelName)) w).
Proof.
  intros G Answer Retry Le.
  unfold LLM.attemptModel, try_catch, bind at 1, LLM.getGenerativeModel.
  rewrite G. cbn [ret]. unfold bind at 1, call_provider.
  unfold Obs.requestFor in *. rewrite Answer, Retry. cbn [andb].
  destruct (attempt <? total - 1)%nat eqn:Lt; [reflexivity |].
  apply Nat.ltb_ge in Lt.
  replace (attempt =? total - 1)%nat with true; [reflexivity |].
  symmetry. apply Nat.eqb_eq. lia.
Qed.

Lemma tryModels_all_transient svc client prompt parameters startTime total
      (answers : nat -> ProviderRequest -> ProviderOutcome) :
  genAI svc = Some client ->
  (forall n request, exists e,
      answers n request = ProviderFails e /\ LLM.isRetryable e = true) ->
  forall models attempt w,
    provider w = answers ->
    total = (attempt + List.length models)%nat ->
    exists r w',
      LLM.tryModels svc prompt parameters startTime total attempt models w
      = (Returns r, w')
      /\ trace w'
         = (trace w ++ Obs.schedule prompt parameters attempt models)%list
      /\ is_mock_text prompt parameters (content r).
Proof.
  intros G Fail. induction models as [| modelName rest IH];
    intros attempt w Hp Htotal.
  - cbn [LLM.tryModels Obs.schedule].
    destruct (generateMockResponse_world prompt parameters startTime w)
      as (r & E & _ & Hm & _).
    exists r, (Obs.afterMock w). rewrite app_nil_r.
    repeat split; assumption.
  - destruct (Fail (provider_calls w)
                   (Obs.requestFor prompt parameters modelName))
      as (e & Answer & Retry).
    rewrite <- Hp in Answer.
    cbn [LLM.tryModels]. unfold bind at 1.
    rewrite (attemptModel_transient svc client prompt parameters startTime
               total attempt modelName w e G Answer Retry)
      by (cbn [List.length] in Htotal; lia).
    set (w1 := record_event _ w).
    destruct rest as [| next rest].
    + replace (attempt <? total - 1)%nat with false
        by (symmetry; apply Nat.ltb_ge; cbn [List.length] in Htotal; lia).
      destruct (mock_and_return_world prompt parameters startTime w1)
        as (r & E & _ & Hm).
      rewrite E. exists r, (Obs.afterMock w1).
      repeat split; assumption.
    + replace (attempt <? total - 1)%nat with true
        by (symmetry; apply Nat.ltb_lt; cbn [List.length] in Htotal; lia).
      unfold bind at 1. cbn [sleep log ret].
      set (w2 := record_event (EvSleep (Obs.backoff attempt)) w1).
      destruct (IH (S attempt) w2) as (r & w' & E & T & Hm).
      * exact Hp.
      * cbn [List.length] in *. lia.
      * exists r, w'. split; [exact E |]. split; [| exact Hm].
        rewrite T. cbn [Obs.schedule]. unfold w2, w1.
        cbn [trace record_event]. now rewrite <- !app_assoc.
Qed.

(** X14.  When every call to the provider fails with a transient status
    (429, 500, 502 or 503), [generateResponse] asks the four models of
    its list in order, waits 1000, 2000 and 4000 ms between them, does
    not wait after the last, and returns a mock text. *)
Theorem generateResponse_backoff_schedule
        (svc : LLMService) (client : unit) (prompt : string)
        (parameters : GenerationParameters) (w : World) :
  isMockMode svc = false ->
  genAI svc = Some client ->
  (forall n request, exists e,
      provider w n request = ProviderFails e /\ LLM.isRetryable e = true) ->
  exists r w' evs,
    LLM.generateResponse svc prompt parameters w = (Returns r, w')
    /\ trace w' = (trace w ++ evs)%list
    /\ map req_model (Obs.requests evs) = LLM.modelsToTry parameters
    /\ Obs.sleeps evs = [Fin 1000; Fin 2000; Fin 4000]
    /\ (exists last, nth_error evs 6 = Some (EvProviderCall last)
                     /\ List.length evs = 7%nat)
    /\ is_mock_text prompt parameters (content r).
Proof.
  intros Live G Fail.
  unfold LLM.generateResponse, bind at 1, bind at 1, Date_now, Math_random.
  rewrite Live.
  destruct (tryModels_all_transient svc client prompt parameters
              (Num.of_Z (clock w (clock_pos w)))
              (List.length (LLM.modelsToTry parameters))
              (provider w) G Fail (LLM.modelsToTry parameters) 0%nat
              (next_random (next_clock w)) eq_refl eq_refl)
    as (r & w' & E & T & Hm).
  exists r, w', (Obs.schedule prompt parameters 0 (LLM.modelsToTry parameters)).
  split; [exact E |]. split; [exact T |].
  split; [reflexivity |]. split; [reflexivity |].
  split; [| exact Hm]. eexists. split; reflexivity.
Qed.

Lemma generateResponse_backoff_schedule_sample :
  let w := Sample.world Obs.overloaded in
  exists r w',
    LLM.generateResponse Sample.live "Explain rain" Sample.params w
    = (Returns r, w')
    /\ Obs.sleeps (trace w') = [Fin 1000; Fin 2000; Fin 4000]
    /\ is_mock_text "Explain rain" Sample.params (content r).
Proof.
  intros w.
  destruct (generateResponse_backoff_schedule
              Sample.live tt "Explain rain" Sample.params w)
    as (r & w' & evs & E & T & _ & S & _ & M); try reflexivity.
  - intros n request. eexists. split; reflexivity.
  - exists r, w'. split; [exact E |]. split; [| exact M].
    rewrite T. exact S.
Defined.

(** ** The batch of responses *)

Lemma generateResponse_returns_text svc prompt parameters w :
  exists r w',
    LLM.generateResponse svc prompt parameters w = (Returns r, w')
    /\ content r <> "".
Proof.
  unfold LLM.generateResponse, bind, Date_now, Math_random.
  set (startTime := Num.of_Z _). set (w1 := next_random (next_clock w)).
  destruct (isMockMode svc).
  - destruct (generateMockResponse_returns prompt parameters startTime w1)
      as (r & w' & E & _ & Hc & _).
    now exists r, w'.
  - destruct (tryModels_returns svc prompt parameters startTime
                (List.length (LLM.modelsToTry parameters))
                (LLM.modelsToTry parameters) 0%nat w1)
      as (r & w' & E & _ & Hc & _).
    now exists r, w'.
Qed.

Lemma batchLoop_results svc prompt total combinations :
  forall i results w,
  exists added w',
    LLM.batchLoop svc prompt total i combinations results w
    = (Returns (results ++ added)%list, w')
    /\ map parameters added = combinations
    /\ Forall (fun b => content (result b) <> "") added.
Proof.
  induction combinations as [| params rest IH]; intros i results w.
  - cbn [LLM.batchLoop ret]. exists [], w. rewrite app_nil_r.
    repeat split. constructor.
  - cbn [LLM.batchLoop]. unfold bind at 1. unfold try_catch.
    unfold bind at 1.
    destruct (generateResponse_returns_text svc prompt params w)
      as (r & w1 & E & Hc).
    rewrite E.
    set (pushed := (results ++ [{| result := r; parameters := params |}])%list).
    assert (Step : exists w2,
               (let (o, w') :=
                  (if (i <? total - 1)%nat then sleep (Fin 1000) else ret tt)
                    w1 in
                match o with
                | Returns _ => ret pushed w'
                | Throws e => (Throws e, w')
                | Diverges => (Diverges, w')
                end) = (Returns pushed, w2)).
    { destruct (i <? total - 1)%nat; eexists; reflexivity. }
    destruct Step as (w2 & Step). unfold bind. unfold bind in Step.
    rewrite Step.
    destruct (IH (S i) pushed w2) as (added & w' & E' & Hp & Hf).
    exists ({| result := r; parameters := params |} :: added), w'.
    split; [| split].
    + rewrite E'. unfold pushed. now rewrite <- app_assoc.
    + cbn [map parameters]. now rewrite Hp.
    + constructor; assumption.
Qed.

(** X15.  [generateMultipleResponses] returns exactly one result for
    every parameter combination, in the order of the combinations, each
    with a text that is not empty; it never throws and never drops a
    combination, whatever the provider does. *)
Theorem generateMultipleResponses_one_result_each
        (svc : LLMService) (prompt : string)
        (combinations : list GenerationParameters) (w : World) :
  exists results w',
    LLM.generateMultipleResponses svc prompt combinations w
    = (Returns results, w')
    /\ map parameters results = combinations
    /\ Forall (fun b => content (result b) <> "") results.
Proof.
  unfold LLM.generateMultipleResponses, bind, Math_random.
  destruct (batchLoop_results svc prompt (List.length combinations)
              combinations 0%nat [] (next_random w))
    as (added & w' & E & Hp & Hf).
  exists added, w'. now rewrite E.
Qed.

Lemma generateResponse_mock_world svc prompt parameters w :
  isMockMode svc = true ->
  exists r,
    LLM.generateResponse svc prompt parameters w
    = (Returns r, Obs.afterMock (Obs.atFirstAttempt w)).
Proof.
  intros Mock. unfold LLM.generateResponse, bind, Date_now, Math_random.
  rewrite Mock.
  destruct (generateMockResponse_world prompt parameters
              (Num.of_Z (clock w (clock_pos w)))
              (next_random (next_clock w))) as (r & E & _).
  now exists r.
Qed.

Lemma batchLoop_pacing svc prompt total combinations :
  isMockMode svc = true ->
  forall i results w,
    total = (i + List.length combinations)%nat ->
    exists results' w',
      LLM.batchLoop svc prompt total i combinations results w
      = (Returns results', w')
      /\ trace w'
         = (trace w
              ++ repeat (EvSleep (Fin 1000))
                        (List.length combinations - 1))%list.
Proof.
  intros Mock. induction combinations as [| params rest IH];
    intros i results w Htotal.
  - cbn [LLM.batchLoop ret]. exists results, w. cbn. now rewrite app_nil_r.
  - cbn [LLM.batchLoop]. unfold bind at 1. unfold try_catch.
    unfold bind at 1.
    destruct (generateResponse_mock_world svc prompt params w Mock)
      as (r & E).
    rewrite E. set (w1 := Obs.afterMock (Obs.atFirstAttempt w)).
    assert (T1 : trace w1 = trace w) by reflexivity.
    cbn [List.length] in Htotal.
    destruct rest as [| next rest].
    + replace (i <? total - 1)%nat with false
        by (symmetry; apply Nat.ltb_ge; cbn [List.length] in Htotal; lia).
      cbn [bind ret LLM.batchLoop]. unfold bind. cbn [ret LLM.batchLoop].
      eexists; exists w1. split; [reflexivity |].
      cbn. now rewrite app_nil_r.
    + replace (i <? total - 1)%nat with true
        by (symmetry; apply Nat.ltb_lt; cbn [List.length] in Htotal; lia).
      unfold bind. cbn [sleep log ret].
      set (w2 := record_event (EvSleep (Fin 1000)) w1).
      destruct (IH (S i) (results ++ [{| result := r; parameters := params |}])%list
                   w2) as (results' & w' & E' & T').
      * cbn [List.length] in *. lia.
      * exists results', w'. split; [exact E' |].
        rewrite T'. unfold w2. cbn [trace record_event]. rewrite T1.
        cbn [List.length Nat.sub repeat]. rewrite Nat.sub_0_r.
        now rewrite <- app_assoc.
Qed.

(** X16.  In mock mode the only events of [generateMultipleResponses]
    are the waits of 1000 ms between two requests: one less than there
    are combinations, none after the last request. *)
Theorem generateMultipleResponses_pacing
        (svc : LLMService) (prompt : string)
        (combinations : list GenerationParameters) (w : World) :
  isMockMode svc = true ->
  exists results w',
    LLM.generateMultipleResponses svc prompt combinations w
    = (Returns results, w')
    /\ trace w'
       = (trace w
            ++ repeat (EvSleep (Fin 1000))
                      (List.length combinations - 1))%list.
Proof.
  intros Mock. unfold LLM.generateMultipleResponses, bind, Math_random.
  destruct (batchLoop_pacing svc prompt (List.length combinations)
              combinations Mock 0%nat [] (next_random w) eq_refl)
    as (results & w' & E & T).
  exists results, w'. rewrite E. split; [reflexivity | exact T].
Qed.

Lemma generateMultipleResponses_pacing_sample :
  let svc := LLM.constructor Obs.noCredentials in
  let w := Sample.world Obs.answering in
  exists results w',
    LLM.generateMultipleResponses svc "Explain rain"
      [Sample.params; Sample.params; Sample.params] w
    = (Returns results, w')
    /\ trace w' = [EvSleep (Fin 1000); EvSleep (Fin 1000)].
Proof.
  intros svc w.
  destruct (generateMultipleResponses_pacing svc "Explain rain"
              [Sample.params; Sample.params; Sample.params] w)
    as (results & w' & E & T).
  - reflexivity.
  - exists results, w'. split; [exact E | exact T].
Defined.

(** ** The mock generator and the prompt *)

(** X17.  The mock generator looks at the prompt only to find its
    category, and at the parameters only to read the temperature: two
    prompts of the same category, with parameters of the same
    temperature, get the same text in the same world. *)
Theorem mock_text_depends_on_category_and_temperature
        (prompt1 prompt2 : string) (parameters1 parameters2 : GenerationParameters) :
  Spec.classify prompt1 = Spec.classify prompt2 ->
  temperature parameters1 = temperature parameters2 ->
  LLM.generateRealisticMockResponse prompt1 parameters1
  = LLM.generateRealisticMockResponse prompt2 parameters2.
Proof.
  intros Hc Ht. rewrite !generateRealisticMockResponse_classify, Hc.
  destruct (Spec.classify prompt2); cbn [Spec.generator];
    unfold LLM.generateCreativeWritingResponse,
      LLM.generateExplanationResponse, LLM.generateQAResponse,
      LLM.generateCodeResponse, LLM.generateGeneralResponse;
    rewrite Ht; reflexivity.
Qed.

Lemma mock_text_depends_on_category_and_temperature_sample :
  LLM.generateRealisticMockResponse "Tell me a story about rain"
    Sample.params
  = LLM.generateRealisticMockResponse "Please WRITE something"
      {| temperature := Fin 0.5; top_p := Fin 0.1; max_tokens := Fin 7;
         model := Some "gemini-pro" |}.
Proof.
  apply mock_text_depends_on_category_and_temperature; reflexivity.
Defined.

Lemma prefix_app (s rest : string) : prefix s (s ++ rest) = true.
Proof.
  induction s as [| c s IH]; cbn [append prefix].
  - now destruct rest.
  - destruct (ascii_dec c c); [exact IH | congruence].
Qed.

Lemma includes_prefix (s pat : string) :
  prefix pat s = true -> Str.includes s pat = true.
Proof. intros H. destruct s; cbn [Str.includes]; now rewrite H. Qed.

Lemma includes_app_r (before s pat : string) :
  Str.includes s pat = true -> Str.includes (before ++ s) pat = true.
Proof.
  intros H. induction before as [| c before IH]; cbn [append]; [exact H |].
  cbn [Str.includes]. rewrite IH. apply orb_true_r.
Qed.

(** X18.  The enhanced prompt sent to the provider contains the original
    prompt, character for character. *)
Theorem enhancePrompt_keeps_prompt (prompt : string) :
  Str.includes (LLM.enhancePrompt prompt) prompt = true.
Proof.
  unfold LLM.enhancePrompt.
  repeat match goal with
         | |- Str.includes (?a ++ (prompt ++ ?b)) prompt = true =>
             apply includes_app_r, includes_prefix, prefix_app
         | |- Str.includes (?a ++ ?b) prompt = true =>
             apply includes_app_r
         end.
Qed.

(** ** The sampler, for every count and range *)

Lemma sampleLoop_shape (range : ParameterRange) :
  forall (n : nat) (acc : list GenerationParameters) (w : World),
  exists added,
    Generation.sampleLoop range n acc w
    = (Returns (acc ++ added)%list, Spec.skip (3 * n) w)
    /\ List.length added = n
    /\ Forall (fun p => model p = Some "gemini-2.5-flash") added.
Proof.
  induction n as [| n IH]; intros acc w.
  - exists []. cbn. rewrite app_nil_r. repeat split. constructor.
  - cbn [Generation.sampleLoop].
    unfold Generation.randomInRange, bind, Math_random, ret.
    match goal with
    | |- context [Generation.sampleLoop range n (acc ++ [?p])%list ?w3] =>
        destruct (IH (acc ++ [p])%list w3) as (added & E & L & F);
        exists (p :: added)
    end.
    change (next_random (next_random (next_random w))) with (Spec.skip 3 w)
      in E |- *.
    rewrite skip_skip in E.
    replace (3 * n + 3)%nat with (3 * S n)%nat in E by lia.
    split; [| split].
    + unfold bind, ret in E. rewrite E. now rewrite <- app_assoc.
    + cbn [List.length]. now rewrite L.
    + constructor; [reflexivity | exact F].
Qed.

(** X19.  For every finite count, whole or not, the sampler returns as
    many tuples as the count rounded up, and none for a count of zero or
    below; it draws three random numbers for each tuple, and every tuple
    names the model gemini-2.5-flash. *)
Theorem generateParameterCombinations_count
        (range : ParameterRange) (q : Q) (w : World) :
  exists combinations,
    Generation.generateParameterCombinations range (Fin q) w
    = (Returns combinations,
       Spec.skip (3 * List.length combinations) w)
    /\ Z.of_nat (List.length combinations) = Z.max 0 (Qceiling q)
    /\ Forall (fun p => model p = Some "gemini-2.5-flash") combinations.
Proof.
  unfold Generation.generateParameterCombinations. cbn [loop_bound].
  destruct (sampleLoop_shape range (Z.to_nat (Qceiling q)) [] w)
    as (added & E & L & F).
  exists added. cbn [app] in E. rewrite E, L.
  repeat split; [lia | exact F].
Qed.






(** ** The provider adapter leaves the persistence layer alone *)

Lemma keeps_ret {A} (a : A) : Obs.keeps_db (ret a).
Proof. intros w. split; reflexivity. Qed.

Lemma keeps_bind {A B} (m : Js A) (k : A -> Js B) :
  Obs.keeps_db m -> (forall a, Obs.keeps_db (k a)) -> Obs.keeps_db (bind m k).
Proof.
  intros Hm Hk w. unfold bind. specialize (Hm w).
  destruct (m w) as [[a | e |] w1]; cbn [snd] in *; try exact Hm.
  destruct (Hk a w1) as [F O]. destruct Hm as [F1 O1].
  split; congruence.
Qed.

Lemma keeps_try_catch {A} (m : Js A) (h : JsError -> Js A) :
  Obs.keeps_db m -> (forall e, Obs.keeps_db (h e)) ->
  Obs.keeps_db (try_catch m h).
Proof.
  intros Hm Hh w. unfold try_catch. specialize (Hm w).
  destruct (m w) as [[a | e |] w1]; cbn [snd] in *; try exact Hm.
  destruct (Hh e w1) as [F O]. destruct Hm as [F1 O1].
  split; congruence.
Qed.

Lemma keeps_Math_random : Obs.keeps_db Math_random.
Proof. intros w. split; reflexivity. Qed.

Lemma keeps_Date_now : Obs.keeps_db Date_now.
Proof. intros w. split; reflexivity. Qed.

Lemma keeps_sleep (ms : number) : Obs.keeps_db (sleep ms).
Proof. intros w. split; reflexivity. Qed.

Lemma keeps_call_provider (request : ProviderRequest) :
  Obs.keeps_db (call_provider request).
Proof.
  intros w. unfold call_provider.
  destruct (provider w (provider_calls w) request); split; reflexivity.
Qed.

Lemma keeps_getGenerativeModel (svc : LLMService) :
  Obs.keeps_db (LLM.getGenerativeModel svc).
Proof.
  intros w. unfold LLM.getGenerativeModel.
  destruct (genAI svc); split; reflexivity.
Qed.

Lemma keeps_generateMockResponse prompt parameters startTime :
  Obs.keeps_db (LLM.generateMockResponse prompt parameters startTime).
Proof.
  intros w.
  destruct (generateMockResponse_world prompt parameters startTime w)
    as (r & E & _).
  rewrite E. split; reflexivity.
Qed.

Create HintDb frame.

#[local] Hint Resolve keeps_ret keeps_Math_random keeps_Date_now keeps_sleep
  keeps_call_provider keeps_getGenerativeModel keeps_generateMockResponse
  : frame.

Ltac frame :=
  repeat first
    [ progress intros
    | solve [auto with frame]
    | apply keeps_bind
    | apply keeps_try_catch
    | match goal with
      | |- Obs.keeps_db (if ?b then _ else _) => destruct b
      | |- Obs.keeps_db (match ?x with _ => _ end) => destruct x
      end ].

Lemma keeps_attemptModel svc prompt parameters startTime total attempt
      modelName :
  Obs.keeps_db (LLM.attemptModel svc prompt parameters startTime total
                                 attempt modelName).
Proof. unfold LLM.attemptModel, LLM.mock_and_return. frame. Qed.

Lemma keeps_tryModels svc prompt parameters startTime total models :
  forall attempt,
    Obs.keeps_db (LLM.tryModels svc prompt parameters startTime total
                                attempt models).
Proof.
  induction models as [| modelName rest IH]; intros attempt;
    cbn [LLM.tryModels].
  - auto with frame.
  - apply keeps_bind; [apply keeps_attemptModel |].
    intros [r |]; [apply keeps_ret | apply IH].
Qed.

Lemma keeps_generateResponse svc prompt parameters :
  Obs.keeps_db (LLM.generateResponse svc prompt parameters).
Proof.
  unfold LLM.generateResponse.
  pose proof (keeps_tryModels svc prompt parameters). frame.
Qed.

Lemma keeps_batchLoop svc prompt total combinations :
  forall i results,
    Obs.keeps_db (LLM.batchLoop svc prompt total i combinations results).
Proof.
  induction combinations as [| params rest IH]; intros i results;
    cbn [LLM.batchLoop].
  - apply keeps_ret.
  - pose proof (keeps_generateResponse svc prompt params). frame.
Qed.

Lemma keeps_generateMultipleResponses svc prompt combinations :
  Obs.keeps_db (LLM.generateMultipleResponses svc prompt combinations).
Proof.
  unfold LLM.generateMultipleResponses.
  pose proof (keeps_batchLoop svc prompt (List.length combinations)
                              combinations).
  frame.
Qed.

(** ** The generation route, end to end *)

Lemma skip_db (k : nat) (w : World) :
  db_fails (Spec.skip k w) = db_fails w
  /\ db_ops (Spec.skip k w) = db_ops w
  /\ trace (Spec.skip k w) = trace w.
Proof.
  unfold Spec.skip. induction k as [| k IH]; cbn [Nat.iter].
  - repeat split.
  - exact IH.
Qed.

Lemma db_outcome (op : DbOp) (w : World) :
  (db_fails w (db_ops w) = false
   /\ db op w = (Returns (db_ops w), record_event (EvDb op) w))
  \/ (db_fails w (db_ops w) = true /\ db op w = (Throws Obs.dbError, w)).
Proof.
  unfold db. destruct (db_fails w (db_ops w)); [right | left]; now split.
Qed.

Lemma storeDetails_outcome (id : nat) :
  forall entries w,
  exists o w',
    Generation.storeDetails id entries w = (o, w')
    /\ db_fails w' = db_fails w
    /\ match o with
       | Returns _ => db_ops w' = (db_ops w + List.length entries)%nat
       | Throws e => e = Obs.dbError /\ exists n, db_fails w n = true
       | Diverges => False
       end.
Proof.
  induction entries as [| [metricType detail] rest IH]; intros w.
  - exists (Returns tt), w. cbn. repeat split. lia.
  - cbn [Generation.storeDetails]. unfold bind at 1.
    destruct (db_outcome
                (MetricCalculationCreate id metricType
                   (Num.or_else (score detail) (Fin 0))) w)
      as [[F E] | [F E]]; rewrite E.
    + destruct (IH (record_event
                      (EvDb (MetricCalculationCreate id metricType
                               (Num.or_else (score detail) (Fin 0)))) w))
        as (o & w' & E' & Hf & Ho).
      exists o, w'. split; [exact E' |]. split; [exact Hf |].
      destruct o as [[] | e |]; [| | exact Ho].
      * rewrite Ho. cbn [db_ops record_event is_db_event List.length]. lia.
      * destruct Ho as [He [n Hn]]. split; [exact He |]. now exists n.
    + exists (Throws Obs.dbError), w. repeat split. now exists (db_ops w).
Qed.

Lemma processResults_outcome (experiment : nat) (prompt : string) :
  forall results acc totals w,
  exists o w',
    Generation.processResults experiment prompt results acc totals w = (o, w')
    /\ db_fails w' = db_fails w
    /\ match o with
       | Returns out =>
           exists added,
             fst out = (acc ++ added)%list
             /\ Forall2 (Obs.responseOf prompt) added results
             /\ db_ops w' = (db_ops w + 5 * List.length results)%nat
       | Throws e => e = Obs.dbError /\ exists n, db_fails w n = true
       | Diverges => False
       end.
Proof.
  induction results as [| r rest IH]; intros acc totals w.
  - exists (Returns (acc, totals)), w. cbn [Generation.processResults ret].
    repeat split. exists []. cbn [fst List.length].
    rewrite app_nil_r. repeat split; [constructor | lia].
  - cbn [Generation.processResults]. unfold bind at 1.
    destruct (db_outcome (ResponseCreate experiment (content (result r))) w)
      as [[F E] | [F E]]; rewrite E.
    2:{ exists (Throws Obs.dbError), w. repeat split.
        now exists (db_ops w). }
    set (w1 := record_event _ w). unfold bind at 1.
    destruct (storeDetails_outcome (db_ops w)
                (details (calculateAllMetrics (content (result r)) prompt))
                w1)
      as (o & w2 & E2 & F2 & O2).
    rewrite E2. destruct o as [[] | e |]; [| | contradiction].
    2:{ exists (Throws e), w2. split; [reflexivity |].
        split; [exact F2 |]. destruct O2 as [He [n Hn]].
        split; [exact He |]. now exists n. }
    match goal with
    | |- context [Generation.processResults _ _ rest ?acc' ?totals' w2] =>
        destruct (IH acc' totals' w2) as (o & w3 & E3 & F3 & O3)
    end.
    exists o, w3. split; [exact E3 |].
    split; [rewrite F3, F2; reflexivity |].
    destruct o as [out | e |]; [| | exact O3].
    + destruct O3 as (added & Hacc & Hall & Hops).
      eexists (_ :: added). split; [| split].
      * rewrite Hacc, <- app_assoc. reflexivity.
      * constructor; [| exact Hall]. repeat split.
      * rewrite Hops, O2. subst w1.
        cbn [db_ops record_event is_db_event List.length
                    calculateAllMetrics details].
        lia.
    + destruct O3 as [He [n Hn]]. split; [exact He |].
      exists n. rewrite F2 in Hn. exact Hn.
Qed.

Lemma sampler_returns (range : ParameterRange) (runs : number) (w : World) :
  Num.gt runs (Fin 20) = false ->
  exists n combinations,
    loop_bound runs = Some n
    /\ Generation.generateParameterCombinations range runs w
       = (Returns combinations, Spec.skip (3 * n) w)
    /\ List.length combinations = n.
Proof.
  intros G. unfold Generation.generateParameterCombinations.
  destruct runs as [q | | |]; cbn [loop_bound]; try discriminate.
  - destruct (sampleLoop_shape range (Z.to_nat (Qceiling q)) [] w)
      as (added & E & L & _).
    now exists (Z.to_nat (Qceiling q)), added.
  - now exists 0%nat, [].
  - now exists 0%nat, [].
Qed.

Lemma Forall2_map_eq {A B C} (f : A -> C) (g : B -> C)
      (P : A -> B -> Prop) (xs : list A) (ys : list B) :
  (forall x y, P x y -> f x = g y) ->
  Forall2 P xs ys -> map f xs = map g ys.
Proof.
  intros H F. induction F as [| x y xs ys Hxy _ IH]; cbn [map].
  - reflexivity.
  - now rewrite (H x y Hxy), IH.
Qed.

Lemma Forall2_Forall {A B} (P : A -> B -> Prop) (Q : B -> Prop)
      (R : A -> Prop) (xs : list A) (ys : list B) :
  (forall x y, P x y -> Q y -> R x) ->
  Forall2 P xs ys -> Forall Q ys -> Forall R xs.
Proof.
  intros H F. induction F as [| x y xs ys Hxy _ IH]; intros HQ.
  - constructor.
  - inversion HQ; subst. constructor; [now apply (H x y) | now apply IH].
Qed.

Ltac answered B L :=
  do 2 eexists;
  (split; [exact B |]); (split; [reflexivity |]);
  (split; [exact L |]); (split; [reflexivity |]).

(** What the route does once the request is accepted and the sampler has
    run, in terms of the outcome of the persistence operations. *)
Lemma post_accepted llmService req w prompt range runs :
  Generation.requiredFields req = Some (prompt, range, runs) ->
  Num.gt runs (Fin 20) = false ->
  exists n combinations answer w',
    loop_bound runs = Some n
    /\ Generation.generateParameterCombinations range runs (next_random w)
       = (Returns combinations, Spec.skip (3 * n) (next_random w))
    /\ List.length combinations = n
    /\ Generation.post llmService req w = (Returns answer, w')
    /\ ((exists data message,
            answer = {| status := 200; body := Success data message |}
            /\ experimentId data = db_ops w
            /\ totalRuns data = Num.of_nat n
            /\ map response_parameters (responses data) = combinations
            /\ Forall (fun r =>
                         response_content r <> ""
                         /\ response_metrics r
                            = metrics (calculateAllMetrics
                                         (response_content r) prompt))
                      (responses data)
            /\ db_ops w' = (db_ops w + 5 * n + 2)%nat)
        \/ (answer = {| status := 500;
                        body := Failure "Failed to generate responses"
                                        (Some "database operation failed") |}
            /\ exists k, db_fails w k = true)).
Proof.
  intros R G.
  destruct (sampler_returns range runs (next_random w) G)
    as (n & combinations & B & S & L).
  exists n, combinations.
  unfold Generation.post, bind at 1, Math_random, try_catch.
  rewrite R, G. unfold bind at 1. rewrite S.
  set (w1 := Spec.skip (3 * n) (next_random w)).
  assert (F1 : db_fails w1 = db_fails w) by apply (skip_db _ (next_random w)).
  assert (O1 : db_ops w1 = db_ops w) by apply (skip_db _ (next_random w)).
  unfold bind at 1.
  destruct (db_outcome (ExperimentCreate prompt runs) w1)
    as [[F E] | [F E]]; rewrite E.
  2:{ cbn [Generation.reject ret Obs.dbError error_message].
      answered B L.
      right. split; [reflexivity |]. exists (db_ops w1). now rewrite <- F1. }
  set (w2 := record_event _ w1).
  unfold bind at 1.
  destruct (batchLoop_results llmService prompt (List.length combinations)
              combinations 0%nat [] (next_random w2))
    as (results & w3 & E3 & Hparams & Hcontent).
  cbn [app] in E3.
  assert (E3' : LLM.generateMultipleResponses llmService prompt
                  combinations w2 = (Returns results, w3)).
  { unfold LLM.generateMultipleResponses, bind, Math_random. exact E3. }
  pose proof (keeps_generateMultipleResponses llmService prompt
                combinations w2) as K.
  rewrite E3' in K |- *. cbn [snd] in K. destruct K as [F3 O3].
  unfold bind at 1.
  destruct (processResults_outcome (db_ops w1) prompt results []
              Generation.noTotals w3) as (o & w4 & E4 & F4 & O4).
  rewrite E4. destruct o as [[responses' totals] | e |];
    [| | contradiction].
  2:{ destruct O4 as [-> [k Hk]].
      cbn [Generation.reject ret Obs.dbError error_message].
      answered B L.
      right. split; [reflexivity |]. exists k.
      rewrite F3 in Hk. change (db_fails w1 k = true) in Hk.
      now rewrite F1 in Hk. }
  destruct O4 as (added & Hacc & Hall & Hops).
  cbn [fst app] in Hacc. subst responses'.
  unfold bind at 1.
  destruct (db_outcome
              (ExperimentUpdate (db_ops w1)
                 (Num.of_nat (List.length added))) w4)
    as [[F5 E5] | [F5 E5]]; rewrite E5.
  2:{ cbn [Generation.reject ret Obs.dbError error_message].
      answered B L.
      right. split; [reflexivity |]. exists (db_ops w4).
      rewrite F4, F3 in F5. change (db_fails w1 (db_ops w4) = true) in F5.
      now rewrite F1 in F5. }
  cbn [ret]. answered B L.
  left. do 2 eexists. split; [reflexivity |].
  assert (Hlen : List.length added = n).
  { rewrite (Forall2_length Hall), <- L, <- Hparams. now rewrite length_map. }
  cbn [experimentId totalRuns responses].
  split; [exact O1 |]. split; [now rewrite Hlen |].
  split; [| split].
  - rewrite <- Hparams.
    apply (Forall2_map_eq response_parameters parameters
                          (Obs.responseOf prompt) added results);
      [| exact Hall].
    intros x y H. apply H.
  - apply (Forall2_Forall (Obs.responseOf prompt)
                          (fun b => content (result b) <> "") _
                          added results);
      [| exact Hall | exact Hcontent].
    intros x y (Hc & _ & Hm & _) Hy. rewrite Hc. now split.
  - cbn [db_ops record_event is_db_event]. rewrite Hops, O3.
    subst w2. cbn [db_ops record_event is_db_event].
    rewrite O1, <- (Forall2_length Hall), Hlen. lia.
Qed.


(** X22.  With a persistence layer that does not fail, a request for at
    most twenty runs with its three required fields is answered with
    status 200 and one response for each sampled parameter tuple, in the
    order of sampling; each response carries a non-empty text and the
    scores of that text against the prompt; the run count of the answer
    is the number of responses; and the route performs two persistence
    operations for the experiment and five for each response. *)
Theorem post_stores_every_response
        (llmService : LLMService) (req : GenerationRequest) (w : World)
        (prompt : string) (range : ParameterRange) (runs : number) :
  Generation.requiredFields req = Some (prompt, range, runs) ->
  Num.gt runs (Fin 20) = false ->
  Obs.db_works w ->
  exists combinations w1 data message w',
    Generation.generateParameterCombinations range runs (next_random w)
    = (Returns combinations, w1)
    /\ Generation.post llmService req w
       = (Returns {| status := 200; body := Success data message |}, w')
    /\ map response_parameters (responses data) = combinations
    /\ totalRuns data = Num.of_nat (List.length (responses data))
    /\ Forall (fun r =>
                 response_content r <> ""
                 /\ response_metrics r
                    = metrics (calculateAllMetrics (response_content r)
                                                   prompt))
              (responses data)
    /\ db_ops w'
       = (db_ops w + 5 * List.length (responses data) + 2)%nat.
Proof.
  intros R G W.
  destruct (post_accepted llmService req w prompt range runs R G)
    as (n & combinations & answer & w' & _ & S & L & E & H).
  destruct H as [(data & message & -> & _ & T & P & F & O) | (_ & k & Hk)].
  - exists combinations, (Spec.skip (3 * n) (next_random w)), data, message, w'.
    assert (Hn : List.length (responses data) = n).
    { rewrite <- L, <- P. now rewrite length_map. }
    rewrite Hn. repeat split; assumption.
  - rewrite (W k) in Hk. discriminate.
Qed.

Lemma post_stores_every_response_sample :
  let svc := LLM.constructor Obs.noCredentials in
  let w := Sample.world Obs.answering in
  exists combinations w1 data message w',
    Generation.generateParameterCombinations Sample.range (Fin 2.5)
                                             (next_random w)
    = (Returns combinations, w1)
    /\ Generation.post svc (Sample.request (Fin 2.5)) w
       = (Returns {| status := 200; body := Success data message |}, w')
    /\ map response_parameters (responses data) = combinations
    /\ totalRuns data = Num.of_nat (List.length (responses data))
    /\ Forall (fun r =>
                 response_content r <> ""
                 /\ response_metrics r
                    = metrics (calculateAllMetrics (response_content r)
                                                   "Explain rain"))
              (responses data)
    /\ db_ops w'
       = (db_ops w + 5 * List.length (responses data) + 2)%nat.
Proof.
  intros svc w.
  apply (post_stores_every_response svc (Sample.request (Fin 2.5)) w
           "Explain rain" Sample.range (Fin 2.5)).
  - reflexivity.
  - reflexivity.
  - intros n. reflexivity.
Defined.

(** ** The summary of the export route *)

Lemma or_zero_not_NaN (v : option number) : ExportRoute.or_zero v <> NaN.
Proof.
  unfold ExportRoute.or_zero, Num.or_else.
  destruct v as [[q | | |] |]; cbn [Num.truthy]; try discriminate.
  destruct (negb (Num.is_zero q)); discriminate.
Qed.

Lemma lt_asym (a b : number) : Num.lt a b = true -> Num.lt b a = false.
Proof.
  destruct a as [x | | |], b as [y | | |]; cbn [Num.lt]; try congruence.
  rewrite negb_true_iff, negb_false_iff. intros H.
  apply Qle_bool_iff. apply Qlt_le_weak, Qnot_le_lt.
  intros L. apply Qle_bool_iff in L. congruence.
Qed.

(** "Not below" is transitive away from [NaN]. *)
Lemma not_lt_trans (a b c : number) :
  b <> NaN -> Num.lt a b = false -> Num.lt b c = false -> Num.lt a c = false.
Proof.
  destruct a as [x | | |], b as [y | | |], c as [z | | |];
    cbn [Num.lt]; try congruence.
  rewrite !negb_false_iff. intros _ H1 H2.
  apply Qle_bool_iff in H1, H2. apply Qle_bool_iff.
  eapply Qle_trans; eassumption.
Qed.

Section Extreme.

Variable prefer : number -> number -> bool.
Hypothesis prefer_asym :
  forall a b, prefer a b = true -> prefer b a = false.
Hypothesis prefer_trans :
  forall a b c, b <> NaN ->
                prefer b a = false -> prefer c b = false ->
                prefer c a = false.

(** The fold of [findBestResponse] and of [findWorstResponse]: it
    returns one of the elements, and none of them is preferred to it. *)
Lemma reduce_extreme (rest : list StoredResult) :
  forall first : StoredResult,
    let chosen :=
      fold_left
        (fun best current =>
           if prefer (Stored.score current) (Stored.score best)
           then current else best)
        rest first in
    In chosen (first :: rest)
    /\ forall r, In r (first :: rest) ->
                 prefer (Stored.score r) (Stored.score chosen) = false.
Proof.
  induction rest as [| c rest IH]; intros first; cbn [fold_left].
  - split; [now left |]. intros r [<- | []].
    destruct (prefer (Stored.score first) (Stored.score first)) eqn:E;
      [| reflexivity].
    now rewrite (prefer_asym _ _ E) in E.
  - set (a := if prefer (Stored.score c) (Stored.score first)
              then c else first).
    destruct (IH a) as [Hin Hall]. cbv zeta in Hin, Hall.
    set (chosen := fold_left _ rest a) in *.
    assert (Ha : prefer (Stored.score a) (Stored.score chosen) = false)
      by (apply Hall; now left).
    assert (Hfirst : prefer (Stored.score first) (Stored.score a) = false
                     /\ prefer (Stored.score c) (Stored.score a) = false
                     /\ (a = first \/ a = c)).
    { subst a.
      destruct (prefer (Stored.score c) (Stored.score first)) eqn:E.
      - split; [now apply prefer_asym |]. split; [| now right].
        destruct (prefer (Stored.score c) (Stored.score c)) eqn:E';
          [| reflexivity].
        now rewrite (prefer_asym _ _ E') in E'.
      - split; [| split; [exact E | now left]].
        destruct (prefer (Stored.score first) (Stored.score first)) eqn:E';
          [| reflexivity].
        now rewrite (prefer_asym _ _ E') in E'. }
    destruct Hfirst as (Hf & Hc & Hor).
    split.
    + destruct Hin as [<- | Hin].
      * destruct Hor as [-> | ->]; [now left | now right; left].
      * now right; right.
    + intros r [<- | [<- | Hr]].
      * apply (prefer_trans _ (Stored.score a));
          [apply or_zero_not_NaN | exact Ha | exact Hf].
      * apply (prefer_trans _ (Stored.score a));
          [apply or_zero_not_NaN | exact Ha | exact Hc].
      * apply Hall. now right.
Qed.

End Extreme.

(** X23.  [findBestResponse] returns [null] exactly for no response at
    all; otherwise it returns one of the responses, and no response has a
    higher overall score, a missing, zero or [NaN] score counting as
    zero. *)
Theorem findBestResponse_is_best (results : list StoredResult) :
  match ExportSummary.findBestResponse results with
  | None => results = []
  | Some best =>
      In best results
      /\ forall r, In r results ->
                   Num.gt (Stored.score r) (Stored.score best) = false
  end.
Proof.
  destruct results as [| first rest]; [reflexivity |].
  cbn [ExportSummary.findBestResponse].
  apply (reduce_extreme Num.gt).
  - intros a b. apply lt_asym.
  - intros a b c Hb H1 H2. unfold Num.gt in *.
    now apply (not_lt_trans a b c).
Qed.

(** X24.  [findWorstResponse] returns [null] exactly for no response at
    all; otherwise it returns one of the responses, and no response has a
    lower overall score, a missing, zero or [NaN] score counting as
    zero. *)
Theorem findWorstResponse_is_worst (results : list StoredResult) :
  match ExportSummary.findWorstResponse results with
  | None => results = []
  | Some worst =>
      In worst results
      /\ forall r, In r results ->
                   Num.lt (Stored.score r) (Stored.score worst) = false
  end.
Proof.
  destruct results as [| first rest]; [reflexivity |].
  cbn [ExportSummary.findWorstResponse].
  apply (reduce_extreme Num.lt).
  - intros a b. apply lt_asym.
  - intros a b c Hb H1 H2. now apply (not_lt_trans c b a).
Qed.

(** ** The averages of the export route *)







(** ** The keep-alive service *)


